(** * NEW-DASHBOARD backend: CVR reconciliation and budget alerting

    A shallow embedding of the parts of the backend that the specification
    talks about, followed by their properties.

    - [Str], [Fmt], [Sql]: Python string operations, number formatting
      and the SQL [LIKE] behind [Column.contains]
    - [UpdateCvr]: the ledger updater of backend/utils/update_cvr.py
    - [Models]: the tables, enumerations and request models of
      backend/models.py
    - [Crud]: the budget, alert and metrics functions of backend/crud.py
    - [CrudFloat]: the budget check of backend/crud.py with the results of
      the floating-point operations as parameters
    - [BudgetCheck]: backend/utils/budget_check.py
    - [ParsePnl]: backend/utils/parse_pnl.py
    - [ParseInvoice]: backend/utils/parse_invoice.py
    - [CvrBatch]: the batch pass of backend/utils/update_cvr.py
    - [CrudOps]: the row operations, summaries and search of
      backend/crud.py
    - [StrOps], [CvrDashboard]: reading the ledger back, the update of
      several jobs and the templates of backend/utils/update_cvr.py
    - [BudgetCheckAll], [PnlMappings], [InvoiceQueries]: the check of all
      jobs, the job mappings and the queries on a parsed report of the
      three modules above

    Conventions of the embedding.

    - Python [float]/[int] amounts are exact rationals ([Q]); the rounding
      of binary floating point is not modelled, except in [CrudFloat].
    - Python [str] is [string] (a sequence of bytes); case conversion,
      digits and white space are the ASCII ones.
    - A function that can raise returns [res A]; a [try]/[except Exception]
      block is a [match] on that result.
    - An attribute, enumeration member or keyword parameter that the code
      names is looked up by that name, so that a name the declaration does
      not have raises as it does in Python.
    - Clock readings ([datetime.now()], [datetime.utcnow()]) are explicit
      arguments, one reading per call.
    - Files are values: a workbook is given as loaded, and a function that
      saves returns the file contents as they are afterwards. *)

From Stdlib Require Import ZArith QArith Qabs Ascii String List Bool Lia DecimalString Sorted.
From stdpp Require Import base option gmap strings list fin_maps.

Open Scope string_scope.

(** ** Exceptions and results *)

Inductive exn : Type :=
  | TypeError (what : string)
  | AttributeError (name : string)
  | KeyError (key : string)
  | ValueError (what : string)
  | ZeroDivisionError
  | FileNotFoundError (what : string)
  | ValidationError (what : string)
  | IntegrityError (what : string).

Inductive res (A : Type) : Type :=
  | Ok (a : A)
  | Raise (e : exn).
Arguments Ok {A} a.
Arguments Raise {A} e.

#[global] Instance res_ret : MRet res := fun _ a => Ok a.
#[global] Instance res_bind : MBind res := fun _ _ f m =>
  match m with
  | Ok a => f a
  | Raise e => Raise e
  end.

Definition is_ok {A} (r : res A) : bool :=
  match r with Ok _ => true | Raise _ => false end.

(** ** Python values that reach the code: [None], numbers, strings *)

Inductive pyval : Type :=
  | PyNone
  | PyNum (q : Q)
  | PyStr (s : string).

Definition Qltb (x y : Q) : bool := negb (Qle_bool y x).

(** [v < 0] *)
Definition py_lt0 (v : pyval) : res bool :=
  match v with
  | PyNum q => Ok (Qltb q 0)
  | PyNone => Raise (TypeError "'<' not supported between NoneType and int")
  | PyStr _ => Raise (TypeError "'<' not supported between str and int")
  end.

(** [v or 0] *)
Definition py_or0 (v : pyval) : pyval :=
  match v with
  | PyNone => PyNum 0
  | PyNum q => if Qeq_bool q 0 then PyNum 0 else PyNum q
  | PyStr "" => PyNum 0
  | PyStr s => PyStr s
  end.

(** [total + amount] where [total] is already a number *)
Definition py_add_num (total : Q) (amount : pyval) : res Q :=
  match amount with
  | PyNum q => Ok (total + q)%Q
  | PyNone => Raise (TypeError "unsupported operand type(s) for +: NoneType")
  | PyStr _ => Raise (TypeError "unsupported operand type(s) for +: str")
  end.

(** ** Strings *)

Module Str.

Definition is_upper (c : ascii) : bool :=
  let n := N_of_ascii c in ((65 <=? n) && (n <=? 90))%N.
Definition is_lower (c : ascii) : bool :=
  let n := N_of_ascii c in ((97 <=? n) && (n <=? 122))%N.
Definition is_digit (c : ascii) : bool :=
  let n := N_of_ascii c in ((48 <=? n) && (n <=? 57))%N.
Definition is_alpha (c : ascii) : bool := is_upper c || is_lower c.

(** ASCII white space as [str.strip()] sees it. *)
Definition is_space (c : ascii) : bool :=
  let n := N_of_ascii c in
  (((9 <=? n) && (n <=? 13)) || ((28 <=? n) && (n <=? 32)))%N.

Definition lower_char (c : ascii) : ascii :=
  if is_upper c then ascii_of_N (N_of_ascii c + 32) else c.
Definition upper_char (c : ascii) : ascii :=
  if is_lower c then ascii_of_N (N_of_ascii c - 32) else c.

Fixpoint map (f : ascii -> ascii) (s : string) : string :=
  match s with
  | "" => ""
  | String c s' => String (f c) (map f s')
  end.

Definition lower : string -> string := map lower_char.
Definition upper : string -> string := map upper_char.

Fixpoint lstrip (s : string) : string :=
  match s with
  | "" => ""
  | String c s' => if is_space c then lstrip s' else s
  end.

Fixpoint rstrip (s : string) : string :=
  match s with
  | "" => ""
  | String c s' =>
      match rstrip s' with
      | "" => if is_space c then "" else String c ""
      | r => String c r
      end
  end.

Definition strip (s : string) : string := rstrip (lstrip s).

Definition startswith (s p : string) : bool := String.prefix p s.

(** Substring search over a character comparison [ceq] (pattern character
    first): [prefix_by ceq p s] tells whether [s] starts with [p]. *)
Fixpoint prefix_by (ceq : ascii -> ascii -> bool) (p s : string) : bool :=
  match p with
  | "" => true
  | String a p' =>
    match s with
    | "" => false
    | String b s' => ceq a b && prefix_by ceq p' s'
    end
  end.

Fixpoint contains_by (ceq : ascii -> ascii -> bool) (hay needle : string) : bool :=
  prefix_by ceq needle hay ||
  match hay with
  | "" => false
  | String _ hay' => contains_by ceq hay' needle
  end.

(** [needle in hay] *)
Definition contains (hay needle : string) : bool :=
  contains_by Ascii.eqb hay needle.

(** [any(k in s for k in keywords)] *)
Definition any_in (keywords : list string) (s : string) : bool :=
  existsb (contains s) keywords.

Fixpoint forallb (p : ascii -> bool) (s : string) : bool :=
  match s with
  | "" => true
  | String c s' => p c && forallb p s'
  end.

End Str.

(** ** Fixed-point formatting of numbers: [f"{x:.2f}"], [f"{x:,.2f}"], [f"{x:.1f}"] *)

Module Fmt.

Definition pow10 (d : nat) : Z := 10 ^ Z.of_nat d.

(** Nearest integer of a non-negative rational, ties to even. *)
Definition round_half_even (q : Q) : Z :=
  let a := Qnum q in
  let b := Z.pos (Qden q) in
  let k := (a / b)%Z in
  let r := (a mod b)%Z in
  match (2 * r ?= b)%Z with
  | Lt => k
  | Gt => (k + 1)%Z
  | Eq => if Z.even k then k else (k + 1)%Z
  end.

Definition digit (n : Z) : ascii := ascii_of_N (48 + Z.to_N n).

(** Exactly [d] decimal digits of [n], most significant first. *)
Fixpoint pad (d : nat) (n : Z) : string :=
  match d with
  | O => ""
  | S d' => pad d' (n / 10) ++ String (digit (n mod 10)) ""
  end.

Definition digits (n : Z) : string := NilZero.string_of_uint (N.to_uint (Z.to_N n)).

(** Thousands separators. *)
Fixpoint group3 (s : string) : string :=
  match s with
  | "" => ""
  | String c s' =>
      String c
        (if (0 <? String.length s')%nat && (String.length s' mod 3 =? 0)%nat
         then "," ++ group3 s' else group3 s')
  end.

Definition fixed (grouping : bool) (d : nat) (q : Q) : string :=
  let k := round_half_even (Qabs q * inject_Z (pow10 d)) in
  let ip := digits (k / pow10 d) in
  (if Qltb q 0 then "-" else "") ++
  (if grouping then group3 ip else ip) ++
  match d with
  | O => ""
  | S _ => "." ++ pad d (k mod pow10 d)
  end.

(** A format specification applied to a Python value: only numbers format. *)
Definition format (grouping : bool) (d : nat) (v : pyval) : res string :=
  match v with
  | PyNum q => Ok (fixed grouping d q)
  | PyNone => Raise (TypeError "unsupported format string passed to NoneType.__format__")
  | PyStr _ => Raise (ValueError "Unknown format code 'f' for object of type 'str'")
  end.

End Fmt.

(** ** backend/utils/update_cvr.py *)

Module UpdateCvr.

(** A worksheet maps cell coordinates to values; a cell that was never
    written reads as [None].  A coordinate is (column, row), so that
    [A1 = (1,1)] and [C3 = (3,3)]: the rule file's addresses are taken as
    already resolved by the spreadsheet library, and the sheet titles
    [Job_<code>] as acceptable to it. *)
Abbreviation Coord := (positive * positive)%type.
Abbreviation Sheet := (gmap (positive * positive) pyval).
Abbreviation Workbook := (gmap string (gmap (positive * positive) pyval)).

Definition A1 : Coord := (1, 1)%positive.
Definition A2 : Coord := (1, 2)%positive.
Definition B2 : Coord := (2, 2)%positive.
Definition C2 : Coord := (3, 2)%positive.
Definition C3 : Coord := (3, 3)%positive.
Definition C4 : Coord := (3, 4)%positive.
Definition C5 : Coord := (3, 5)%positive.
Definition C6 : Coord := (3, 6)%positive.
Definition C7 : Coord := (3, 7)%positive.
Definition C8 : Coord := (3, 8)%positive.
Definition C9 : Coord := (3, 9)%positive.
Definition C10 : Coord := (3, 10)%positive.
Definition C11 : Coord := (3, 11)%positive.
Definition C12 : Coord := (3, 12)%positive.
Definition E1 : Coord := (5, 1)%positive.
Definition E2 : Coord := (5, 2)%positive.
Definition E3 : Coord := (5, 3)%positive.
Definition E4 : Coord := (5, 4)%positive.
Definition F2 : Coord := (6, 2)%positive.
Definition F3 : Coord := (6, 3)%positive.
Definition F4 : Coord := (6, 4)%positive.

(** [sheet[addr].value] *)
Definition cell_value (sheet : Sheet) (addr : Coord) : pyval :=
  default PyNone (sheet !! addr).

(** [isinstance(v, str) and v.startswith('=')] *)
Definition is_formula (v : pyval) : bool :=
  match v with
  | PyStr s => Str.startswith s "="
  | _ => false
  end.

(** [self.update_rules]: the keys the updater reads.  An absent
    condition is [None]; the code then takes its default, [True]. *)
Record Rules : Type := {
  cell_mappings : gmap string (positive * positive);
  cost_categories : gmap string (list string);
  only_positive_values : option bool;
  preserve_formulas : option bool
  }.

(** [create_default_rules] *)
Definition default_rules : Rules := {|
  cell_mappings :=
    list_to_map
      [("total_contract_value", C3); ("total_invoiced", C4);
       ("total_costs", C5); ("material_costs", C6);
       ("labour_costs", C7); ("plant_costs", C8);
       ("subcontract_costs", C9); ("projected_margin", C10);
       ("variations_approved", C11); ("variations_pending", C12)];
  cost_categories :=
    list_to_map
      [("material", ["Material"; "Materials"; "MATERIALS"; "MAT"]);
       ("labour", ["Labour"; "Labor"; "LABOUR"; "LAB"; "Wages"]);
       ("plant", ["Plant"; "PLANT"; "Machinery"; "Equipment"; "EQUIP"]);
       ("subcontract", ["Subcontract"; "SUB"; "Subcontractor"; "SC"])];
  only_positive_values := Some true;
  preserve_formulas := Some true
  |}.

(** [self.update_rules = {}] as [__init__] leaves it. *)
Definition empty_rules : Rules := {|
  cell_mappings := ∅;
  cost_categories := ∅;
  only_positive_values := None;
  preserve_formulas := None
  |}.

(** [_update_cell]: the new sheet and the returned flag. *)
Definition _update_cell (rules : Rules) (sheet : Sheet) (cell_key : string)
    (value : pyval) : res (bool * Sheet) :=
  match cell_mappings rules !! cell_key with
  | None => Ok (false, sheet)
  | Some cell_address =>
      negative ← (if default true (only_positive_values rules)
                  then py_lt0 value else Ok false);
      if negative : bool then Ok (false, sheet)
      else if default true (preserve_formulas rules)
              && is_formula (cell_value sheet cell_address)
      then Ok (false, sheet)
      else Ok (true, <[cell_address := value]> sheet)
  end.

(** [_calculate_category_cost] *)
Definition keyword_hit (category_keywords : list string) (expense_type : string) : bool :=
  existsb (fun keyword => Str.contains (Str.lower expense_type) (Str.lower keyword))
          category_keywords.

Fixpoint sum_matching (category_keywords : list string)
    (items : list (string * pyval)) (total_cost : Q) : res Q :=
  match items with
  | [] => Ok total_cost
  | (expense_type, amount) :: rest =>
      if keyword_hit category_keywords expense_type
      then total ← py_add_num total_cost amount;
           sum_matching category_keywords rest total
      else sum_matching category_keywords rest total_cost
  end.

Definition _calculate_category_cost (rules : Rules)
    (expense_breakdown : list (string * pyval)) (category : string) : res Q :=
  sum_matching (default [] (cost_categories rules !! category)) expense_breakdown 0.

(** [_setup_default_cvr_structure] *)
Definition default_items : list (string * string) :=
  [("Contract Value", "Original contract value");
   ("Total Invoiced", "Total amount invoiced");
   ("Total Costs", "Total costs incurred");
   ("Material Costs", "Material and supplies");
   ("Labour Costs", "Labour and wages");
   ("Plant Costs", "Plant and equipment");
   ("Subcontract Costs", "Subcontractor costs");
   ("Projected Margin", "Projected profit margin");
   ("Variations Approved", "Approved variations");
   ("Variations Pending", "Pending variations")].

Fixpoint write_items (items : list (string * string)) (i : positive) (sheet : Sheet) : Sheet :=
  match items with
  | [] => sheet
  | (item, desc) :: rest =>
      write_items rest (Pos.succ i)
        (<[(3, i)%positive := PyNum 0]>
           (<[(2, i)%positive := PyStr desc]>
              (<[(1, i)%positive := PyStr item]> sheet)))
  end.

Definition _setup_default_cvr_structure (sheet : Sheet) : Sheet :=
  write_items default_items 3
    (<[C2 := PyStr "Amount (£)"]>
       (<[B2 := PyStr "Description"]>
          (<[A2 := PyStr "Item"]>
             (<[A1 := PyStr "Cost Value Reconciliation"]> sheet)))).

Definition sheet_name (job_code : string) : string := "Job_" ++ job_code.

(** [_get_or_create_job_sheet]: the job's sheet, an existing one, a copy
    of [Template], or a fresh default one. *)
Definition _get_or_create_job_sheet (wb : Workbook) (job_code : string) : Sheet :=
  match wb !! sheet_name job_code with
  | Some sheet => sheet
  | None =>
      match wb !! "Template" with
      | Some template_sheet => template_sheet
      | None => _setup_default_cvr_structure ∅
      end
  end.

(** The result dictionaries: ['success': True] with the update lines, or
    ['success': False] with an error. *)
Inductive failure : Type :=
  | JobNotFound (job_code : string)
  | Exception (e : exn).

Inductive UpdateResult : Type :=
  | Success (updates : list string) (job_code : string)
  | Failure (error : failure).

Definition update_line (label amount : string) : string :=
  label ++ ": £" ++ amount.

(** The pattern
    [if self._update_cell(sheet, key, v): updates.append(f"Label: £{v:,.2f}")] *)
Definition update_field (rules : Rules) (label cell_key : string) (value : pyval)
    (st : list string * Sheet) : res (list string * Sheet) :=
  '(updated, sheet) ← _update_cell rules st.2 cell_key value;
  if updated : bool
  then amount ← Fmt.format true 2 value;
       Ok (app st.1 [update_line label amount], sheet)
  else Ok (st.1, sheet).

(** The job's entry of parsed P&L data, with the keys the updater reads. *)
Record PnlJob : Type := {
  total_expenses : option pyval;
  expense_breakdown : option (list (string * pyval))
  }.

Definition category_field (rules : Rules) (job_data : PnlJob)
    (label cell_key category : string) (st : list string * Sheet)
    : res (list string * Sheet) :=
  cost ← _calculate_category_cost rules (default [] (expense_breakdown job_data)) category;
  update_field rules label cell_key (PyNum cost) st.

Definition stamp (ts : string) (sheet : Sheet) : Sheet :=
  <[A1 := PyStr ("Last updated: " ++ ts)]> sheet.

(** The body of [update_cvr_with_pnl] between the look-up of the job and
    [wb.save]. [ts] is [datetime.now().strftime(...)]. *)
Definition pnl_body (rules : Rules) (ts : string) (sheet : Sheet) (job_data : PnlJob)
    : res (list string * Sheet) :=
  let total_costs := default (PyNum 0) (total_expenses job_data) in
  st ← update_field rules "Total costs" "total_costs" total_costs ([], sheet);
  st ← category_field rules job_data "Material costs" "material_costs" "material" st;
  st ← category_field rules job_data "Labour costs" "labour_costs" "labour" st;
  st ← category_field rules job_data "Plant costs" "plant_costs" "plant" st;
  st ← category_field rules job_data "Subcontract costs" "subcontract_costs" "subcontract" st;
  Ok (st.1, stamp ts st.2).

(** [update_cvr_with_pnl]: the returned dictionary and the workbook file
    as it is afterwards (saved only on success). *)
Definition update_cvr_with_pnl (rules : Rules) (ts : string) (wb : Workbook)
    (pnl_data : gmap string PnlJob) (job_code : string) : UpdateResult * Workbook :=
  let sheet := _get_or_create_job_sheet wb job_code in
  match pnl_data !! job_code with
  | None => (Failure (JobNotFound job_code), wb)
  | Some job_data =>
      match pnl_body rules ts sheet job_data with
      | Ok (updates, sheet') =>
          (Success updates job_code, <[sheet_name job_code := sheet']> wb)
      | Raise e => (Failure (Exception e), wb)
      end
  end.

(** The job's entry of parsed invoice data. *)
Record InvoiceJob : Type := {
  total_invoiced : option pyval;
  total_paid : option pyval;
  outstanding_balance : option pyval;
  payment_rate : option pyval
  }.

(** [contract_value - total_costs], the left operand being a number. *)
Definition py_sub_num (x : Q) (v : pyval) : res Q :=
  match v with
  | PyNum q => Ok (x - q)%Q
  | PyNone => Raise (TypeError "unsupported operand type(s) for -: NoneType")
  | PyStr _ => Raise (TypeError "unsupported operand type(s) for -: str")
  end.

Definition margin_field (rules : Rules) (st : list string * Sheet)
    : res (list string * Sheet) :=
  let contract_value_cell := default C3 (cell_mappings rules !! "total_contract_value") in
  match py_or0 (cell_value st.2 contract_value_cell) with
  | PyNum contract_value =>
      if Qltb 0 contract_value
      then
        let total_costs_cell := default C5 (cell_mappings rules !! "total_costs") in
        let total_costs := py_or0 (cell_value st.2 total_costs_cell) in
        projected_margin ← py_sub_num contract_value total_costs;
        update_field rules "Projected margin" "projected_margin" (PyNum projected_margin) st
      else Ok st
  | _ => Ok st
  end.

Definition payment_block (job_data : InvoiceJob) (sheet : Sheet) : res Sheet :=
  rate ← Fmt.format false 1 (default (PyNum 0) (payment_rate job_data));
  Ok (<[F4 := PyStr (rate ++ "%")]>
        (<[E4 := PyStr "Payment Rate"]>
           (<[F3 := default (PyNum 0) (outstanding_balance job_data)]>
              (<[E3 := PyStr "Outstanding Balance"]>
                 (<[F2 := default (PyNum 0) (total_paid job_data)]>
                    (<[E2 := PyStr "Total Paid"]>
                       (<[E1 := PyStr "Payment Tracking"]> sheet))))))).

Definition invoice_body (rules : Rules) (ts : string) (sheet : Sheet)
    (job_data : InvoiceJob) : res (list string * Sheet) :=
  let invoiced := default (PyNum 0) (total_invoiced job_data) in
  st ← update_field rules "Total invoiced" "total_invoiced" invoiced ([], sheet);
  st ← margin_field rules st;
  sheet' ← payment_block job_data st.2;
  Ok (st.1, stamp ts sheet').

(** [update_cvr_with_invoice] *)
Definition update_cvr_with_invoice (rules : Rules) (ts : string) (wb : Workbook)
    (invoice_data : gmap string InvoiceJob) (job_code : string)
    : UpdateResult * Workbook :=
  let sheet := _get_or_create_job_sheet wb job_code in
  match invoice_data !! job_code with
  | None => (Failure (JobNotFound job_code), wb)
  | Some job_data =>
      match invoice_body rules ts sheet job_data with
      | Ok (updates, sheet') =>
          (Success updates job_code, <[sheet_name job_code := sheet']> wb)
      | Raise e => (Failure (Exception e), wb)
      end
  end.

(** The job's sheet in the workbook file. *)
Definition job_sheet (wb : Workbook) (job_code : string) : option Sheet :=
  wb !! sheet_name job_code.

End UpdateCvr.

(** ** backend/models.py *)

Module Models.

Inductive ExpenseCategory : Type :=
  | material
  | labour
  | plant_machinery
  | overheads
  | subcontractor.

(** [category.value] *)
Definition ExpenseCategory_value (c : ExpenseCategory) : string :=
  match c with
  | material => "material"
  | labour => "labour"
  | plant_machinery => "plant_machinery"
  | overheads => "overheads"
  | subcontractor => "subcontractor"
  end.

Definition ExpenseCategory_members : list ExpenseCategory :=
  [material; labour; plant_machinery; overheads; subcontractor].

(** The attribute access [ExpenseCategory.<name>]: the member of that name,
    or [AttributeError]. *)
Definition ExpenseCategory_member (name : string) : res ExpenseCategory :=
  match find (fun c => String.eqb (ExpenseCategory_value c) name) ExpenseCategory_members with
  | Some c => Ok c
  | None => Raise (AttributeError name)
  end.

Definition ExpenseCategory_eqb (a b : ExpenseCategory) : bool :=
  String.eqb (ExpenseCategory_value a) (ExpenseCategory_value b).

Inductive JobStatus : Type :=
  | active
  | near_completion
  | completed
  | on_hold.

Inductive VariationStatus : Type :=
  | pending
  | approved
  | rejected.

(** Values of the columns of a row, as an attribute access returns them. *)
Inductive attr : Type :=
  | AInt (n : nat)
  | AFloat (q : Q)
  | AStr (s : string)
  | ABool (b : bool)
  | ACategory (c : ExpenseCategory).

(** The tables.  Time stamps are seconds on the UTC clock; the
    [created_at]/[updated_at] columns, which no modelled function reads,
    are left out. *)
Module Job.
Record t : Type := {
  id : nat;
  job_code : string;
  job_name : string;
  client : string;
  contract_value : Q;
  amended_value : Q;
  estimated_final_cost : Q;
  status : JobStatus;
  progress_percentage : Q
  }.
End Job.

Module Expense.
Record t : Type := {
  id : nat;
  job_id : nat;
  category : ExpenseCategory;
  description : string;
  amount : Q
  }.

(** [expense.<name>] *)
Definition getattr (e : t) (name : string) : res attr :=
  if String.eqb name "id" then Ok (AInt (id e))
  else if String.eqb name "job_id" then Ok (AInt (job_id e))
  else if String.eqb name "category" then Ok (ACategory (category e))
  else if String.eqb name "description" then Ok (AStr (description e))
  else if String.eqb name "amount" then Ok (AFloat (amount e))
  else Raise (AttributeError name).
End Expense.

Module Invoice.
Record t : Type := {
  id : nat;
  job_id : nat;
  invoice_number : string;
  amount : Q;
  due_date : Z;
  is_paid : bool
  }.
End Invoice.

Module Variation.
Record t : Type := {
  id : nat;
  job_id : nat;
  amount : Q;
  status : VariationStatus
  }.
End Variation.

Module Budget.
Record t : Type := {
  id : nat;
  job_id : nat;
  category : ExpenseCategory;
  budgeted_amount : Q
  }.

(** [budget.<name>] *)
Definition getattr (b : t) (name : string) : res attr :=
  if String.eqb name "id" then Ok (AInt (id b))
  else if String.eqb name "job_id" then Ok (AInt (job_id b))
  else if String.eqb name "category" then Ok (ACategory (category b))
  else if String.eqb name "budgeted_amount" then Ok (AFloat (budgeted_amount b))
  else Raise (AttributeError name).
End Budget.

Module Alert.
Record t : Type := {
  id : nat;
  job_id : nat;
  alert_type : string;
  message : string;
  severity : string;
  is_acknowledged : bool
  }.
End Alert.

(** [JobCreate(...)]: the keyword arguments of a call, and the validated
    object.  The fields without a default in [JobBase] are required;
    [start_date] and [expected_completion_date] are left out. *)
Module JobCreate.
Record kwargs : Type := {
  kw_job_code : option string;
  kw_job_name : option string;
  kw_client : option string;
  kw_contract_value : option Q;
  kw_amended_value : option Q;
  kw_estimated_final_cost : option Q;
  kw_status : option JobStatus;
  kw_progress_percentage : option Q
  }.

Record t : Type := {
  job_code : string;
  job_name : string;
  client : string;
  contract_value : Q;
  amended_value : Q;
  estimated_final_cost : Q;
  status : JobStatus;
  progress_percentage : Q
  }.

Definition new (k : kwargs) : res t :=
  match kw_job_code k, kw_job_name k, kw_client k, kw_contract_value k,
      kw_amended_value k, kw_estimated_final_cost k, kw_status k with
  | Some code, Some name, Some cl, Some cv, Some av, Some efc, Some st =>
    Ok {| job_code := code; job_name := name; client := cl;
          contract_value := cv; amended_value := av;
          estimated_final_cost := efc; status := st;
          progress_percentage := default 0%Q (kw_progress_percentage k) |}
  | _, _, _, _, _, _, _ => Raise (ValidationError "field required")
  end.
End JobCreate.

(** The database as a session sees it. *)
Record Db : Type := {
  jobs : list Job.t;
  expenses : list Expense.t;
  invoices : list Invoice.t;
  variations : list Variation.t;
  budgets : list Budget.t;
  alerts : list Alert.t
  }.

End Models.

(** ** SQL [LIKE], as [Column.contains] uses it *)

Module Sql.

(** How [LIKE] compares letters: byte for byte, or ignoring the case of
    ASCII letters (SQLite's default). *)
Inductive collation : Type :=
  | Binary
  | NoCase.

Definition char_eq (coll : collation) (a b : ascii) : bool :=
  match coll with
  | Binary => Ascii.eqb a b
  | NoCase => Ascii.eqb (Str.lower_char a) (Str.lower_char b)
  end.

(** [s LIKE pattern], without an escape character: "%" stands for any
    run of characters and "_" for any one character. *)
Fixpoint like (coll : collation) (pattern : string) : string -> bool :=
  match pattern with
  | "" => fun s => match s with "" => true | String _ _ => false end
  | String c p' =>
    if Ascii.eqb c "%" then
      fix any (s : string) : bool :=
        like coll p' s ||
        match s with
        | "" => false
        | String _ s' => any s'
        end
    else if Ascii.eqb c "_" then
      fun s => match s with "" => false | String _ s' => like coll p' s' end
    else
      fun s =>
        match s with
        | "" => false
        | String d s' => char_eq coll c d && like coll p' s'
        end
  end.

(** [column.contains(other)] is [column LIKE '%' || other || '%']; wild
    cards inside [other] stay wild cards. *)
Definition contains (coll : collation) (column other : string) : bool :=
  like coll ("%" ++ other ++ "%") column.

End Sql.

(** ** backend/crud.py *)

Module Crud.
Import Models.

Definition Qsum (l : list Q) : Q := fold_right Qplus 0%Q l.

(** [datetime - datetime] in whole days ([timedelta.days]). *)
Definition days_between (later earlier : Z) : Z := ((later - earlier) / 86400)%Z.

Definition fresh_id (ids : list nat) : nat := S (fold_right Nat.max 0%nat ids).

Definition get_job_by_code (db : Db) (job_code : string) : option Job.t :=
  find (fun j => String.eqb (Job.job_code j) job_code) (jobs db).

Definition get_job_by_id (db : Db) (job_id : nat) : option Job.t :=
  find (fun j => Nat.eqb (Job.id j) job_id) (jobs db).

(** [get_all_jobs(db)] with its defaults [skip=0, limit=100] *)
Definition get_all_jobs (db : Db) : list Job.t := firstn 100 (jobs db).

(** [create_job]; the job code is a unique column. *)
Definition create_job (db : Db) (job : JobCreate.t) : res (Job.t * Db) :=
  match get_job_by_code db (JobCreate.job_code job) with
  | Some _ => Raise (IntegrityError "UNIQUE constraint failed: jobs.job_code")
  | None =>
    let db_job := {|
      Job.id := fresh_id (List.map Job.id (jobs db));
      Job.job_code := JobCreate.job_code job;
      Job.job_name := JobCreate.job_name job;
      Job.client := JobCreate.client job;
      Job.contract_value := JobCreate.contract_value job;
      Job.amended_value := JobCreate.amended_value job;
      Job.estimated_final_cost := JobCreate.estimated_final_cost job;
      Job.status := JobCreate.status job;
      Job.progress_percentage := JobCreate.progress_percentage job |} in
    Ok (db_job,
        {| jobs := app (jobs db) [db_job]; expenses := expenses db;
           invoices := invoices db; variations := variations db;
           budgets := budgets db; alerts := alerts db |})
  end.

Definition get_expenses_by_job (db : Db) (job_id : nat) : list Expense.t :=
  List.filter (fun e => Nat.eqb (Expense.job_id e) job_id) (expenses db).

(** [func.sum(Expense.amount)] over the job, [0.0] when there is none *)
Definition get_total_expenses_by_job (db : Db) (job_id : nat) : Q :=
  Qsum (List.map Expense.amount (get_expenses_by_job db job_id)).

Definition get_total_invoiced_by_job (db : Db) (job_id : nat) : Q :=
  Qsum (List.map Invoice.amount
        (List.filter (fun i => Nat.eqb (Invoice.job_id i) job_id) (invoices db))).

Definition is_approved (s : VariationStatus) : bool :=
  match s with approved => true | _ => false end.

Definition get_approved_variations_total (db : Db) (job_id : nat) : Q :=
  Qsum (List.map Variation.amount
        (List.filter (fun v => Nat.eqb (Variation.job_id v) job_id
                          && is_approved (Variation.status v))
                (variations db))).

Definition get_budgets_by_job (db : Db) (job_id : nat) : list Budget.t :=
  List.filter (fun b => Nat.eqb (Budget.job_id b) job_id) (budgets db).

(** [get_overdue_invoices]; [job_id] filters only when it is truthy. *)
Definition get_overdue_invoices (db : Db) (job_id : option nat) (utcnow : Z)
    : list Invoice.t :=
  List.filter
  (fun i =>
     negb (Invoice.is_paid i) && (Invoice.due_date i <? utcnow)%Z &&
     match job_id with
     | Some (S n) => Nat.eqb (Invoice.job_id i) (S n)
     | _ => true
     end)
  (invoices db).

(** One entry of the list [check_budget_overruns] returns. *)
Record Overrun : Type := {
  category : string;
  budgeted : Q;
  actual : Q;
  overrun : Q;
  percentage_over : Q
  }.

(** [x / y] on floats *)
Definition float_div (x y : Q) : res Q :=
  if Qeq_bool y 0 then Raise ZeroDivisionError else Ok (x / y)%Q.

Definition actual_spend (db : Db) (job_id : nat) (c : ExpenseCategory) : Q :=
  Qsum (List.map Expense.amount
        (List.filter (fun e => Nat.eqb (Expense.job_id e) job_id
                          && ExpenseCategory_eqb (Expense.category e) c)
                (expenses db))).

Fixpoint overruns_of (db : Db) (job_id : nat) (bs : list Budget.t)
    : res (list Overrun) :=
  match bs with
  | [] => Ok []
  | budget :: rest =>
    let spend := actual_spend db job_id (Budget.category budget) in
    if Qltb (Budget.budgeted_amount budget) spend then
      ratio ← float_div (spend - Budget.budgeted_amount budget)
                         (Budget.budgeted_amount budget);
      more ← overruns_of db job_id rest;
      Ok ({| category := ExpenseCategory_value (Budget.category budget);
             budgeted := Budget.budgeted_amount budget;
             actual := spend;
             overrun := (spend - Budget.budgeted_amount budget)%Q;
             percentage_over := (ratio * 100)%Q |} :: more)
    else overruns_of db job_id rest
  end.

Definition check_budget_overruns (db : Db) (job_id : nat) : res (list Overrun) :=
  overruns_of db job_id (get_budgets_by_job db job_id).

(** [create_alert]: the new row is unacknowledged. *)
Definition create_alert (db : Db) (job_id : nat) (alert_type message severity : string)
    : Alert.t * Db :=
  let db_alert := {|
  Alert.id := fresh_id (List.map Alert.id (alerts db));
  Alert.job_id := job_id;
  Alert.alert_type := alert_type;
  Alert.message := message;
  Alert.severity := severity;
  Alert.is_acknowledged := false |} in
  (db_alert,
 {| jobs := jobs db; expenses := expenses db; invoices := invoices db;
    variations := variations db; budgets := budgets db;
    alerts := app (alerts db) [db_alert] |}).

(** [acknowledge_alert] *)
Definition acknowledge_alert (db : Db) (alert_id : nat) : Db :=
  {| jobs := jobs db; expenses := expenses db; invoices := invoices db;
   variations := variations db; budgets := budgets db;
   alerts :=
     List.map
       (fun a =>
          if Nat.eqb (Alert.id a) alert_id then
            {| Alert.id := Alert.id a; Alert.job_id := Alert.job_id a;
               Alert.alert_type := Alert.alert_type a;
               Alert.message := Alert.message a;
               Alert.severity := Alert.severity a;
               Alert.is_acknowledged := true |}
          else a)
       (alerts db) |}.

(** The filter of the "existing alert" queries. *)
Definition alert_filter (coll : Sql.collation) (job_id : nat)
    (alert_type subject : string) (a : Alert.t) : bool :=
  Nat.eqb (Alert.job_id a) job_id
  && String.eqb (Alert.alert_type a) alert_type
  && Sql.contains coll (Alert.message a) subject
  && negb (Alert.is_acknowledged a).

Definition existing_alert (coll : Sql.collation) (db : Db) (job_id : nat)
    (alert_type subject : string) : option Alert.t :=
  find (alert_filter coll job_id alert_type subject) (alerts db).

Definition budget_message (o : Overrun) : string :=
  "Budget overrun in " ++ category o ++ ": £" ++ Fmt.fixed false 2 (overrun o)
  ++ " over budget (" ++ Fmt.fixed false 1 (percentage_over o) ++ "%)".

Definition budget_severity (o : Overrun) : string :=
  if Qltb 20 (percentage_over o) then "high" else "medium".

(** The loop of [check_and_create_budget_alerts]. *)
Fixpoint budget_alert_loop (coll : Sql.collation) (job_id : nat)
    (overruns : list Overrun) (db : Db) (created_alerts : list Alert.t)
    : list Alert.t * Db :=
  match overruns with
  | [] => (created_alerts, db)
  | o :: rest =>
    match existing_alert coll db job_id "budget_overrun" (category o) with
    | Some _ => budget_alert_loop coll job_id rest db created_alerts
    | None =>
        let '(alert, db') :=
          create_alert db job_id "budget_overrun" (budget_message o) (budget_severity o) in
        budget_alert_loop coll job_id rest db' (app created_alerts [alert])
    end
  end.

Definition check_and_create_budget_alerts (coll : Sql.collation) (db : Db)
    (job_id : nat) : res (list Alert.t * Db) :=
  overruns ← check_budget_overruns db job_id;
  Ok (budget_alert_loop coll job_id overruns db []).

(** [f"{n}"] for an integer *)
Definition int_text (n : Z) : string :=
  ((if (n <? 0)%Z then "-" else "") ++ Fmt.digits (Z.abs n))%string.

Definition days_overdue (utcnow : Z) (invoice : Invoice.t) : Z :=
  days_between utcnow (Invoice.due_date invoice).

Definition invoice_message (utcnow : Z) (invoice : Invoice.t) : string :=
  "Invoice " ++ Invoice.invoice_number invoice ++ " is "
  ++ int_text (days_overdue utcnow invoice) ++ " days overdue (£"
  ++ Fmt.fixed false 2 (Invoice.amount invoice) ++ ")".

Definition invoice_severity (utcnow : Z) (invoice : Invoice.t) : string :=
  if (30 <? days_overdue utcnow invoice)%Z then "high" else "medium".

(** The loop of [check_and_create_invoice_alerts]. *)
Fixpoint invoice_alert_loop (coll : Sql.collation) (utcnow : Z)
    (overdue_invoices : list Invoice.t) (db : Db) (created_alerts : list Alert.t)
    : list Alert.t * Db :=
  match overdue_invoices with
  | [] => (created_alerts, db)
  | invoice :: rest =>
    match existing_alert coll db (Invoice.job_id invoice) "overdue_invoice"
            (Invoice.invoice_number invoice) with
    | Some _ => invoice_alert_loop coll utcnow rest db created_alerts
    | None =>
        let '(alert, db') :=
          create_alert db (Invoice.job_id invoice) "overdue_invoice"
            (invoice_message utcnow invoice) (invoice_severity utcnow invoice) in
        invoice_alert_loop coll utcnow rest db' (app created_alerts [alert])
    end
  end.

Definition check_and_create_invoice_alerts (coll : Sql.collation) (utcnow : Z)
    (db : Db) (job_id : option nat) : list Alert.t * Db :=
  invoice_alert_loop coll utcnow (get_overdue_invoices db job_id utcnow) db [].

(** The entries of [get_job_detail_metrics] that the batch pass reads. *)
Record Metrics : Type := {
  amended_value : Q;
  total_costs : Q;
  total_invoiced : Q;
  pending_invoices : Q;
  projected_margin : Q
  }.

Definition Qmax0 (x : Q) : Q := if Qltb x 0 then 0%Q else x.

Definition get_job_detail_metrics (db : Db) (job_id : nat) : option Metrics :=
  match get_job_by_id db job_id with
  | None => None
  | Some job =>
    let costs := get_total_expenses_by_job db job_id in
    let invoiced := get_total_invoiced_by_job db job_id in
    let approved_variations := get_approved_variations_total db job_id in
    let current_contract_value := (Job.contract_value job + approved_variations)%Q in
    Some {| amended_value := current_contract_value;
            total_costs := costs;
            total_invoiced := invoiced;
            pending_invoices := Qmax0 (costs - invoiced);
            projected_margin := (current_contract_value - Job.estimated_final_cost job)%Q |}
  end.

End Crud.

(** ** backend/utils/budget_check.py *)

Module BudgetCheck.
Import Models.

(** [alert_config['alert_thresholds']]; an absent key is [None] and the
    code then uses its default. *)
Record AlertConfig : Type := {
  warning : option Q;
  critical : option Q;
  exceeded : option Q
  }.

(** [create_default_alert_config] *)
Definition default_config : AlertConfig :=
  {| warning := Some (8 # 10); critical := Some (95 # 100); exceeded := Some 1%Q |}.

(** [_get_alert_level] *)
Definition _get_alert_level (config : AlertConfig) (percentage_used : Q) : string :=
  if Qle_bool (default 1%Q (exceeded config)) percentage_used then "exceeded"
  else if Qle_bool (default (95 # 100) (critical config)) percentage_used then "critical"
  else if Qle_bool (default (8 # 10) (warning config)) percentage_used then "warning"
  else "normal".

(** [expense_totals.get(category, 0)] on a dictionary keyed by category *)
Fixpoint totals_get (totals : list (ExpenseCategory * Q)) (c : ExpenseCategory) : Q :=
  match totals with
  | [] => 0%Q
  | (k, v) :: rest => if ExpenseCategory_eqb k c then v else totals_get rest c
  end.

(** [totals[category] += amount], the key being created at 0 if absent *)
Fixpoint totals_add (totals : list (ExpenseCategory * Q)) (c : ExpenseCategory)
    (amount : Q) : list (ExpenseCategory * Q) :=
  match totals with
  | [] => [(c, (0 + amount)%Q)]
  | (k, v) :: rest =>
    if ExpenseCategory_eqb k c then (k, (v + amount)%Q) :: rest
    else (k, v) :: totals_add rest c amount
  end.

Definition as_category (a : attr) : res ExpenseCategory :=
  match a with
  | ACategory c => Ok c
  | _ => Raise (TypeError "not a category")
  end.

Definition as_float (a : attr) : res Q :=
  match a with
  | AFloat q => Ok q
  | AInt n => Ok (inject_Z (Z.of_nat n))
  | _ => Raise (TypeError "not a number")
  end.

(** [_calculate_expense_totals] *)
Fixpoint _calculate_expense_totals (expenses : list Expense.t)
    (totals : list (ExpenseCategory * Q)) : res (list (ExpenseCategory * Q)) :=
  match expenses with
  | [] => Ok totals
  | expense :: rest =>
    category ← Expense.getattr expense "category" ≫= as_category;
    amount ← Expense.getattr expense "amount" ≫= as_float;
    _calculate_expense_totals rest (totals_add totals category amount)
  end.

(** One entry of [budget_status]. *)
Record Status : Type := {
  budget_amount : Q;
  actual_amount : Q;
  percentage_used : Q;
  remaining_budget : Q;
  alert_level : string;
  over_budget : bool
  }.

(** The body of the loop over the budget rows once the row's category and
    amount are read. *)
Definition budget_status_of (config : AlertConfig) (budget_amount actual_amount : Q)
    : Status :=
  let percentage_used :=
  if Qltb 0 budget_amount then (actual_amount / budget_amount)%Q else 0%Q in
  {| budget_amount := budget_amount;
   actual_amount := actual_amount;
   percentage_used := (percentage_used * 100)%Q;
   remaining_budget := (budget_amount - actual_amount)%Q;
   alert_level := _get_alert_level config percentage_used;
   over_budget := Qltb budget_amount actual_amount |}.

(** The loop over the budget rows: the status per category and the
    categories that raise an alert. *)
Fixpoint check_rows (config : AlertConfig) (expense_totals : list (ExpenseCategory * Q))
    (budgets : list Budget.t)
    : res (list (ExpenseCategory * Status) * list (ExpenseCategory * Status)) :=
  match budgets with
  | [] => Ok ([], [])
  | budget :: rest =>
    category ← Budget.getattr budget "category" ≫= as_category;
    budget_amount ← Budget.getattr budget "amount" ≫= as_float;
    let actual_amount := totals_get expense_totals category in
    let status := budget_status_of config budget_amount actual_amount in
    '(budget_status, alerts) ← check_rows config expense_totals rest;
    Ok ((category, status) :: budget_status,
        if String.eqb (alert_level status) "normal" then alerts
        else (category, status) :: alerts)
  end.

Inductive failure : Type :=
  | JobNotFound (job_code : string)
  | NoBudgets (job_code : string)
  | Exception (e : exn).

(** The dictionary [check_job_budgets] returns. *)
Inductive CheckResult : Type :=
  | Success (job_code : string)
    (budget_status : list (ExpenseCategory * Status))
    (alerts : list (ExpenseCategory * Status))
  | Failure (error : failure).

(** [check_job_budgets]; sending the e-mails is left out. *)
Definition check_job_budgets (config : AlertConfig) (db : Db) (job_code : string)
    : CheckResult :=
  match Crud.get_job_by_code db job_code with
  | None => Failure (JobNotFound job_code)
  | Some job =>
    let expenses := Crud.get_expenses_by_job db (Job.id job) in
    let budgets := Crud.get_budgets_by_job db (Job.id job) in
    match budgets with
    | [] => Failure (NoBudgets job_code)
    | _ :: _ =>
        match
          expense_totals ← _calculate_expense_totals expenses [];
          check_rows config expense_totals budgets
        with
        | Ok (budget_status, alerts) => Success job_code budget_status alerts
        | Raise e => Failure (Exception e)
        end
    end
  end.

End BudgetCheck.

(** ** backend/utils/parse_pnl.py *)

Module ParsePnl.
Import Models.

(** *** [categorize_expense] *)

Definition material_keywords : list string :=
  ["material"; "cable"; "pipe"; "joint"; "concrete"; "aggregate"; "sand"; "cement"].
Definition labor_keywords : list string :=
  ["wage"; "salary"; "labor"; "labour"; "staff"; "payroll"; "overtime"].
Definition plant_keywords : list string :=
  ["plant"; "machinery"; "equipment"; "hire"; "rental"; "excavator"; "truck"].
Definition subcontractor_keywords : list string :=
  ["subcontractor"; "sub-contractor"; "contractor"; "outsource"].
Definition transport_keywords : list string :=
  ["transport"; "delivery"; "fuel"; "vehicle"; "mileage"].

(** Each [return ExpenseCategory.<name>] is the attribute access it is. *)
Definition categorize_expense (description : string) : res ExpenseCategory :=
  let description := Str.strip (Str.lower description) in
  if Str.any_in material_keywords description then ExpenseCategory_member "materials"
  else if Str.any_in labor_keywords description then ExpenseCategory_member "labor"
  else if Str.any_in plant_keywords description then ExpenseCategory_member "plant_machinery"
  else if Str.any_in subcontractor_keywords description
     then ExpenseCategory_member "subcontractors"
  else if Str.any_in transport_keywords description then ExpenseCategory_member "transport"
  else ExpenseCategory_member "other".

(** *** [extract_job_code_from_class] *)

(** The longest run of characters of a class at the head of [s], and what
    follows it. *)
Fixpoint span (p : ascii -> bool) (s : string) : string * string :=
  match s with
  | "" => ("", "")
  | String c s' =>
    if p c then let '(run, rest) := span p s' in (String c run, rest)
    else ("", s)
  end.

(** [\d+] at the head of [s]: the digits matched, greedily. *)
Definition digits1 (s : string) : option string :=
  match span Str.is_digit s with
  | ("", _) => None
  | (ds, _) => Some ds
  end.

(** [-\d{4}-\d+] at the head of [s] *)
Definition dash_year_number (s : string) : option string :=
  match s with
  | String "-" (String d1 (String d2 (String d3 (String d4 (String "-" rest))))) =>
    if Str.is_digit d1 && Str.is_digit d2 && Str.is_digit d3 && Str.is_digit d4
    then match digits1 rest with
         | Some ds => Some (String "-" (String d1 (String d2 (String d3 (String d4
                              (String "-" ds))))))
         | None => None
         end
    else None
  | _ => None
  end.

(** A literal word at the head of [s], ignoring case: the text matched. *)
Fixpoint literal_ci (word s : string) : option (string * string) :=
  match word with
  | "" => Some ("", s)
  | String w word' =>
    match s with
    | "" => None
    | String c s' =>
        if Ascii.eqb (Str.lower_char w) (Str.lower_char c)
        then match literal_ci word' s' with
             | Some (m, rest) => Some (String c m, rest)
             | None => None
             end
        else None
    end
  end.

(** [JOB\d+], [SGN-\d{4}-\d+] and [[A-Z]{2,}-\d{4}-\d+] matched at the head
    of [s], with [re.IGNORECASE]. *)
Definition match_pattern1 (s : string) : option string :=
  match literal_ci "JOB" s with
  | Some (m, rest) =>
    match digits1 rest with
    | Some ds => Some (m ++ ds)
    | None => None
    end
  | None => None
  end.

Definition match_pattern2 (s : string) : option string :=
  match literal_ci "SGN" s with
  | Some (m, rest) =>
    match dash_year_number rest with
    | Some t => Some (m ++ t)
    | None => None
    end
  | None => None
  end.

Definition match_pattern3 (s : string) : option string :=
  let '(letters, rest) := span Str.is_alpha s in
  if (2 <=? String.length letters)%nat then
  match dash_year_number rest with
  | Some t => Some (letters ++ t)
  | None => None
  end
  else None.

(** [re.search]: the match at the leftmost position that has one. *)
Fixpoint search (m : string -> option string) (s : string) : option string :=
  match m s with
  | Some found => Some found
  | None =>
    match s with
    | "" => None
    | String _ s' => search m s'
    end
  end.

Definition extract_job_code_from_class (class_name : string) : option string :=
  if String.eqb class_name "" || String.eqb class_name "Not Specified" then None
  else
  let class_name := Str.strip class_name in
  match search match_pattern1 class_name with
  | Some found => Some (Str.upper found)
  | None =>
      match search match_pattern2 class_name with
      | Some found => Some (Str.upper found)
      | None =>
          match search match_pattern3 class_name with
          | Some found => Some (Str.upper found)
          | None => Some (Str.upper class_name)
          end
      end
  end.

(** *** The data frame of a P&L sheet *)

Inductive Cell : Type :=
  | CNum (q : Q)
  | CStr (s : string)
  | CNaN.

(** Column labels and, per row, one cell per column. *)
Record DataFrame : Type := {
  columns : list string;
  rows : list (list Cell)
  }.

(** [row.get(label)], [None] when there is no such column *)
Fixpoint row_get (columns : list string) (row : list Cell) (label : string)
    : option Cell :=
  match columns, row with
  | c :: columns', cell :: row' =>
    if String.eqb c label then Some cell else row_get columns' row' label
  | _, _ => None
  end.

(** One entry of [self.processed_expenses]. *)
Record ExpenseData : Type := {
  job_id : nat;
  category : ExpenseCategory;
  description : string;
  amount : Q
  }.

(** The parser object: the session and the attributes the run changes. *)
Record Parser : Type := {
  db : Db;
  job_mappings : gmap string nat;
  processed_expenses : list ExpenseData
  }.

Section Conversions.

(** Python's [float(text)] and [str(number)], which the row loop applies
    to cells; they are parameters of the model. *)
Variable float_of_text : string -> option Q.
Variable text_of_float : Q -> string.

(** [create_job_if_not_exists] *)
Definition create_job_if_not_exists (self : Parser) (job_code : string)
    : option nat * Parser :=
  match
  job_data ← JobCreate.new
    {| JobCreate.kw_job_code := Some job_code;
       JobCreate.kw_job_name := Some ("Auto-created from P&L: " ++ job_code);
       JobCreate.kw_client := Some "Unknown";
       JobCreate.kw_contract_value := Some 0%Q;
       JobCreate.kw_amended_value := None;
       JobCreate.kw_estimated_final_cost := None;
       JobCreate.kw_status := Some active;
       JobCreate.kw_progress_percentage := Some 0%Q |};
  Crud.create_job (db self) job_data
  with
  | Ok (job, db') =>
    (Some (Job.id job),
     {| db := db';
        job_mappings := <[job_code := Job.id job]> (job_mappings self);
        processed_expenses := processed_expenses self |})
  | Raise _ => (None, self)
  end.

(** [job_columns]: the columns that stand for a job, with the job code. *)
Fixpoint job_columns (cols : list string) : list (string * string) :=
  match cols with
  | [] => []
  | col :: rest =>
    if negb (String.eqb col "")
       && negb (String.eqb (Str.strip col) "")
       && negb (String.eqb (Str.strip col) "Account")
       && negb (String.eqb (Str.strip col) "Total")
    then
      match extract_job_code_from_class col with
      | Some job_code =>
          if String.eqb job_code "" then job_columns rest
          else (col, job_code) :: job_columns rest
      | None => job_columns rest
      end
    else job_columns rest
  end.

Definition skip_words : list string := ["total"; "income"; "revenue"; "gross profit"].

(** The running counts and the parser. *)
Record Progress : Type := {
  parser : Parser;
  processed_count : nat;
  skipped_count : nat
  }.

Definition skip_one (p : Progress) : Progress :=
  {| parser := parser p; processed_count := processed_count p;
   skipped_count := S (skipped_count p) |}.

(** The amount of a cell: [None] when [pd.isna(amount) or amount == 0]
    skips the cell, else [abs(float(amount))], which may raise. *)
Definition cell_amount (amount : Cell) : option (res Q) :=
  match amount with
  | CNaN => None
  | CNum q => if Qeq_bool q 0 then None else Some (Ok (Qabs q))
  | CStr s =>
    Some (match float_of_text s with
          | Some q => Ok (Qabs q)
          | None => Raise (ValueError "could not convert string to float")
          end)
  end.

(** The inner [try] block for one (row, job column) cell; the entries
    [expense_date] and [source] of the record are left out. *)
Definition process_cell (account_name : string) (amount : Cell) (job_code : string)
    (p : Progress) : Progress :=
  match cell_amount amount with
  | None => p
  | Some (Raise _) => skip_one p
  | Some (Ok amount) =>
    let '(job_id, self) :=
      match job_mappings (parser p) !! job_code with
      | Some (S n) => (Some (S n), parser p)
      | _ => create_job_if_not_exists (parser p) job_code
      end in
    match job_id with
    | Some (S n) =>
        match categorize_expense account_name with
        | Raise _ =>
            {| parser := self; processed_count := processed_count p;
               skipped_count := S (skipped_count p) |}
        | Ok category =>
            {| parser :=
                 {| db := db self; job_mappings := job_mappings self;
                    processed_expenses :=
                      app (processed_expenses self)
                        [{| job_id := S n; category := category;
                            description := account_name; amount := amount |}] |};
               processed_count := S (processed_count p);
               skipped_count := skipped_count p |}
        end
    | _ =>
        {| parser := self; processed_count := processed_count p;
           skipped_count := skipped_count p |}
    end
  end.

Fixpoint process_cells (cols : list string) (row : list Cell) (account_name : string)
    (jobs : list (string * string)) (p : Progress) : Progress :=
  match jobs with
  | [] => p
  | (col_name, job_code) :: rest =>
    process_cells cols row account_name rest
      (process_cell account_name (default (CNum 0) (row_get cols row col_name))
         job_code p)
  end.

(** [account_name], or [None] when the row is skipped as it has none *)
Definition account_of (cols : list string) (row : list Cell) : option string :=
  match default (CStr "") (row_get cols row "Account") with
  | CStr "" => None
  | CStr s => Some (Str.strip s)
  | CNaN => None
  | CNum q => if Qeq_bool q 0 then None else Some (Str.strip (text_of_float q))
  end.

Definition process_row (cols : list string) (jobs : list (string * string))
    (row : list Cell) (p : Progress) : Progress :=
  match account_of cols row with
  | None => p
  | Some account_name =>
    if Str.any_in skip_words (Str.lower account_name) then p
    else process_cells cols row account_name jobs p
  end.

(** [process_pnl_data]: the counts, and the parser with the expenses it
    collected. *)
Definition process_pnl_data (self : Parser) (df : DataFrame) : Progress :=
  fold_left (fun p row => process_row (columns df) (job_columns (columns df)) row p)
  (rows df)
  {| parser := self; processed_count := 0; skipped_count := 0 |}.

End Conversions.

End ParsePnl.

(** ** backend/utils/parse_invoice.py *)

Module ParseInvoice.

Inductive Cell : Type :=
  | CNum (q : Q)
  | CStr (s : string)
  | CDate (t : Z)
  | CNaN.

(** Column labels and, per row, one cell per column. *)
Record DataFrame : Type := {
  columns : list string;
  rows : list (list Cell)
  }.

(** [InvoiceParser.__init__] *)
Definition required_columns : list string :=
  ["Type"; "Date"; "Num"; "Name"; "Class"; "Amount"; "Balance"].
Definition optional_columns : list string :=
  ["A/R Paid"; "Status"; "Terms"; "Due Date"; "Aging"].

Definition has_column (df : DataFrame) (label : string) : bool :=
  existsb (String.eqb label) (columns df).

(** [row.get(label)], [None] when there is no such column *)
Fixpoint row_get (cols : list string) (row : list Cell) (label : string) : option Cell :=
  match cols, row with
  | c :: cols', cell :: row' =>
    if String.eqb c label then Some cell else row_get cols' row' label
  | _, _ => None
  end.

(** [df[label] = f(df[label])] *)
Fixpoint map_cells (label : string) (f : Cell -> Cell) (cols : list string)
    (row : list Cell) : list Cell :=
  match cols, row with
  | c :: cols', cell :: row' =>
    (if String.eqb c label then f cell else cell) :: map_cells label f cols' row'
  | _, _ => row
  end.

Definition map_column (label : string) (f : Cell -> Cell) (df : DataFrame) : DataFrame :=
  {| columns := columns df;
   rows := List.map (map_cells label f (columns df)) (rows df) |}.

Definition is_nan (c : Cell) : bool :=
  match c with CNaN => true | _ => false end.

Definition fill (v : Cell) (c : Cell) : Cell :=
  match c with CNaN => v | _ => c end.

Definition cell_num (c : Cell) : Q :=
  match c with CNum q => q | _ => 0%Q end.

Definition cell_date (c : Cell) : option Z :=
  match c with CDate t => Some t | _ => None end.

(** One entry of a job's ['invoices'] list; dates stay time stamps. *)
Record InvoiceInfo : Type := {
  invoice_number : string;
  date : option Z;
  client_name : string;
  amount : Q;
  balance : Q;
  paid_amount : Q;
  status : string;
  due_date : option Z;
  aging_days : Z
  }.

(** A job's entry of the parsed data. *)
Record JobInvoices : Type := {
  job_code : string;
  total_invoiced : Q;
  total_paid : Q;
  outstanding_balance : Q;
  paid_invoices_count : nat;
  unpaid_invoices_count : nat;
  invoices : list InvoiceInfo;
  payment_rate : Q
  }.

(** An advisory alert of the summary: its type, job and severity. *)
Record Advisory : Type := {
  advisory_type : string;
  advisory_job : string;
  advisory_severity : string
  }.

(** The summary; the ranking of jobs by outstanding balance is left out. *)
Record Summary : Type := {
  summary_invoiced : Q;
  summary_paid : Q;
  summary_outstanding : Q;
  overall_payment_rate : Q;
  summary_paid_count : nat;
  summary_unpaid_count : nat;
  total_jobs : nat;
  summary_alerts : list Advisory
  }.

(** The dictionary [parse_invoice_file] returns: ['success': True] with
    the data and the summary, or ['success': False] with the error and
    empty data. *)
Inductive ParseResult : Type :=
  | Parsed (data : list (string * JobInvoices)) (summary : Summary)
  | Failed (error : exn).

(** Insertion of a key into a sorted list of distinct keys ([groupby]
    yields the groups in key order). *)
Fixpoint insert_key (k : string) (keys : list string) : list string :=
  match keys with
  | [] => [k]
  | k' :: rest =>
    if String.eqb k k' then keys
    else if String.ltb k k' then k :: keys
    else k' :: insert_key k rest
  end.

Section Conversions.

(** The conversions pandas applies to single values are parameters:
    [float(text)] inside [to_numeric], [to_datetime] of a number or a text
    (no result is [NaT]), and [str(value)] of a value that is not a text. *)
Variable float_of_text : string -> option Q.
Variable datetime_of : Cell -> option Z.
Variable text_of : Cell -> string.

(** [str(value)] *)
Definition astype_str (c : Cell) : string :=
  match c with
  | CStr s => s
  | _ => text_of c
  end.

(** [pd.to_numeric(..., errors='coerce')] on one value *)
Definition to_numeric (c : Cell) : Cell :=
  match c with
  | CNum q => CNum q
  | CStr s => match float_of_text s with Some q => CNum q | None => CNaN end
  | CDate _ => CNaN
  | CNaN => CNaN
  end.

(** [pd.to_datetime(..., errors='coerce')] on one value *)
Definition to_datetime (c : Cell) : Cell :=
  match c with
  | CDate t => CDate t
  | CNaN => CNaN
  | _ => match datetime_of c with Some t => CDate t | None => CNaN end
  end.

Definition when_present (label : string) (f : Cell -> Cell) (df : DataFrame) : DataFrame :=
  if has_column df label then map_column label f df else df.

(** [_clean_dataframe] *)
Definition _clean_dataframe (df : DataFrame) : DataFrame :=
  let df := {| columns := columns df;
             rows := List.filter (fun row => negb (List.forallb is_nan row)) (rows df) |} in
  let df := {| columns := List.map Str.strip (columns df); rows := rows df |} in
  let df := when_present "Date" to_datetime df in
  let df := when_present "Due Date" to_datetime df in
  let df := when_present "Amount" to_numeric df in
  let df := when_present "Balance" to_numeric df in
  let df := when_present "A/R Paid" to_numeric df in
  let df := when_present "Class" (fill (CStr "UNASSIGNED")) df in
  let df := when_present "Name" (fill (CStr "UNKNOWN")) df in
  let df := when_present "Amount" (fill (CNum 0)) df in
  let df := when_present "Balance" (fill (CNum 0)) df in
  let df := when_present "A/R Paid" (fill (CNum 0)) df in
  when_present "Class" (fun c => CStr (Str.upper (Str.strip (astype_str c)))) df.

(** [df[label]]: the cells of a column, [KeyError] when there is none *)
Definition column (df : DataFrame) (label : string) (rs : list (list Cell))
    : res (list Cell) :=
  if has_column df label
  then Ok (List.map (fun row => default CNaN (row_get (columns df) row label)) rs)
  else Raise (KeyError label).

Definition Qsum (l : list Q) : Q := fold_right Qplus 0%Q l.

(** [_calculate_aging]: whole days from the due date to today *)
Definition _calculate_aging (now : Z) (due : Z) : Z := (now / 86400 - due / 86400)%Z.

(** [str(row.get(label, ''))] *)
Definition get_text (df : DataFrame) (row : list Cell) (label : string) : string :=
  match row_get (columns df) row label with
  | Some c => astype_str c
  | None => ""
  end.

Definition class_of (df : DataFrame) (row : list Cell) : string :=
  get_text df row "Class".

Definition get_num (df : DataFrame) (row : list Cell) (label : string) : Q :=
  cell_num (default (CNum 0) (row_get (columns df) row label)).

Definition get_date (df : DataFrame) (row : list Cell) (label : string) : option Z :=
  match row_get (columns df) row label with
  | Some c => cell_date c
  | None => None
  end.

Definition invoice_info (now : Z) (df : DataFrame) (row : list Cell) : InvoiceInfo :=
  {| invoice_number := get_text df row "Num";
   date := get_date df row "Date";
   client_name := get_text df row "Name";
   amount := get_num df row "Amount";
   balance := get_num df row "Balance";
   paid_amount := get_num df row "A/R Paid";
   status := if Qle_bool (get_num df row "Balance") 0 then "PAID" else "UNPAID";
   due_date := get_date df row "Due Date";
   aging_days :=
     match get_date df row "Due Date" with
     | Some due => _calculate_aging now due
     | None => 0%Z
     end |}.

(** The body of the loop over the groups, for one job code. *)
Definition job_entry (now : Z) (df : DataFrame) (code : string)
    (job_df : list (list Cell)) : res JobInvoices :=
  amounts ← column df "Amount" job_df;
  let invoiced := Qsum (List.map cell_num amounts) in
  let paid :=
  match column df "A/R Paid" job_df with
  | Ok cells => Qsum (List.map cell_num cells)
  | Raise _ => 0%Q
  end in
  balances ← column df "Balance" job_df;
  let outstanding := Qsum (List.map cell_num balances) in
  Ok {| job_code := code;
      total_invoiced := invoiced;
      total_paid := paid;
      outstanding_balance := outstanding;
      paid_invoices_count :=
        length (List.filter (fun c => Qle_bool (cell_num c) 0) balances);
      unpaid_invoices_count :=
        length (List.filter (fun c => Qltb 0 (cell_num c)) balances);
      invoices := List.map (invoice_info now df) job_df;
      payment_rate := if Qltb 0 invoiced then (paid / invoiced * 100)%Q else 0%Q |}.

Fixpoint job_entries (now : Z) (df : DataFrame) (codes : list string)
    : res (list (string * JobInvoices)) :=
  match codes with
  | [] => Ok []
  | code :: rest =>
    if String.eqb code "UNASSIGNED" then job_entries now df rest
    else
      entry ← job_entry now df code
                (List.filter (fun row => String.eqb (class_of df row) code) (rows df));
      more ← job_entries now df rest;
      Ok ((code, entry) :: more)
  end.

(** [_process_invoice_data] *)
Definition _process_invoice_data (now : Z) (df : DataFrame)
    : res (list (string * JobInvoices)) :=
  if has_column df "Class"
  then job_entries now df
       (fold_right insert_key [] (List.map (class_of df) (rows df)))
  else Raise (KeyError "Class").

(** [_generate_alerts] *)
Definition job_alerts (entry : string * JobInvoices) : list Advisory :=
  let '(code, job) := entry in
  app (if Qltb (payment_rate job) 50
     then [{| advisory_type := "LOW_PAYMENT_RATE"; advisory_job := code;
              advisory_severity := "HIGH" |}]
     else [])
 (app (if Qltb 10000 (outstanding_balance job)
       then [{| advisory_type := "HIGH_OUTSTANDING_BALANCE"; advisory_job := code;
                advisory_severity := "MEDIUM" |}]
       else [])
      (if existsb (fun inv => String.eqb (status inv) "UNPAID"
                              && (30 <? aging_days inv)%Z) (invoices job)
       then [{| advisory_type := "OVERDUE_INVOICES"; advisory_job := code;
                advisory_severity := "HIGH" |}]
       else [])).

Definition _generate_alerts (invoice_data : list (string * JobInvoices)) : list Advisory :=
  List.concat (List.map job_alerts invoice_data).

(** [_generate_summary] *)
Definition _generate_summary (invoice_data : list (string * JobInvoices)) : Summary :=
  let invoiced := Qsum (List.map (fun e => total_invoiced e.2) invoice_data) in
  let paid := Qsum (List.map (fun e => total_paid e.2) invoice_data) in
  {| summary_invoiced := invoiced;
   summary_paid := paid;
   summary_outstanding := Qsum (List.map (fun e => outstanding_balance e.2) invoice_data);
   overall_payment_rate := if Qltb 0 invoiced then (paid / invoiced * 100)%Q else 0%Q;
   summary_paid_count :=
     list_sum (List.map (fun e => paid_invoices_count e.2) invoice_data);
   summary_unpaid_count :=
     list_sum (List.map (fun e => unpaid_invoices_count e.2) invoice_data);
   total_jobs := length invoice_data;
   summary_alerts := _generate_alerts invoice_data |}.

(** [parse_invoice_file], from the data frame [pd.read_excel] returned. *)
Definition parse_invoice_file (now : Z) (df : DataFrame) : ParseResult :=
  match _process_invoice_data now (_clean_dataframe df) with
  | Ok invoice_data => Parsed invoice_data (_generate_summary invoice_data)
  | Raise e => Failed e
  end.

End Conversions.

End ParseInvoice.

(** ** backend/utils/update_cvr.py: the batch pass over the template *)

Module CvrBatch.
Import Models.

Definition CVR_TEMPLATES_DIR : string := "CVR_Templates".
Definition PROCESSED_CVR_DIR : string := "CVR_Processed".

(** The active sheet of a workbook: its first row and the rows below. *)
Record Sheet : Type := {
  header : list pyval;
  data_rows : list (list pyval)
  }.

(** The files that matter, by path. *)
Abbreviation Files := (list (string * Sheet)).

Definition read_file (files : Files) (path : string) : option Sheet :=
  match find (fun f => String.eqb f.1 path) files with
  | Some f => Some f.2
  | None => None
  end.

Definition write_file (files : Files) (path : string) (sheet : Sheet) : Files :=
  (path, sheet) :: List.filter (fun f => negb (String.eqb f.1 path)) files.

Fixpoint ends_with (s suffix : string) : bool :=
  String.eqb s suffix ||
  match s with
  | "" => false
  | String _ s' => ends_with s' suffix
  end.

(** [glob.glob(f"{dir}/*.xlsx")]: the files directly in [dir] whose name
    is not hidden and ends in ".xlsx". *)
Definition in_dir_xlsx (dir path : string) : bool :=
  match Str.prefix_by Ascii.eqb (dir ++ "/") path with
  | false => false
  | true =>
    let name := String.substring (String.length dir + 1)
                  (String.length path - (String.length dir + 1)) path in
    negb (Str.contains name "/") && negb (String.prefix "." name)
    && ends_with name ".xlsx"
  end.

Definition glob_xlsx (files : Files) (dir : string) : list string :=
  List.filter (in_dir_xlsx dir) (List.map fst files).

(** [sorted(names)] *)
Fixpoint insert_sorted (k : string) (keys : list string) : list string :=
  match keys with
  | [] => [k]
  | k' :: rest => if String.leb k k' then k :: keys else k' :: insert_sorted k rest
  end.

Definition sorted (names : list string) : list string :=
  fold_right insert_sorted [] names.

(** [files[-1]] of a non-empty list *)
Definition last_of (names : list string) : option string :=
  List.last (List.map Some names) None.

(** [download_latest_cvr] *)
Definition download_latest_cvr (files : Files) : res string :=
  match last_of (sorted (glob_xlsx files PROCESSED_CVR_DIR)) with
  | Some path => Ok path
  | None => Raise (FileNotFoundError "No processed CVR found")
  end.

(** [col_index[label]]: one plus the position of the last header cell
    holding [label]; [KeyError] when there is none. *)
Fixpoint col_index_from (cells : list pyval) (label : string) (idx : nat) : option nat :=
  match cells with
  | [] => None
  | cell :: rest =>
    match col_index_from rest label (S idx) with
    | Some i => Some i
    | None =>
        match cell with
        | PyStr s => if String.eqb s label then Some (S idx) else None
        | _ => None
        end
    end
  end.

Definition col_index (sheet : Sheet) (label : string) : res nat :=
  match col_index_from (header sheet) label 0 with
  | Some i => Ok i
  | None => Raise (KeyError label)
  end.

(** The job id a value denotes, if it is a natural number. *)
Definition as_id (v : pyval) : option nat :=
  match v with
  | PyNum q =>
    if ((0 <=? Qnum q) && (Qnum q mod Z.pos (Qden q) =? 0))%Z
    then Some (Z.to_nat (Qnum q / Z.pos (Qden q)))
    else None
  | _ => None
  end.

(** A call [get_job_detail_metrics(db, <keyword>=value)]: the keyword is
    bound to the parameter of that name; the function, as crud.py defines
    it, has the parameters [db] and [job_id]. *)
Definition call_get_job_detail_metrics (db : Db) (keyword : string) (value : pyval)
    : res (option Crud.Metrics) :=
  if String.eqb keyword "job_id" then
  Ok (match as_id value with
      | Some job_id => Crud.get_job_detail_metrics db job_id
      | None => None
      end)
  else if String.eqb keyword "db" then
  Raise (TypeError "get_job_detail_metrics() got multiple values for argument 'db'")
  else
  Raise (TypeError ("get_job_detail_metrics() got an unexpected keyword argument '"
                    ++ keyword ++ "'")).

(** [row[col_index[label] - 1].value = value] *)
Definition set_column (sheet : Sheet) (label : string) (value : pyval)
    (row : list pyval) : res (list pyval) :=
  i ← col_index sheet label;
  Ok (<[(i - 1)%nat := value]> row).

(** The body of the loop for one data row. *)
Definition process_row (db : Db) (sheet : Sheet) (row : list pyval) : res (list pyval) :=
  i ← col_index sheet "Job Code";
  let job_code := default PyNone (row !! (i - 1)%nat) in
  metrics ← call_get_job_detail_metrics db "job_code" job_code;
  match metrics with
  | None => Ok row
  | Some m =>
    row ← set_column sheet "Cost to Date" (PyNum (Crud.total_costs m)) row;
    row ← set_column sheet "Invoiced" (PyNum (Crud.total_invoiced m)) row;
    row ← set_column sheet "Est. Final Cost"
            (PyNum (Crud.total_costs m + Crud.pending_invoices m)) row;
    row ← set_column sheet "Amended Value" (PyNum (Crud.amended_value m)) row;
    set_column sheet "Margin" (PyNum (Crud.projected_margin m)) row
  end.

Fixpoint process_rows (db : Db) (sheet : Sheet) (rows : list (list pyval))
    : res (list (list pyval)) :=
  match rows with
  | [] => Ok []
  | row :: rest =>
    row' ← process_row db sheet row;
    rest' ← process_rows db sheet rest;
    Ok (row' :: rest')
  end.

(** The dictionary [process_all_jobs_cvr] returns. *)
Record Output : Type := {
  file : string;
  path : string
  }.

(** [process_all_jobs_cvr]: [template_path] is the optional argument and
    [stamp] is [datetime.utcnow().strftime('%Y%m%d_%H%M%S')]; the result
    comes with the files as they are afterwards. *)
Definition process_all_jobs_cvr (db : Db) (files : Files) (template_path : option string)
    (stamp : string) : res (Output * Files) :=
  template_path ←
  match template_path with
  | Some (String c p) => Ok (String c p)
  | _ =>
      match last_of (sorted (glob_xlsx files CVR_TEMPLATES_DIR)) with
      | Some latest => Ok latest
      | None => Raise (FileNotFoundError "No CVR template found")
      end
  end;
  sheet ←
  match read_file files template_path with
  | Some sheet => Ok sheet
  | None => Raise (FileNotFoundError template_path)
  end;
  rows ← process_rows db sheet (data_rows sheet);
  let out_name := "cvr_processed_" ++ stamp ++ ".xlsx" in
  let out_path := PROCESSED_CVR_DIR ++ "/" ++ out_name in
  Ok ({| file := out_name; path := out_path |},
    write_file files out_path {| header := header sheet; data_rows := rows |}).

End CvrBatch.
(** ** backend/crud.py: the budget check in floating point *)

Module CrudFloat.
Import Models Crud.

Section Arithmetic.

(** The amounts are finite doubles; the model holds each as the rational
    it is, on which [>] and the [:.2f] and [:.1f] formats act as on the
    double.
    What the arithmetic returns, rounding included, is a parameter: the
    database's SUM over the rows of a query, and Python's [-], [/] and [*]
    on doubles.  [Crud] is the instance where none of them rounds. *)
Variable db_sum : list Q -> Q.
Variable float_sub : Q -> Q -> Q.
Variable float_truediv : Q -> Q -> Q.
Variable float_mul : Q -> Q -> Q.

(** [db.query(func.sum(Expense.amount)).filter(...).scalar() or 0.0]: the
    SUM over no row is [None]. *)
Definition actual_spend (db : Db) (job_id : nat) (c : ExpenseCategory) : Q :=
  match List.map Expense.amount
          (List.filter (fun e => Nat.eqb (Expense.job_id e) job_id
                            && ExpenseCategory_eqb (Expense.category e) c)
                  (expenses db)) with
  | [] => 0%Q
  | amounts => db_sum amounts
  end.

(** [x / y] on doubles *)
Definition float_div (x y : Q) : res Q :=
  if Qeq_bool y 0 then Raise ZeroDivisionError else Ok (float_truediv x y).

Fixpoint overruns_of (db : Db) (job_id : nat) (bs : list Budget.t)
    : res (list Overrun) :=
  match bs with
  | [] => Ok []
  | budget :: rest =>
    let spend := actual_spend db job_id (Budget.category budget) in
    if Qltb (Budget.budgeted_amount budget) spend then
      ratio ← float_div (float_sub spend (Budget.budgeted_amount budget))
                         (Budget.budgeted_amount budget);
      more ← overruns_of db job_id rest;
      Ok ({| category := ExpenseCategory_value (Budget.category budget);
             budgeted := Budget.budgeted_amount budget;
             actual := spend;
             overrun := float_sub spend (Budget.budgeted_amount budget);
             percentage_over := float_mul ratio 100%Q |} :: more)
    else overruns_of db job_id rest
  end.

(** [check_budget_overruns] *)
Definition check_budget_overruns (db : Db) (job_id : nat) : res (list Overrun) :=
  overruns_of db job_id (get_budgets_by_job db job_id).

(** [check_and_create_budget_alerts] *)
Definition check_and_create_budget_alerts (coll : Sql.collation) (db : Db)
    (job_id : nat) : res (list Alert.t * Db) :=
  overruns ← check_budget_overruns db job_id;
  Ok (budget_alert_loop coll job_id overruns db []).

End Arithmetic.

End CrudFloat.
(** ** backend/crud.py: job, expense, invoice and variation management,
    metrics and search *)

Module CrudOps.
Import Models Crud.

(** [JobUpdate]: a field that the request leaves unset is [None]
    ([dict(exclude_unset=True)] then has no entry for it); a request that
    sets a field to [None] explicitly is outside the model.  The model has
    no field for [job_code]; [expected_completion_date] is left out with
    the column. *)
Module JobUpdate.
Record t : Type := {
  job_name : option string;
  client : option string;
  contract_value : option Q;
  amended_value : option Q;
  estimated_final_cost : option Q;
  status : option JobStatus;
  progress_percentage : option Q
  }.
End JobUpdate.



(** [delete_job]: the rows of the five dependent tables go first, then
    the job. *)
Definition delete_job (db : Db) (job_id : nat) : bool * Db :=
  match get_job_by_id db job_id with
  | None => (false, db)
  | Some _ =>
    (true,
     {| jobs := List.filter (fun j => negb (Nat.eqb (Job.id j) job_id)) (jobs db);
        expenses :=
          List.filter (fun e => negb (Nat.eqb (Expense.job_id e) job_id)) (expenses db);
        invoices :=
          List.filter (fun i => negb (Nat.eqb (Invoice.job_id i) job_id)) (invoices db);
        variations :=
          List.filter (fun v => negb (Nat.eqb (Variation.job_id v) job_id)) (variations db);
        budgets :=
          List.filter (fun b => negb (Nat.eqb (Budget.job_id b) job_id)) (budgets db);
        alerts :=
          List.filter (fun a => negb (Nat.eqb (Alert.job_id a) job_id)) (alerts db) |})
  end.

(** [ExpenseCreate], without the columns the tables of the model leave out. *)
Module ExpenseCreate.
Record t : Type := {
  job_id : nat;
  category : ExpenseCategory;
  description : string;
  amount : Q
  }.
End ExpenseCreate.

Definition create_expense (db : Db) (expense : ExpenseCreate.t) : Expense.t * Db :=
  let db_expense := {|
  Expense.id := fresh_id (List.map Expense.id (expenses db));
  Expense.job_id := ExpenseCreate.job_id expense;
  Expense.category := ExpenseCreate.category expense;
  Expense.description := ExpenseCreate.description expense;
  Expense.amount := ExpenseCreate.amount expense |} in
  (db_expense,
 {| jobs := jobs db; expenses := app (expenses db) [db_expense];
    invoices := invoices db; variations := variations db;
    budgets := budgets db; alerts := alerts db |}).

(** [bulk_create_expenses]: the rows are inserted in the order given. *)
Fixpoint bulk_create_expenses (db : Db) (new_expenses : list ExpenseCreate.t)
    : list Expense.t * Db :=
  match new_expenses with
  | [] => ([], db)
  | expense :: rest =>
    let '(db_expense, db') := create_expense db expense in
    let '(db_expenses, db'') := bulk_create_expenses db' rest in
    (db_expense :: db_expenses, db'')
  end.

Definition get_expenses_by_category (db : Db) (job_id : nat) (c : ExpenseCategory)
    : list Expense.t :=
  List.filter (fun e => Nat.eqb (Expense.job_id e) job_id
                      && ExpenseCategory_eqb (Expense.category e) c)
            (expenses db).

(** [get_expenses_by_category_summary]: one entry per category that has an
    expense of the job, keyed by the category's value. *)
Definition get_expenses_by_category_summary (db : Db) (job_id : nat) : gmap string Q :=
  list_to_map
  (List.map (fun c => (ExpenseCategory_value c, actual_spend db job_id c))
     (List.filter (fun c => negb (length (get_expenses_by_category db job_id c) =? 0)%nat)
        ExpenseCategory_members)).

Definition get_invoices_by_job (db : Db) (job_id : nat) : list Invoice.t :=
  List.filter (fun i => Nat.eqb (Invoice.job_id i) job_id) (invoices db).

Definition get_unpaid_invoices_by_job (db : Db) (job_id : nat) : list Invoice.t :=
  List.filter (fun i => Nat.eqb (Invoice.job_id i) job_id && negb (Invoice.is_paid i))
            (invoices db).

Definition get_total_unpaid_by_job (db : Db) (job_id : nat) : Q :=
  Qsum (List.map Invoice.amount (get_unpaid_invoices_by_job db job_id)).

Definition paid (i : Invoice.t) : Invoice.t :=
  {| Invoice.id := Invoice.id i; Invoice.job_id := Invoice.job_id i;
   Invoice.invoice_number := Invoice.invoice_number i;
   Invoice.amount := Invoice.amount i; Invoice.due_date := Invoice.due_date i;
   Invoice.is_paid := true |}.

(** [mark_invoice_paid]; the columns [paid_date] and [payment_reference],
    which nothing reads, are left out with the optional argument. *)
Definition mark_invoice_paid (db : Db) (invoice_id : nat) : option Invoice.t * Db :=
  match find (fun i => Nat.eqb (Invoice.id i) invoice_id) (invoices db) with
  | None => (None, db)
  | Some db_invoice =>
    (Some (paid db_invoice),
     {| jobs := jobs db; expenses := expenses db;
        invoices := List.map (fun i => if Nat.eqb (Invoice.id i) invoice_id
                                       then paid i else i) (invoices db);
        variations := variations db; budgets := budgets db; alerts := alerts db |})
  end.

Definition get_variations_by_job (db : Db) (job_id : nat) : list Variation.t :=
  List.filter (fun v => Nat.eqb (Variation.job_id v) job_id) (variations db).

(** [VariationUpdate]: the fields that are columns of the model; as for
    [JobUpdate], [None] is a field the request leaves unset. *)
Module VariationUpdate.
Record t : Type := {
  amount : option Q;
  status : option VariationStatus
  }.
End VariationUpdate.

Definition set_variation (u : VariationUpdate.t) (v : Variation.t) : Variation.t :=
  {| Variation.id := Variation.id v; Variation.job_id := Variation.job_id v;
   Variation.amount := default (Variation.amount v) (VariationUpdate.amount u);
   Variation.status := default (Variation.status v) (VariationUpdate.status u) |}.

(** [update_variation]; [approved_date] is left out with the column. *)
Definition update_variation (db : Db) (variation_id : nat) (u : VariationUpdate.t)
    : option Variation.t * Db :=
  match find (fun v => Nat.eqb (Variation.id v) variation_id) (variations db) with
  | None => (None, db)
  | Some db_variation =>
    (Some (set_variation u db_variation),
     {| jobs := jobs db; expenses := expenses db; invoices := invoices db;
        variations := List.map (fun v => if Nat.eqb (Variation.id v) variation_id
                                         then set_variation u v else v) (variations db);
        budgets := budgets db; alerts := alerts db |})
  end.

(** [get_pending_variations]; [job_id] filters only when it is truthy. *)
Definition get_pending_variations (db : Db) (job_id : option nat) : list Variation.t :=
  List.filter
  (fun v =>
     match Variation.status v with pending => true | _ => false end &&
     match job_id with
     | Some (S n) => Nat.eqb (Variation.job_id v) (S n)
     | _ => true
     end)
  (variations db).

(** *** Dashboard metrics *)

Record DashboardMetrics : Type := {
  total_contract_value : Q;
  total_invoiced : Q;
  total_costs : Q;
  projected_margin : Q;
  pending_invoices : Q;
  unpaid_invoices : Q;
  active_jobs_count : nat;
  completed_jobs_count : nat
  }.

Definition is_active (s : JobStatus) : bool :=
  match s with active => true | _ => false end.
Definition is_completed (s : JobStatus) : bool :=
  match s with completed => true | _ => false end.

(** The jobs [get_dashboard_metrics] aggregates: all of them unless
    [job_id] is truthy. *)
Definition metric_jobs (db : Db) (job_id : option nat) : list Job.t :=
  match job_id with
  | Some (S n) => List.filter (fun j => Nat.eqb (Job.id j) (S n)) (jobs db)
  | _ => jobs db
  end.

Definition get_dashboard_metrics (db : Db) (job_id : option nat) : DashboardMetrics :=
  match metric_jobs db job_id with
  | [] =>
    {| total_contract_value := 0; total_invoiced := 0; total_costs := 0;
       projected_margin := 0; pending_invoices := 0; unpaid_invoices := 0;
       active_jobs_count := 0; completed_jobs_count := 0 |}
  | js =>
    let contract := Qsum (List.map Job.amended_value js) in
    let costs := Qsum (List.map (fun j => get_total_expenses_by_job db (Job.id j)) js) in
    let invoiced := Qsum (List.map (fun j => get_total_invoiced_by_job db (Job.id j)) js) in
    let unpaid := Qsum (List.map (fun j => get_total_unpaid_by_job db (Job.id j)) js) in
    {| total_contract_value := contract;
       total_invoiced := invoiced;
       total_costs := costs;
       projected_margin := (contract - costs)%Q;
       pending_invoices := Qmax0 (costs * (12 # 10) - invoiced);
       unpaid_invoices := unpaid;
       active_jobs_count := length (List.filter (fun j => is_active (Job.status j)) js);
       completed_jobs_count :=
         length (List.filter (fun j => is_completed (Job.status j)) js) |}
  end.

(** The dictionary [get_job_detail_metrics] returns, in full;
    [Crud.get_job_detail_metrics] holds the five entries of it that the
    batch pass reads. *)
Module JobDetail.
Record t : Type := {
  job_code : string;
  job_name : string;
  client : string;
  contract_value : Q;
  amended_value : Q;
  total_costs : Q;
  total_invoiced : Q;
  pending_invoices : Q;
  unpaid_invoices : Q;
  projected_margin : Q;
  margin_percentage : Q;
  progress_percentage : Q;
  status : JobStatus;
  material_costs : Q;
  labour_costs : Q;
  plant_machinery_costs : Q;
  overhead_costs : Q;
  subcontractor_costs : Q;
  budget_variance : Q;
  total_budget : Q
  }.
End JobDetail.

Definition get_job_detail_metrics (db : Db) (job_id : nat) : option JobDetail.t :=
  match get_job_by_id db job_id with
  | None => None
  | Some job =>
    let expense_summary := get_expenses_by_category_summary db job_id in
    let costs := get_total_expenses_by_job db job_id in
    let invoiced := get_total_invoiced_by_job db job_id in
    let approved_variations := get_approved_variations_total db job_id in
    let current_contract_value := (Job.contract_value job + approved_variations)%Q in
    let margin := (current_contract_value - Job.estimated_final_cost job)%Q in
    let total_budget := Qsum (List.map Budget.budgeted_amount (get_budgets_by_job db job_id)) in
    Some {|
      JobDetail.job_code := Job.job_code job;
      JobDetail.job_name := Job.job_name job;
      JobDetail.client := Job.client job;
      JobDetail.contract_value := Job.contract_value job;
      JobDetail.amended_value := current_contract_value;
      JobDetail.total_costs := costs;
      JobDetail.total_invoiced := invoiced;
      JobDetail.pending_invoices := Qmax0 (costs - invoiced);
      JobDetail.unpaid_invoices := get_total_unpaid_by_job db job_id;
      JobDetail.projected_margin := margin;
      JobDetail.margin_percentage :=
        if Qltb 0 current_contract_value
        then (margin / current_contract_value * 100)%Q else 0%Q;
      JobDetail.progress_percentage := Job.progress_percentage job;
      JobDetail.status := Job.status job;
      JobDetail.material_costs := default 0%Q (expense_summary !! "material");
      JobDetail.labour_costs := default 0%Q (expense_summary !! "labour");
      JobDetail.plant_machinery_costs := default 0%Q (expense_summary !! "plant_machinery");
      JobDetail.overhead_costs := default 0%Q (expense_summary !! "overheads");
      JobDetail.subcontractor_costs := default 0%Q (expense_summary !! "subcontractor");
      JobDetail.budget_variance := (total_budget - costs)%Q;
      JobDetail.total_budget := total_budget |}
  end.

(** One entry of the list [get_jobs_summary] returns. *)
Module JobSummary.
Record t : Type := {
  id : nat;
  job_code : string;
  job_name : string;
  client : string;
  status : JobStatus;
  progress_percentage : Q;
  contract_value : Q;
  total_costs : Q;
  projected_margin : Q;
  margin_percentage : Q;
  unpaid_invoices : Q
  }.
End JobSummary.

Fixpoint summary_of (db : Db) (js : list Job.t) : list JobSummary.t :=
  match js with
  | [] => []
  | job :: rest =>
    match get_job_detail_metrics db (Job.id job) with
    | Some metrics =>
        {| JobSummary.id := Job.id job;
           JobSummary.job_code := Job.job_code job;
           JobSummary.job_name := Job.job_name job;
           JobSummary.client := Job.client job;
           JobSummary.status := Job.status job;
           JobSummary.progress_percentage := Job.progress_percentage job;
           JobSummary.contract_value := JobDetail.amended_value metrics;
           JobSummary.total_costs := JobDetail.total_costs metrics;
           JobSummary.projected_margin := JobDetail.projected_margin metrics;
           JobSummary.margin_percentage := JobDetail.margin_percentage metrics;
           JobSummary.unpaid_invoices := JobDetail.unpaid_invoices metrics |}
        :: summary_of db rest
    | None => summary_of db rest
    end
  end.

(** [get_jobs_summary] *)
Definition get_jobs_summary (db : Db) : list JobSummary.t :=
  summary_of db (get_all_jobs db).

(** *** Search *)

(** [column.ilike(f"%{query}%")] *)
Definition ilike_contains (column query : string) : bool :=
  Sql.like Sql.NoCase ("%" ++ query ++ "%") column.

Definition search_jobs (db : Db) (query : string) : list Job.t :=
  List.filter
  (fun j => ilike_contains (Job.job_code j) query
            || ilike_contains (Job.job_name j) query
            || ilike_contains (Job.client j) query)
  (jobs db).

Definition get_jobs_by_client (db : Db) (client : string) : list Job.t :=
  List.filter (fun j => ilike_contains (Job.client j) client) (jobs db).

End CrudOps.
(** ** [str.replace] *)

Module StrOps.

(** [s.replace(old, new)] for a non-empty [old], as in all the calls of the
    code: the occurrences of [old] are replaced from left to right, without
    overlap.  [skip] counts the characters of a replaced occurrence still
    to pass over. *)
Fixpoint replace_from (skip : nat) (old new s : string) : string :=
  match s with
  | "" => ""
  | String c s' =>
    match skip with
    | S k => replace_from k old new s'
    | O =>
        if String.prefix old s
        then new ++ replace_from (String.length old - 1) old new s'
        else String c (replace_from 0 old new s')
    end
  end.

Definition replace (old new s : string) : string := replace_from 0 old new s.

End StrOps.

(** ** backend/utils/update_cvr.py: reading the ledger back, batch updates,
    templates *)

Module CvrDashboard.
Import UpdateCvr.

(** What the loop over the cell mappings stores for a cell: the number it
    holds; [None], a formula and any other text count as 0. *)
Definition cell_number (v : pyval) : Q :=
  match v with
  | PyNum q => q
  | _ => 0%Q
  end.



Section Conversions.

(** Python's [float(text)] is a parameter of the model. *)
Variable float_of_text : string -> option Q.





End Conversions.

(** *** [update_multiple_jobs] *)









(** *** Templates *)



(** [validate_cvr_structure], from the active sheet of the uploaded file;
    the sheet has a first row. *)
Definition required_headers : list string :=
  ["Job Code"; "Cost to Date"; "Invoiced"; "Est. Final Cost"; "Amended Value"; "Margin"].

(** [h in headers] *)
Definition in_headers (headers : list pyval) (h : string) : bool :=
  existsb (fun v => match v with PyStr s => String.eqb s h | _ => false end) headers.

Record Validation : Type := {
  valid : bool;
  missing_headers : list string
  }.

Definition validate_cvr_structure (sheet : CvrBatch.Sheet) : Validation :=
  let missing :=
    List.filter (fun h => negb (in_headers (CvrBatch.header sheet) h)) required_headers in
  {| valid := match missing with [] => true | _ => false end;
     missing_headers := missing |}.

End CvrDashboard.
(** ** backend/utils/budget_check.py: all jobs *)

Module BudgetCheckAll.
Import Models BudgetCheck.

(** The dictionary [check_all_jobs_budgets] returns, without 'checked_at'. *)
Record AllJobs : Type := {
  total_jobs_checked : nat;
  total_alerts : nat;
  job_results : gmap string CheckResult
  }.

(** The body of the loop over the jobs: a successful result is stored
    under the job's code, and its alerts are counted. *)
Definition check_one (config : AlertConfig) (db : Db)
    (acc : gmap string CheckResult * nat) (job : Job.t) : gmap string CheckResult * nat :=
  match check_job_budgets config db (Job.job_code job) with
  | Success job_code budget_status alerts =>
      (<[Job.job_code job := Success job_code budget_status alerts]> acc.1,
       (acc.2 + length alerts)%nat)
  | Failure _ => acc
  end.

(** [check_all_jobs_budgets] *)
Definition check_all_jobs_budgets (config : AlertConfig) (db : Db) : AllJobs :=
  let '(all_results, total_alerts) :=
    fold_left (check_one config db) (Crud.get_all_jobs db) (∅, 0%nat) in
  {| total_jobs_checked := size all_results;
     total_alerts := total_alerts;
     job_results := all_results |}.

End BudgetCheckAll.
(** ** backend/utils/parse_pnl.py: the job mappings *)

Module PnlMappings.
Import Models ParsePnl.

(** [PnLParser(db)] *)
Definition new_parser (db : Db) : Parser :=
  {| db := db; job_mappings := ∅; processed_expenses := [] |}.

(** [load_job_mappings]: [self.job_mappings[job.job_code] = job.id] for the
    jobs [get_all_jobs] returns, in its order. *)
Definition load_job_mappings (self : Parser) : Parser :=
  {| db := db self;
     job_mappings :=
       fold_left (fun mappings job => <[Job.job_code job := Job.id job]> mappings)
         (Crud.get_all_jobs (db self)) (job_mappings self);
     processed_expenses := processed_expenses self |}.

End PnlMappings.
(** ** backend/utils/parse_invoice.py: the queries on a parsed report *)

Module InvoiceQueries.
Import ParseInvoice.

Section Conversions.

Variable float_of_text : string -> option Q.
Variable datetime_of : Cell -> option Z.
Variable text_of : Cell -> string.

(** [get_job_invoice_summary], from the data frame of the file *)
Definition get_job_invoice_summary (now : Z) (df : DataFrame) (job_code : string)
    : option JobInvoices :=
  match parse_invoice_file float_of_text datetime_of text_of now df with
  | Parsed data _ => snd <$> find (fun entry => String.eqb entry.1 job_code) data
  | Failed _ => None
  end.

(** [invoice['status'] == 'UNPAID' and invoice['aging_days'] > days_threshold] *)
Definition is_overdue (days_threshold : Z) (invoice : InvoiceInfo) : bool :=
  String.eqb (status invoice) "UNPAID" && (days_threshold <? aging_days invoice)%Z.

(** [get_overdue_invoices]: the invoices returned, each with the job code
    the loop stores in it. *)
Definition get_overdue_invoices (now : Z) (df : DataFrame) (days_threshold : Z)
    : list (string * InvoiceInfo) :=
  match parse_invoice_file float_of_text datetime_of text_of now df with
  | Parsed data _ =>
      List.concat
        (List.map (fun entry =>
                     List.map (pair entry.1)
                       (List.filter (is_overdue days_threshold) (invoices entry.2)))
           data)
  | Failed _ => []
  end.

End Conversions.

End InvoiceQueries.

(** * Vocabulary of the properties *)

Module UpdateCvrSpec.
Import UpdateCvr.

(** Going from sheet [s] to sheet [s'] left cell [c] at its value. *)
Definition keeps (c : Coord) (s s' : Sheet) : Prop :=
  cell_value s' c = cell_value s c.

(** The update of field [cell_key] with [value] is rejected: the field has
    no address, or the positivity rule is active and the value negative. *)
Definition skipped (rules : Rules) (cell_key : string) (value : pyval) : Prop :=
  cell_mappings rules !! cell_key = None \/
  (default true (only_positive_values rules) = true /\
   exists q, value = PyNum q /\ (q < 0)%Q).

(** Some line of the "updates" list reports the field labelled [label]. *)
Definition has_line (label : string) (updates : list string) : bool :=
  existsb (String.prefix (label ++ ": £")) updates.

(** The fields [update_cvr_with_pnl] updates, in order: label, key of the
    cell mapping, and cost category ([None] for the total). *)
Definition pnl_fields : list (string * string * option string) :=
  [("Total costs", "total_costs", None);
   ("Material costs", "material_costs", Some "material");
   ("Labour costs", "labour_costs", Some "labour");
   ("Plant costs", "plant_costs", Some "plant");
   ("Subcontract costs", "subcontract_costs", Some "subcontract")].

(** The aggregate the updater passes for a field. *)
Definition pnl_field_value (rules : Rules) (job_data : PnlJob)
    (category : option string) : res pyval :=
  match category with
  | None => Ok (default (PyNum 0) (total_expenses job_data))
  | Some cat =>
      match _calculate_category_cost rules (default [] (expense_breakdown job_data)) cat with
      | Ok cost => Ok (PyNum cost)
      | Raise e => Raise e
      end
  end.

(** The field updates of [update_cvr_with_pnl] as one loop over
    [pnl_fields]; [pnl_body] is this loop unrolled. *)
Fixpoint pnl_steps (rules : Rules) (job_data : PnlJob)
    (fields : list (string * string * option string))
    (st : list string * Sheet) : res (list string * Sheet) :=
  match fields with
  | [] => Ok st
  | (label, cell_key, category) :: rest =>
      value ← pnl_field_value rules job_data category;
      st' ← update_field rules label cell_key value st;
      pnl_steps rules job_data rest st'
  end.

(** No other P&L field shares the address [addr] of field [cell_key]. *)
Definition pnl_address_private (rules : Rules) (cell_key : string) (addr : Coord) : Prop :=
  forall label key cat,
    In (label, key, cat) pnl_fields -> key <> cell_key ->
    cell_mappings rules !! key <> Some addr.

(** The cells the invoice updater writes without consulting the rules. *)
Definition payment_cells : list Coord := [E1; E2; F2; E3; F3; E4; F4].

End UpdateCvrSpec.

(** Concrete ledgers used to exercise the updater. *)
Module UpdateCvrExamples.
Import UpdateCvr.

(** A job sheet whose time-stamp cell and total-costs cell hold formulas. *)
Definition formula_sheet : Sheet :=
  <[C5 := PyStr "=SUM(C6:C9)"]>
    (<[C3 := PyNum 1000]>
       (<[A1 := PyStr "=NOW()"]> ∅)).

Definition ledger : Workbook := {[ "Job_NDA-001" := formula_sheet ]}.

Definition pnl_report : gmap string PnlJob :=
  {[ "NDA-001" := {| total_expenses := Some (PyNum 100);
                     expense_breakdown := Some [("Materials", PyNum 60);
                                                ("Site labour", PyNum 40)] |} ]}.

(** A report whose total is negative (a credit note larger than the costs). *)
Definition negative_report : gmap string PnlJob :=
  {[ "NDA-001" := {| total_expenses := Some (PyNum (-50));
                     expense_breakdown := Some [("Materials", PyNum 60)] |} ]}.

Definition invoice_report : gmap string InvoiceJob :=
  {[ "NDA-001" := {| total_invoiced := Some (PyNum 500);
                     total_paid := Some (PyNum 200);
                     outstanding_balance := Some (PyNum 300);
                     payment_rate := Some (PyNum 40) |} ]}.

(** The default rules with formula preservation switched off. *)
Definition overwrite_rules : Rules := {|
  cell_mappings := cell_mappings default_rules;
  cost_categories := cost_categories default_rules;
  only_positive_values := Some true;
  preserve_formulas := Some false
  |}.

Definition now_text : string := "2024-05-01 09:30:00".

(** A job sheet whose payment-tracking and time-stamp cells hold formulas. *)
Definition tracking_sheet : Sheet :=
  <[F2 := PyStr "=SUM(F5:F9)"]> (<[A1 := PyStr "=NOW()"]> ∅).

Definition tracking_ledger : Workbook := {[ "Job_NDA-001" := tracking_sheet ]}.

End UpdateCvrExamples.

(** A small database: job 1 is over its material budget by 30% and over
    its labour budget by 10%, and within its plant budget; it has one unpaid
    invoice due 40 days before [CrudExamples.utcnow] and one due 10 days
    before. *)
Module CrudExamples.
Import Models Crud.

Definition day : Z := 86400.
Definition utcnow : Z := 20000 * day + 3600.

Definition db0 : Db := {|
  jobs := [{| Job.id := 1; Job.job_code := "NDA-001"; Job.job_name := "HV Cable";
              Job.client := "SGN"; Job.contract_value := 10000;
              Job.amended_value := 10000; Job.estimated_final_cost := 8000;
              Job.status := active; Job.progress_percentage := 50 |}];
  expenses :=
    [{| Expense.id := 1; Expense.job_id := 1; Expense.category := material;
        Expense.description := "Cable drums"; Expense.amount := 1300 |};
     {| Expense.id := 2; Expense.job_id := 1; Expense.category := labour;
        Expense.description := "Site wages"; Expense.amount := 550 |};
     {| Expense.id := 3; Expense.job_id := 1; Expense.category := plant_machinery;
        Expense.description := "Excavator hire"; Expense.amount := 100 |}];
  invoices :=
    [{| Invoice.id := 1; Invoice.job_id := 1; Invoice.invoice_number := "INV-7";
        Invoice.amount := 2500; Invoice.due_date := utcnow - 40 * day;
        Invoice.is_paid := false |};
     {| Invoice.id := 2; Invoice.job_id := 1; Invoice.invoice_number := "INV-8";
        Invoice.amount := 900; Invoice.due_date := utcnow - 10 * day;
        Invoice.is_paid := false |}];
  variations := [];
  budgets :=
    [{| Budget.id := 1; Budget.job_id := 1; Budget.category := material;
        Budget.budgeted_amount := 1000 |};
     {| Budget.id := 2; Budget.job_id := 1; Budget.category := labour;
        Budget.budgeted_amount := 500 |};
     {| Budget.id := 3; Budget.job_id := 1; Budget.category := plant_machinery;
        Budget.budgeted_amount := 400 |}];
  alerts := []
  |}.

(** The first budget check of job 1 on [db0]: the alerts it creates and the
    database it leaves. *)
Definition created0 : list Alert.t :=
  match check_and_create_budget_alerts Sql.NoCase db0 1 with
  | Ok (created, _) => created
  | Raise _ => []
  end.

Definition db1 : Db :=
  match check_and_create_budget_alerts Sql.NoCase db0 1 with
  | Ok (_, db') => db'
  | Raise _ => db0
  end.

End CrudExamples.

(** Character classes used to tell the parts of a generated message apart. *)
Module Chars.

(** The characters of a formatted number. *)
Definition numeric (c : ascii) : bool :=
  Str.is_digit c || Ascii.eqb c "." || Ascii.eqb c "-".

(** The characters of the category names. *)
Definition wordish (c : ascii) : bool :=
  Str.is_lower c || Ascii.eqb c "_".

(** No wild card of [LIKE]. *)
Definition plain (c : ascii) : bool :=
  negb (Ascii.eqb c "%") && negb (Ascii.eqb c "_").

(** No character of the needle [k] compares equal to a separator. *)
Definition avoids (ceq : ascii -> ascii -> bool) (sep : ascii -> bool) (k : string) : Prop :=
  forall c d, In c (list_ascii_of_string k) -> sep d = true -> ceq c d = false.

End Chars.

Module CrudSpec.
Import Models Crud.

(** An unacknowledged budget-overrun alert of the job. *)
Definition live_budget_alert (job_id : nat) (a : Alert.t) : bool :=
  Nat.eqb (Alert.job_id a) job_id
  && String.eqb (Alert.alert_type a) "budget_overrun"
  && negb (Alert.is_acknowledged a).

(** The live budget-overrun alerts of the job whose message contains the
    text [subject]. *)
Definition live_about (job_id : nat) (subject : string) (al : list Alert.t)
    : list Alert.t :=
  List.filter (fun a => live_budget_alert job_id a && Str.contains (Alert.message a) subject) al.

(** The live budget-overrun alerts of the job were all written by
    [check_and_create_budget_alerts]. *)
Definition all_made (job_id : nat) (al : list Alert.t) : Prop :=
  forall a, In a al -> live_budget_alert job_id a = true ->
  exists o X, category o = ExpenseCategory_value X /\ Alert.message a = budget_message o.

(** The call changed at most the alerts table. *)
Definition same_tables (db db' : Db) : Prop :=
  jobs db' = jobs db /\ expenses db' = expenses db /\ invoices db' = invoices db
  /\ variations db' = variations db /\ budgets db' = budgets db.

(** Alert [a] is the row [check_and_create_budget_alerts] writes for
    overrun [o] of the job. *)
Definition budget_alert_of (job_id : nat) (o : Overrun) (a : Alert.t) : Prop :=
  Alert.job_id a = job_id /\
  Alert.alert_type a = "budget_overrun" /\
  Alert.message a = budget_message o /\
  Alert.severity a = budget_severity o /\
  Alert.is_acknowledged a = false.

(** Alert [a] is the row [check_and_create_invoice_alerts] writes for
    [invoice] at time [utcnow]. *)
Definition invoice_alert_of (utcnow : Z) (invoice : Invoice.t) (a : Alert.t) : Prop :=
  Alert.job_id a = Invoice.job_id invoice /\
  Alert.alert_type a = "overdue_invoice" /\
  Alert.message a = invoice_message utcnow invoice /\
  Alert.severity a = invoice_severity utcnow invoice /\
  Alert.is_acknowledged a = false.

(** A category name read as a [LIKE] pattern: the plain text before its
    first wild card, and what follows. *)
Definition plain_prefix (X : ExpenseCategory) : string :=
  match X with
  | plant_machinery => "plant"
  | _ => ExpenseCategory_value X
  end.

Definition pattern_rest (X : ExpenseCategory) : string :=
  match X with
  | plant_machinery => "_machinery%"
  | _ => "%"
  end.

End CrudSpec.

(** A job with a material budget of 1000 and 950 spent on material. *)
Module BudgetCheckExamples.
Import Models.

Definition budget_db : Db := {|
  jobs := [{| Job.id := 1; Job.job_code := "NDA-001"; Job.job_name := "HV Cable";
              Job.client := "SGN"; Job.contract_value := 10000;
              Job.amended_value := 10000; Job.estimated_final_cost := 8000;
              Job.status := active; Job.progress_percentage := 50 |}];
  expenses :=
    [{| Expense.id := 1; Expense.job_id := 1; Expense.category := material;
        Expense.description := "Cable drums"; Expense.amount := 950 |}];
  invoices := [];
  variations := [];
  budgets :=
    [{| Budget.id := 1; Budget.job_id := 1; Budget.category := material;
        Budget.budgeted_amount := 1000 |}];
  alerts := []
  |}.

End BudgetCheckExamples.

(** The specification's P&L example: one job column "JOB001-Main Road",
    one account row "Materials" with value -150; job JOB001 is known to
    the parser under id 1.  [plant_sheet] is the same sheet with the
    account "Plant hire". *)
Module ParsePnlExamples.
Import Models ParsePnl.

Definition job001 : Job.t :=
  {| Job.id := 1; Job.job_code := "JOB001"; Job.job_name := "Main Road";
   Job.client := "SGN"; Job.contract_value := 10000; Job.amended_value := 10000;
   Job.estimated_final_cost := 8000; Job.status := active;
   Job.progress_percentage := 0 |}.

Definition db_with_job : Db :=
  {| jobs := [job001]; expenses := []; invoices := []; variations := [];
   budgets := []; alerts := [] |}.

Definition empty_db : Db :=
  {| jobs := []; expenses := []; invoices := []; variations := [];
   budgets := []; alerts := [] |}.

(** The parser after [load_job_mappings]. *)
Definition parser0 : Parser :=
  {| db := db_with_job; job_mappings := {[ "JOB001" := 1%nat ]};
   processed_expenses := [] |}.

(** A parser that knows no job. *)
Definition blank_parser : Parser :=
  {| db := empty_db; job_mappings := ∅; processed_expenses := [] |}.

Definition materials_sheet : DataFrame :=
  {| columns := ["Account"; "JOB001-Main Road"];
   rows := [[CStr "Materials"; CNum (-150)]] |}.

Definition plant_sheet : DataFrame :=
  {| columns := ["Account"; "JOB001-Main Road"];
   rows := [[CStr "Plant hire"; CNum (-150)]] |}.

End ParsePnlExamples.

Module ParsePnlSpec.
Import ParsePnl.

(** The member name [categorize_expense] looks up for a description: the
    first keyword list, in the order of the code, with a keyword that
    occurs in the lower-cased, trimmed description. *)
Definition selected_member (description : string) : string :=
  let d := Str.strip (Str.lower description) in
  if Str.any_in material_keywords d then "materials"
  else if Str.any_in labor_keywords d then "labor"
  else if Str.any_in plant_keywords d then "plant_machinery"
  else if Str.any_in subcontractor_keywords d then "subcontractors"
  else if Str.any_in transport_keywords d then "transport"
  else "other".

(** The list [after] extends [before] by plant/machinery line items with
    non-negative amounts. *)
Definition added_ok (before after : list ExpenseData) : Prop :=
  exists new,
  after = app before new /\
  forall e, In e new -> category e = Models.plant_machinery /\ (0 <= amount e)%Q.

End ParsePnlSpec.

(** Invoice sheets that lack columns the parser declares as required:
    [no_type_sheet] lacks only "Type"; [three_column_sheet] has only
    "Class", "Amount" and "Balance"; [no_class_sheet] lacks "Class". *)
Module ParseInvoiceExamples.
Import ParseInvoice.

Definition now : Z := 20000 * 86400.

Definition no_type_sheet : DataFrame :=
  {| columns := ["Date"; "Num"; "Name"; "Class"; "Amount"; "Balance"];
   rows := [[CDate (19990 * 86400); CStr "1001"; CStr "SGN"; CStr " nda-001";
             CNum 500; CNum 0]] |}.

Definition three_column_sheet : DataFrame :=
  {| columns := ["Class"; "Amount"; "Balance"];
   rows := [[CStr "NDA-001"; CNum 500; CNum 250]] |}.

Definition no_class_sheet : DataFrame :=
  {| columns := ["Type"; "Date"; "Num"; "Name"; "Amount"; "Balance"];
   rows := [[CStr "Invoice"; CDate (19990 * 86400); CStr "1001"; CStr "SGN";
             CNum 500; CNum 0]] |}.

End ParseInvoiceExamples.

(** Template directories for the batch pass: two uploaded templates, the
    later one with a data row for job NDA-001; and a directory whose
    latest template has only the header row. *)
Module CvrBatchExamples.
Import Models CvrBatch.

Definition headers : list pyval :=
  [PyStr "Job Code"; PyStr "Cost to Date"; PyStr "Invoiced"; PyStr "Est. Final Cost";
 PyStr "Amended Value"; PyStr "Margin"].

Definition old_template : Sheet :=
  {| header := headers; data_rows := [] |}.

Definition new_template : Sheet :=
  {| header := headers;
   data_rows := [[PyStr "NDA-001"; PyNum 0; PyNum 0; PyNum 0; PyNum 0; PyNum 0]] |}.

Definition uploads : Files :=
  [("CVR_Templates/cvr_master_20240301_101500.xlsx", new_template);
 ("CVR_Templates/cvr_master_20240101_090000.xlsx", old_template);
 ("CVR_Templates/update_rules.json", old_template)].

Definition header_only_uploads : Files :=
  [("CVR_Templates/cvr_master_20240101_090000.xlsx", new_template);
 ("CVR_Templates/cvr_master_20240301_101500.xlsx", old_template)].

Definition stamp : string := "20240302_120000".

End CvrBatchExamples.
(** Vocabulary of the properties of the row operations. *)
Module CrudOpsSpec.
Import Models Crud CrudOps.

(** The columns a created expense row takes from the request. *)
Definition expense_fields (e : Expense.t) : nat * ExpenseCategory * string * Q :=
  (Expense.job_id e, Expense.category e, Expense.description e, Expense.amount e).

Definition request_fields (e : ExpenseCreate.t) : nat * ExpenseCategory * string * Q :=
  (ExpenseCreate.job_id e, ExpenseCreate.category e, ExpenseCreate.description e,
 ExpenseCreate.amount e).

End CrudOpsSpec.

(** The first alert of the budget check on [CrudExamples.db0]. *)
Module AlertExamples.
Import Models.

Definition material_alert : Alert.t :=
  {| Alert.id := 1; Alert.job_id := 1; Alert.alert_type := "budget_overrun";
   Alert.message := "Budget overrun in material: £300.00 over budget (30.0%)";
   Alert.severity := "high"; Alert.is_acknowledged := false |}.

End AlertExamples.

(** Requests used to exercise the row operations on [CrudExamples.db0]. *)
Module CrudOpsExamples.
Import Models CrudOps.

Definition new_job : JobCreate.t :=
  {| JobCreate.job_code := "NDA-002"; JobCreate.job_name := "Gas main renewal";
   JobCreate.client := "SGN"; JobCreate.contract_value := 5000;
   JobCreate.amended_value := 5000; JobCreate.estimated_final_cost := 4000;
   JobCreate.status := active; JobCreate.progress_percentage := 0 |}.

Definition new_expenses : list ExpenseCreate.t :=
  [{| ExpenseCreate.job_id := 1; ExpenseCreate.category := material;
      ExpenseCreate.description := "Ducting"; ExpenseCreate.amount := 120 |};
   {| ExpenseCreate.job_id := 2; ExpenseCreate.category := labour;
      ExpenseCreate.description := "Night shift"; ExpenseCreate.amount := 80 |}].

End CrudOpsExamples.

(** Vocabulary of the properties of the batch update of the ledger. *)
Module CvrDashboardSpec.
Import UpdateCvr CvrDashboard.



End CvrDashboardSpec.

(** Vocabulary of the properties of the P&L row loop. *)
Module PnlMappingsSpec.
Import Models ParsePnl.

(** From [p0] to [p] the loop recorded the expenses [new], each for a job
    that the mappings of [p0] hold under one of the codes [known]; it
    counted them, and touched neither the database nor the mappings. *)
Definition recorded (known : list string) (p0 p : Progress) (new : list ExpenseData)
    : Prop :=
  db (parser p) = db (parser p0) /\
  job_mappings (parser p) = job_mappings (parser p0) /\
  processed_expenses (parser p) = app (processed_expenses (parser p0)) new /\
  processed_count p = (processed_count p0 + length new)%nat /\
  forall e, In e new ->
    exists job_code,
      In job_code known /\
      job_mappings (parser p0) !! job_code = Some (job_id e) /\
      job_id e <> 0%nat.

End PnlMappingsSpec.

(** An invoice report with one settled and one long overdue invoice of job
    NDA-001, and an invoice without a class. *)
Module InvoiceQueriesExamples.
Import ParseInvoice.

Definition overdue_sheet : DataFrame :=
  {| columns := ["Num"; "Class"; "Amount"; "Balance"; "Due Date"];
     rows := [[CStr "1001"; CStr "nda-001"; CNum 500; CNum 0; CDate (19990 * 86400)];
              [CStr "1002"; CStr "NDA-001 "; CNum 400; CNum 250; CDate (19950 * 86400)];
              [CStr "1003"; CNaN; CNum 90; CNum 90; CDate (19900 * 86400)]] |}.

Definition no_float (s : string) : option Q := None.
Definition no_datetime (c : Cell) : option Z := None.
Definition no_text (c : Cell) : string := "".

End InvoiceQueriesExamples.
(** * Properties *)

(** ** Sanity checks of the string and formatting helpers *)

Example fmt_money_ex : Fmt.fixed true 2 (1234567 # 100) = "12,345.67".
Proof. reflexivity. Qed.
Example fmt_neg_ex : Fmt.fixed false 2 (- (5 # 2)) = "-2.50".
Proof. reflexivity. Qed.
Example fmt_rate_ex : Fmt.fixed false 1 (200 # 3) = "66.7".
Proof. reflexivity. Qed.
Example strip_ex : Str.strip "  Main Road " = "Main Road".
Proof. reflexivity. Qed.
Example contains_ex : Str.contains "site labour wk1" "labour" = true.
Proof. reflexivity. Qed.


(** ** Substring search, [LIKE] and formatted numbers *)

Section StringFacts.

Lemma append_cons c s t : String c s ++ t = String c (s ++ t).
Proof. reflexivity. Qed.

Lemma append_nil t : "" ++ t = t.
Proof. reflexivity. Qed.

Lemma append_assoc s t u : (s ++ t) ++ u = s ++ t ++ u.
Proof.
  induction s as [|c s IH]; [reflexivity|].
  rewrite !append_cons. now rewrite IH.
Qed.

Lemma forallb_app p s1 s2 :
  Str.forallb p (s1 ++ s2) = Str.forallb p s1 && Str.forallb p s2.
Proof.
  induction s1 as [|c s1 IH]; [reflexivity|].
  rewrite append_cons. cbn [Str.forallb]. rewrite IH. now rewrite andb_assoc.
Qed.

Section Split.
Variable ceq : ascii -> ascii -> bool.
Variable sep : ascii -> bool.

Lemma avoids_tail c k :
  Chars.avoids ceq sep (String c k) -> Chars.avoids ceq sep k.
Proof. intros H x d Hin. apply H. now right. Qed.

Lemma prefix_by_before_sep k s d n b :
  Chars.avoids ceq sep k -> sep d = true ->
  Str.prefix_by ceq k (s ++ String d n ++ b) = Str.prefix_by ceq k s.
Proof.
  revert s. induction k as [|c k IH]; intros s Hk Hd; [reflexivity|].
  destruct s as [|y s]; simpl.
  - rewrite (Hk c d); [reflexivity|now left|exact Hd].
  - rewrite IH; [reflexivity|now apply avoids_tail in Hk|exact Hd].
Qed.

Lemma contains_by_after_seps k n b :
  Chars.avoids ceq sep k -> Str.forallb sep n = true ->
  Str.contains_by ceq (n ++ b) k =
  Str.prefix_by ceq k "" || Str.contains_by ceq b k.
Proof.
  intros Hk. induction n as [|d n IH]; intros Hn.
  - simpl. destruct k; [now destruct b|reflexivity].
  - simpl in Hn. apply andb_true_iff in Hn as [Hd Hn]. simpl.
    rewrite (IH Hn). destruct k as [|c k]; [reflexivity|].
    simpl. rewrite (Hk c d); [reflexivity|now left|exact Hd].
Qed.

(** A needle that avoids the separators lies on one side of a non-empty
    run of separators. *)
Lemma contains_by_split a n b k :
  Chars.avoids ceq sep k -> n <> "" -> Str.forallb sep n = true ->
  Str.contains_by ceq (a ++ n ++ b) k =
  Str.contains_by ceq a k || Str.contains_by ceq b k.
Proof.
  intros Hk Hne Hn. induction a as [|x a IH].
  - rewrite ?append_cons, ?append_nil. rewrite (contains_by_after_seps _ _ _ Hk Hn).
    simpl. now rewrite orb_false_r.
  - rewrite append_cons. cbn [Str.contains_by]. rewrite IH.
    destruct n as [|d n]; [congruence|].
    simpl in Hn. apply andb_true_iff in Hn as [Hd _].
    change (String x (a ++ String d n ++ b)) with (String x a ++ String d n ++ b).
    rewrite (prefix_by_before_sep k (String x a) d n b Hk Hd).
    now rewrite orb_assoc.
Qed.

End Split.

(** Category names and formatted numbers share no character, under
    either collation. *)
Lemma wordish_not_numeric coll c d :
  Chars.wordish c = true -> Chars.numeric d = true -> Sql.char_eq coll c d = false.
Proof.
  intros Hc Hd. destruct (Sql.char_eq coll c d) eqn:E; [|reflexivity].
  exfalso.
  assert (Hlc : Str.lower_char c = c).
  { revert Hc. destruct c as [[] [] [] [] [] [] [] []]; vm_compute; congruence. }
  assert (Hld : Str.lower_char d = d).
  { revert Hd. destruct d as [[] [] [] [] [] [] [] []]; vm_compute; congruence. }
  assert (c = d) as ->.
  { destruct coll; simpl in E.
    - now apply Ascii.eqb_eq.
    - rewrite Hlc, Hld in E. now apply Ascii.eqb_eq. }
  revert Hc Hd. destruct d as [[] [] [] [] [] [] [] []]; vm_compute; congruence.
Qed.

Lemma wordish_avoids coll k :
  Str.forallb Chars.wordish k = true ->
  Chars.avoids (Sql.char_eq coll) Chars.numeric k.
Proof.
  induction k as [|x k IH]; intros Hk c d Hin Hd; [contradiction|].
  simpl in Hk. apply andb_true_iff in Hk as [Hx Hk].
  destruct Hin as [<-|Hin].
  - now apply wordish_not_numeric.
  - now apply (IH Hk c d).
Qed.

(** *** [LIKE] *)

Lemma like_any coll p s :
  Sql.like coll (String "%" p) s =
  Sql.like coll p s ||
  match s with
  | "" => false
  | String _ s' => Sql.like coll (String "%" p) s'
  end.
Proof. destruct s; reflexivity. Qed.

Lemma like_plain coll c p s :
  Chars.plain c = true ->
  Sql.like coll (String c p) s =
  match s with
  | "" => false
  | String d s' => Sql.char_eq coll c d && Sql.like coll p s'
  end.
Proof.
  unfold Chars.plain. intros H. apply andb_true_iff in H as [H1 H2].
  apply negb_true_iff in H1, H2. cbn [Sql.like]. now rewrite H1, H2.
Qed.

Lemma like_prefix_plain coll k rest s :
  Str.forallb Chars.plain k = true ->
  Sql.like coll (k ++ rest) s = true ->
  Str.prefix_by (Sql.char_eq coll) k s = true.
Proof.
  revert s. induction k as [|c k IH]; intros s Hk H; [reflexivity|].
  simpl in Hk. apply andb_true_iff in Hk as [Hc Hk].
  rewrite ?append_cons, ?append_nil in H. rewrite (like_plain _ _ _ _ Hc) in H.
  destruct s as [|d s]; [discriminate|].
  apply andb_true_iff in H as [Hcd H]. simpl. rewrite Hcd. simpl. now apply IH.
Qed.

(** A [LIKE] match of a pattern that begins "%k..." needs the plain text
    [k] somewhere in the subject. *)
Lemma like_contains_plain coll k rest s :
  Str.forallb Chars.plain k = true ->
  Sql.like coll (String "%" (k ++ rest)) s = true ->
  Str.contains_by (Sql.char_eq coll) s k = true.
Proof.
  intros Hk. induction s as [|d s IH]; rewrite like_any; intros H.
  - rewrite orb_false_r in H. simpl. rewrite orb_false_r.
    now apply (like_prefix_plain coll k rest).
  - apply orb_true_iff in H as [H|H]; simpl; apply orb_true_iff.
    + left. now apply (like_prefix_plain coll k rest).
    + right. now apply IH.
Qed.

Lemma char_eq_refl coll c : Sql.char_eq coll c c = true.
Proof. destruct coll; apply Ascii.eqb_refl. Qed.

Lemma like_percent coll s : Sql.like coll "%" s = true.
Proof. induction s as [|d s IH]; rewrite like_any; [reflexivity|]. now rewrite IH. Qed.

Lemma like_self coll x s : Sql.like coll (x ++ "%") (x ++ s) = true.
Proof.
  induction x as [|c x IH]; [apply like_percent|].
  rewrite ?append_cons, ?append_nil. destruct (Ascii.eqb c "%") eqn:E1.
  - apply Ascii.eqb_eq in E1 as ->. rewrite like_any.
    apply orb_true_iff. right. rewrite like_any. now rewrite IH.
  - destruct (Ascii.eqb c "_") eqn:E2.
    + cbn [Sql.like]. rewrite E1, E2. exact IH.
    + rewrite like_plain; [|unfold Chars.plain; now rewrite E1, E2].
      now rewrite char_eq_refl, IH.
Qed.

Lemma like_skip coll p a s :
  Sql.like coll (String "%" p) s = true ->
  Sql.like coll (String "%" p) (a ++ s) = true.
Proof.
  intros H. induction a as [|c a IH]; [exact H|].
  rewrite ?append_cons, ?append_nil. rewrite like_any. rewrite IH. apply orb_true_r.
Qed.

(** Text that literally occurs in the column is found by [contains]. *)
Lemma sql_contains_self coll a x b : Sql.contains coll (a ++ x ++ b) x = true.
Proof.
  unfold Sql.contains. rewrite ?append_cons, ?append_nil. apply like_skip.
  rewrite like_any. now rewrite like_self.
Qed.

(** *** Formatted numbers *)

Lemma digit_numeric n : (0 <= n < 10)%Z -> Chars.numeric (Fmt.digit n) = true.
Proof.
  intros H. rewrite <- (Z2Nat.id n) by lia.
  assert (Hk : (Z.to_nat n < 10)%nat) by lia.
  revert Hk. generalize (Z.to_nat n) as k. intros k Hk.
  do 10 (destruct k as [|k]; [reflexivity|]). lia.
Qed.

Lemma pad_numeric d n : Str.forallb Chars.numeric (Fmt.pad d n) = true.
Proof.
  revert n. induction d as [|d IH]; intros n; [reflexivity|].
  cbn [Fmt.pad]. rewrite forallb_app, IH. simpl.
  rewrite digit_numeric; [reflexivity|]. apply Z.mod_pos_bound. lia.
Qed.

Lemma uint_numeric u : Str.forallb Chars.numeric (NilEmpty.string_of_uint u) = true.
Proof. induction u; simpl; auto. Qed.

Lemma digits_numeric n : Str.forallb Chars.numeric (Fmt.digits n) = true.
Proof.
  unfold Fmt.digits, NilZero.string_of_uint.
  destruct (N.to_uint (Z.to_N n)); try reflexivity; apply uint_numeric.
Qed.

Lemma fixed_numeric d q :
  Str.forallb Chars.numeric (Fmt.fixed false (S d) q) = true.
Proof.
  unfold Fmt.fixed. rewrite !forallb_app, digits_numeric, pad_numeric.
  destruct (Qltb q 0); reflexivity.
Qed.

Lemma fixed_nonempty d q : Fmt.fixed false (S d) q <> "".
Proof.
  unfold Fmt.fixed. destruct (Qltb q 0); rewrite ?append_cons, ?append_nil; [discriminate|].
  destruct (Fmt.digits _); rewrite ?append_cons, ?append_nil; discriminate.
Qed.

End StringFacts.

(** ** The ledger updater (update_cvr.py) *)

Section UpdateCvrFacts.
Import UpdateCvr UpdateCvrSpec.

Implicit Types (rules : Rules) (sheet : Sheet) (wb : Workbook) (c : Coord).

(** What a call of [_update_cell] can do: nothing, or one write at the
    mapped address, allowed by both conditions. *)
Lemma update_cell_cases rules sheet cell_key value updated sheet' :
  _update_cell rules sheet cell_key value = Ok (updated, sheet') ->
  (updated = false /\ sheet' = sheet) \/
  (updated = true /\
   exists addr,
     cell_mappings rules !! cell_key = Some addr /\
     sheet' = <[addr := value]> sheet /\
     (default true (only_positive_values rules) = true -> py_lt0 value = Ok false) /\
     (default true (preserve_formulas rules) = true ->
      is_formula (cell_value sheet addr) = false)).
Proof.
  unfold _update_cell.
  destruct (cell_mappings rules !! cell_key) as [addr|] eqn:Hmap.
  2: { intros [= <- <-]. now left. }
  destruct (default true (only_positive_values rules)) eqn:Hpos; cbn.
  - destruct (py_lt0 value) as [[|]|e] eqn:Hlt; cbn; try discriminate.
    + intros [= <- <-]. now left.
    + destruct (default true (preserve_formulas rules)) eqn:Hpres; cbn.
      * destruct (is_formula (cell_value sheet addr)) eqn:Hf;
          intros [= <- <-]; [now left|].
        right. split; [reflexivity|]. exists addr. repeat split; auto.
      * intros [= <- <-]. right. split; [reflexivity|].
        exists addr. repeat split; auto; discriminate.
  - destruct (default true (preserve_formulas rules)) eqn:Hpres; cbn.
    + destruct (is_formula (cell_value sheet addr)) eqn:Hf;
        intros [= <- <-]; [now left|].
      right. split; [reflexivity|]. exists addr. repeat split; auto; discriminate.
    + intros [= <- <-]. right. split; [reflexivity|].
      exists addr. repeat split; auto; discriminate.
Qed.

Lemma cell_value_insert_ne sheet c c' v :
  c <> c' -> cell_value (<[c := v]> sheet) c' = cell_value sheet c'.
Proof. intros H. unfold cell_value. now rewrite lookup_insert_ne. Qed.

Lemma cell_value_insert_eq sheet c v :
  cell_value (<[c := v]> sheet) c = v.
Proof. unfold cell_value. now rewrite lookup_insert_eq. Qed.

Lemma update_cell_keeps_formula rules sheet cell_key value updated sheet' c :
  default true (preserve_formulas rules) = true ->
  is_formula (cell_value sheet c) = true ->
  _update_cell rules sheet cell_key value = Ok (updated, sheet') ->
  keeps c sheet sheet'.
Proof.
  intros Hpres Hf Hrun.
  destruct (update_cell_cases _ _ _ _ _ _ Hrun) as [[_ ->]|[_ (addr & _ & -> & _ & Hnf)]].
  - reflexivity.
  - unfold keeps. apply cell_value_insert_ne. intros ->.
    rewrite (Hnf Hpres) in Hf. discriminate.
Qed.


(** A rejected update changes nothing and reports nothing. *)
Lemma update_cell_skipped rules sheet cell_key value :
  skipped rules cell_key value ->
  _update_cell rules sheet cell_key value = Ok (false, sheet).
Proof.
  unfold _update_cell. intros [Hnone|[Hpos (q & -> & Hq)]].
  - now rewrite Hnone.
  - destruct (cell_mappings rules !! cell_key); [|reflexivity].
    rewrite Hpos. cbn.
    assert (Qltb q 0 = true) as ->; [|reflexivity].
    unfold Qltb. destruct (Qle_bool 0 q) eqn:Hle; [|reflexivity].
    apply Qle_bool_iff in Hle. exfalso. eapply Qlt_not_le; eauto.
Qed.

Lemma update_field_skipped rules label cell_key value st :
  skipped rules cell_key value ->
  update_field rules label cell_key value st = Ok st.
Proof.
  intros H. unfold update_field. rewrite (update_cell_skipped _ _ _ _ H).
  now destruct st.
Qed.

(** One step of the updater: the flag [b] tells whether the field was
    written; the line and the write go together. *)
Lemma update_field_run rules label cell_key value st st' :
  update_field rules label cell_key value st = Ok st' ->
  (st' = st) \/
  (exists amount addr,
     Fmt.format true 2 value = Ok amount /\
     cell_mappings rules !! cell_key = Some addr /\
     st' = (app st.1 [update_line label amount], <[addr := value]> st.2) /\
     ~ skipped rules cell_key value /\
     (default true (preserve_formulas rules) = true ->
      is_formula (cell_value st.2 addr) = false)).
Proof.
  unfold update_field. destruct st as [updates sheet]. cbn [fst snd].
  destruct (_update_cell rules sheet cell_key value) as [[b sheet1]|e] eqn:Hrun;
    cbn; [|discriminate].
  destruct (update_cell_cases _ _ _ _ _ _ Hrun)
    as [[-> ->]|[-> (addr & Hmap & -> & Hpos & Hnf)]].
  - intros [= <-]. now left.
  - destruct (Fmt.format true 2 value) as [amount|e] eqn:Hfmt; cbn; [|discriminate].
    intros [= <-]. right. exists amount, addr. repeat split; auto.
    intros Hsk. rewrite (update_cell_skipped _ sheet _ _ Hsk) in Hrun. discriminate.
Qed.

Lemma update_field_keeps_formula rules label cell_key value st st' c :
  default true (preserve_formulas rules) = true ->
  is_formula (cell_value st.2 c) = true ->
  update_field rules label cell_key value st = Ok st' ->
  keeps c st.2 st'.2.
Proof.
  intros Hpres Hf Hrun.
  destruct (update_field_run _ _ _ _ _ _ Hrun)
    as [->|(amount & addr & _ & _ & -> & _ & Hnf)]; [reflexivity|].
  cbn. unfold keeps. apply cell_value_insert_ne. intros ->.
  rewrite (Hnf Hpres) in Hf. discriminate.
Qed.

Lemma keeps_trans c s1 s2 s3 : keeps c s1 s2 -> keeps c s2 s3 -> keeps c s1 s3.
Proof. unfold keeps. congruence. Qed.

Lemma keeps_formula c s1 s2 :
  keeps c s1 s2 -> is_formula (cell_value s1 c) = true ->
  is_formula (cell_value s2 c) = true.
Proof. unfold keeps. now intros ->. Qed.

Lemma category_field_keeps_formula rules job_data label cell_key category st st' c :
  default true (preserve_formulas rules) = true ->
  is_formula (cell_value st.2 c) = true ->
  category_field rules job_data label cell_key category st = Ok st' ->
  keeps c st.2 st'.2.
Proof.
  intros Hpres Hf. unfold category_field.
  destruct (_calculate_category_cost _ _ _) as [cost|e]; cbn; [|discriminate].
  now apply update_field_keeps_formula.
Qed.

Lemma margin_field_keeps_formula rules st st' c :
  default true (preserve_formulas rules) = true ->
  is_formula (cell_value st.2 c) = true ->
  margin_field rules st = Ok st' ->
  keeps c st.2 st'.2.
Proof.
  intros Hpres Hf. unfold margin_field.
  destruct (py_or0 _) as [|contract_value|?]; try (intros [= <-]; reflexivity).
  destruct (Qltb 0 contract_value); [|intros [= <-]; reflexivity].
  destruct (py_sub_num _ _) as [m|e]; cbn; [|discriminate].
  now apply update_field_keeps_formula.
Qed.

Lemma stamp_keeps ts sheet c : c <> A1 -> keeps c sheet (stamp ts sheet).
Proof. intros H. unfold keeps, stamp. now apply cell_value_insert_ne. Qed.

Lemma payment_block_keeps job_data sheet sheet' c :
  ~ In c payment_cells ->
  payment_block job_data sheet = Ok sheet' ->
  keeps c sheet sheet'.
Proof.
  intros Hc. unfold payment_block.
  destruct (Fmt.format false 1 _) as [rate|e]; cbn; [|discriminate].
  intros [= <-]. unfold keeps.
  repeat (rewrite cell_value_insert_ne;
          [|intros <-; apply Hc; cbn; tauto]).
  reflexivity.
Qed.

Lemma pnl_body_keeps_formula rules ts sheet job_data updates sheet' c :
  default true (preserve_formulas rules) = true ->
  is_formula (cell_value sheet c) = true ->
  c <> A1 ->
  pnl_body rules ts sheet job_data = Ok (updates, sheet') ->
  keeps c sheet sheet'.
Proof.
  intros Hpres Hf HA1. unfold pnl_body.
  destruct (update_field _ _ _ _ _) as [st1|e] eqn:H1; cbn; [|discriminate].
  destruct (category_field _ _ _ _ _ st1) as [st2|e] eqn:H2; cbn; [|discriminate].
  destruct (category_field _ _ _ _ _ st2) as [st3|e] eqn:H3; cbn; [|discriminate].
  destruct (category_field _ _ _ _ _ st3) as [st4|e] eqn:H4; cbn; [|discriminate].
  destruct (category_field _ _ _ _ _ st4) as [st5|e] eqn:H5; cbn; [|discriminate].
  intros [= <- <-].
  pose proof (update_field_keeps_formula _ _ _ _ ([], sheet) _ c Hpres Hf H1) as K1.
  pose proof (category_field_keeps_formula _ _ _ _ _ _ _ c Hpres
                (keeps_formula _ _ _ K1 Hf) H2) as K2.
  pose proof (keeps_trans _ _ _ _ K1 K2) as K12.
  pose proof (category_field_keeps_formula _ _ _ _ _ _ _ c Hpres
                (keeps_formula _ _ _ K12 Hf) H3) as K3.
  pose proof (keeps_trans _ _ _ _ K12 K3) as K13.
  pose proof (category_field_keeps_formula _ _ _ _ _ _ _ c Hpres
                (keeps_formula _ _ _ K13 Hf) H4) as K4.
  pose proof (keeps_trans _ _ _ _ K13 K4) as K14.
  pose proof (category_field_keeps_formula _ _ _ _ _ _ _ c Hpres
                (keeps_formula _ _ _ K14 Hf) H5) as K5.
  pose proof (keeps_trans _ _ _ _ K14 K5) as K15.
  eapply keeps_trans; [exact K15|]. now apply stamp_keeps.
Qed.

Lemma invoice_body_keeps_formula rules ts sheet job_data updates sheet' c :
  default true (preserve_formulas rules) = true ->
  is_formula (cell_value sheet c) = true ->
  c <> A1 -> ~ In c payment_cells ->
  invoice_body rules ts sheet job_data = Ok (updates, sheet') ->
  keeps c sheet sheet'.
Proof.
  intros Hpres Hf HA1 Hpay. unfold invoice_body.
  destruct (update_field _ _ _ _ _) as [st1|e] eqn:H1; cbn; [|discriminate].
  destruct (margin_field _ st1) as [st2|e] eqn:H2; cbn; [|discriminate].
  destruct (payment_block _ _) as [sheet3|e] eqn:H3; cbn; [|discriminate].
  intros [= <- <-].
  pose proof (update_field_keeps_formula _ _ _ _ ([], sheet) _ c Hpres Hf H1) as K1.
  pose proof (margin_field_keeps_formula _ _ _ c Hpres
                (keeps_formula _ _ _ K1 Hf) H2) as K2.
  pose proof (payment_block_keeps _ _ _ c Hpay H3) as K3.
  eapply keeps_trans; [exact K1|]. eapply keeps_trans; [exact K2|].
  eapply keeps_trans; [exact K3|]. now apply stamp_keeps.
Qed.

(** After a call the job's sheet is the updated one, or the workbook is
    as before. *)
Lemma resolve_after_insert wb job_code sheet :
  _get_or_create_job_sheet (<[sheet_name job_code := sheet]> wb) job_code = sheet.
Proof. unfold _get_or_create_job_sheet. now rewrite lookup_insert_eq. Qed.


Lemma pnl_run_keeps_formula rules ts wb pnl_data job_code result wb' c :
  default true (preserve_formulas rules) = true ->
  is_formula (cell_value (_get_or_create_job_sheet wb job_code) c) = true ->
  c <> A1 ->
  update_cvr_with_pnl rules ts wb pnl_data job_code = (result, wb') ->
  keeps c (_get_or_create_job_sheet wb job_code) (_get_or_create_job_sheet wb' job_code).
Proof.
  intros Hpres Hf HA1. unfold update_cvr_with_pnl.
  destruct (pnl_data !! job_code) as [job_data|]; [|intros [= <- <-]; reflexivity].
  destruct (pnl_body _ _ _ _) as [[updates sheet']|e] eqn:Hbody;
    intros [= <- <-]; [|reflexivity].
  rewrite resolve_after_insert. eapply pnl_body_keeps_formula; eauto.
Qed.

Lemma invoice_run_keeps_formula rules ts wb invoice_data job_code result wb' c :
  default true (preserve_formulas rules) = true ->
  is_formula (cell_value (_get_or_create_job_sheet wb job_code) c) = true ->
  c <> A1 -> ~ In c payment_cells ->
  update_cvr_with_invoice rules ts wb invoice_data job_code = (result, wb') ->
  keeps c (_get_or_create_job_sheet wb job_code) (_get_or_create_job_sheet wb' job_code).
Proof.
  intros Hpres Hf HA1 Hpay. unfold update_cvr_with_invoice.
  destruct (invoice_data !! job_code) as [job_data|]; [|intros [= <- <-]; reflexivity].
  destruct (invoice_body _ _ _ _) as [[updates sheet']|e] eqn:Hbody;
    intros [= <- <-]; [|reflexivity].
  rewrite resolve_after_insert. eapply invoice_body_keeps_formula; eauto.
Qed.

(** C1, as amended.  While the [preserve_formulas] rule is active (it is
    unless the rule file switches it off), [_update_cell] never overwrites a
    cell whose value is a string beginning with "=".  Hence every formula
    cell of the job's sheet other than the time-stamp cell A1 is unchanged
    after [update_cvr_with_pnl], and every formula cell other than A1 and
    the payment-tracking cells E1, E2, F2, E3, F3, E4, F4 is unchanged after
    [update_cvr_with_invoice]; this holds whether the call succeeds or
    fails. *)
Theorem formula_cells_survive_updates rules :
  default true (preserve_formulas rules) = true ->
  (forall sheet cell_key value updated sheet' c,
     is_formula (cell_value sheet c) = true ->
     _update_cell rules sheet cell_key value = Ok (updated, sheet') ->
     cell_value sheet' c = cell_value sheet c) /\
  (forall ts wb pnl_data job_code c,
     is_formula (cell_value (_get_or_create_job_sheet wb job_code) c) = true ->
     c <> A1 ->
     cell_value
       (_get_or_create_job_sheet
          (update_cvr_with_pnl rules ts wb pnl_data job_code).2 job_code) c
     = cell_value (_get_or_create_job_sheet wb job_code) c) /\
  (forall ts wb invoice_data job_code c,
     is_formula (cell_value (_get_or_create_job_sheet wb job_code) c) = true ->
     c <> A1 -> ~ In c payment_cells ->
     cell_value
       (_get_or_create_job_sheet
          (update_cvr_with_invoice rules ts wb invoice_data job_code).2 job_code) c
     = cell_value (_get_or_create_job_sheet wb job_code) c).
Proof.
  intros Hpres. split; [|split].
  - intros sheet cell_key value updated sheet' c Hf Hrun.
    exact (update_cell_keeps_formula _ _ _ _ _ _ _ Hpres Hf Hrun).
  - intros ts wb pnl_data job_code c Hf HA1.
    destruct (update_cvr_with_pnl rules ts wb pnl_data job_code) as [result wb'] eqn:Hrun.
    exact (pnl_run_keeps_formula _ _ _ _ _ _ _ _ Hpres Hf HA1 Hrun).
  - intros ts wb invoice_data job_code c Hf HA1 Hpay.
    destruct (update_cvr_with_invoice rules ts wb invoice_data job_code)
      as [result wb'] eqn:Hrun.
    exact (invoice_run_keeps_formula _ _ _ _ _ _ _ _ Hpres Hf HA1 Hpay Hrun).
Qed.


(** C1, witness: under the default rules a formula in the total-costs cell
    C5 survives a P&L update that targets it. *)
Lemma formula_cells_survive_updates_witness :
  cell_value
    (_get_or_create_job_sheet
       (update_cvr_with_pnl default_rules UpdateCvrExamples.now_text
          UpdateCvrExamples.ledger UpdateCvrExamples.pnl_report "NDA-001").2
       "NDA-001") C5
  = cell_value (_get_or_create_job_sheet UpdateCvrExamples.ledger "NDA-001") C5.
Proof.
  apply (proj1 (proj2 (formula_cells_survive_updates default_rules eq_refl))).
  - reflexivity.
  - discriminate.
Defined.

(** C1 as the specification words it fails in two ways.  Under the default
    rules the P&L update replaces a formula held by the time-stamp cell A1;
    and with [preserve_formulas] switched off in the rule file the formula
    in the total-costs cell C5 is replaced by the aggregate. *)
Lemma formula_cell_overwritten :
  (cell_value (_get_or_create_job_sheet UpdateCvrExamples.ledger "NDA-001") A1
   = PyStr "=NOW()" /\
   cell_value
     (_get_or_create_job_sheet
        (update_cvr_with_pnl default_rules UpdateCvrExamples.now_text
           UpdateCvrExamples.ledger UpdateCvrExamples.pnl_report "NDA-001").2
        "NDA-001") A1
   = PyStr "Last updated: 2024-05-01 09:30:00") /\
  (cell_value (_get_or_create_job_sheet UpdateCvrExamples.ledger "NDA-001") C5
   = PyStr "=SUM(C6:C9)" /\
   cell_value
     (_get_or_create_job_sheet
        (update_cvr_with_pnl UpdateCvrExamples.overwrite_rules
           UpdateCvrExamples.now_text
           UpdateCvrExamples.ledger UpdateCvrExamples.pnl_report "NDA-001").2
        "NDA-001") C5
   = PyNum 100).
Proof. repeat split; vm_compute; reflexivity. Qed.

(** The cells written at the end of the invoice update. *)
Lemma payment_block_cells job_data sheet sheet' ts :
  payment_block job_data sheet = Ok sheet' ->
  exists rate,
    Fmt.format false 1 (default (PyNum 0) (payment_rate job_data)) = Ok rate /\
    cell_value (stamp ts sheet') E1 = PyStr "Payment Tracking" /\
    cell_value (stamp ts sheet') E2 = PyStr "Total Paid" /\
    cell_value (stamp ts sheet') F2 = default (PyNum 0) (total_paid job_data) /\
    cell_value (stamp ts sheet') E3 = PyStr "Outstanding Balance" /\
    cell_value (stamp ts sheet') F3 = default (PyNum 0) (outstanding_balance job_data) /\
    cell_value (stamp ts sheet') E4 = PyStr "Payment Rate" /\
    cell_value (stamp ts sheet') F4 = PyStr (rate ++ "%") /\
    cell_value (stamp ts sheet') A1 = PyStr ("Last updated: " ++ ts).
Proof.
  unfold payment_block.
  destruct (Fmt.format false 1 _) as [rate|e]; cbn; [|discriminate].
  intros [= <-]. exists rate. split; [reflexivity|].
  unfold stamp, cell_value.
  repeat split; simplify_map_eq; reflexivity.
Qed.

(** C10.  Whenever [update_cvr_with_invoice] reports success, the saved job
    sheet holds the payment-tracking block in E1, E2, F2, E3, F3, E4, F4
    and the time stamp in A1, whatever these cells held before (formulas
    included), whatever the rules say and whatever the list of updated
    fields is (it may be empty); likewise A1 after a successful
    [update_cvr_with_pnl]. *)
Theorem payment_block_and_stamp_unconditional rules ts wb job_code updates jc wb' :
  (forall invoice_data,
     update_cvr_with_invoice rules ts wb invoice_data job_code
     = (Success updates jc, wb') ->
     exists job_data sheet' rate,
       invoice_data !! job_code = Some job_data /\
       job_sheet wb' job_code = Some sheet' /\
       Fmt.format false 1 (default (PyNum 0) (payment_rate job_data)) = Ok rate /\
       cell_value sheet' E1 = PyStr "Payment Tracking" /\
       cell_value sheet' E2 = PyStr "Total Paid" /\
       cell_value sheet' F2 = default (PyNum 0) (total_paid job_data) /\
       cell_value sheet' E3 = PyStr "Outstanding Balance" /\
       cell_value sheet' F3 = default (PyNum 0) (outstanding_balance job_data) /\
       cell_value sheet' E4 = PyStr "Payment Rate" /\
       cell_value sheet' F4 = PyStr (rate ++ "%") /\
       cell_value sheet' A1 = PyStr ("Last updated: " ++ ts)) /\
  (forall pnl_data,
     update_cvr_with_pnl rules ts wb pnl_data job_code
     = (Success updates jc, wb') ->
     exists sheet',
       job_sheet wb' job_code = Some sheet' /\
       cell_value sheet' A1 = PyStr ("Last updated: " ++ ts)).
Proof.
  split.
  - intros invoice_data. unfold update_cvr_with_invoice.
    destruct (invoice_data !! job_code) as [job_data|]; [|discriminate].
    unfold invoice_body.
    destruct (update_field _ _ _ _ _) as [st1|e]; cbn; [|discriminate].
    destruct (margin_field _ st1) as [st2|e]; cbn; [|discriminate].
    destruct (payment_block _ _) as [sheet3|e] eqn:Hblock; cbn; [|discriminate].
    intros [= <- <- <-].
    destruct (payment_block_cells _ _ _ ts Hblock) as (rate & Hrate & Hcells).
    exists job_data, (stamp ts sheet3), rate.
    split; [reflexivity|]. split; [|split; [exact Hrate|exact Hcells]].
    unfold job_sheet. apply lookup_insert_eq.
  - intros pnl_data. unfold update_cvr_with_pnl.
    destruct (pnl_data !! job_code) as [job_data|]; [|discriminate].
    destruct (pnl_body _ _ _ _) as [[updates1 sheet1]|e] eqn:Hbody; [|discriminate].
    intros [= <- <- <-]. exists sheet1. split.
    + unfold job_sheet. apply lookup_insert_eq.
    + revert Hbody. unfold pnl_body.
      destruct (update_field _ _ _ _ _) as [st1|e]; cbn; [|discriminate].
      destruct (category_field _ _ _ _ _ st1) as [st2|e]; cbn; [|discriminate].
      destruct (category_field _ _ _ _ _ st2) as [st3|e]; cbn; [|discriminate].
      destruct (category_field _ _ _ _ _ st3) as [st4|e]; cbn; [|discriminate].
      destruct (category_field _ _ _ _ _ st4) as [st5|e]; cbn; [|discriminate].
      intros [= <- <-]. apply cell_value_insert_eq.
Qed.


(** C10, witness: with no rules at all (no field is mapped, so the list of
    updates is empty) the block and the stamp replace the formulas that
    F2 and A1 held. *)
Lemma payment_block_and_stamp_unconditional_witness :
  exists job_data sheet' rate,
    UpdateCvrExamples.invoice_report !! "NDA-001" = Some job_data /\
    job_sheet
      (update_cvr_with_invoice empty_rules UpdateCvrExamples.now_text
         UpdateCvrExamples.tracking_ledger UpdateCvrExamples.invoice_report
         "NDA-001").2 "NDA-001" = Some sheet' /\
    Fmt.format false 1 (default (PyNum 0) (payment_rate job_data)) = Ok rate /\
    cell_value sheet' E1 = PyStr "Payment Tracking" /\
    cell_value sheet' E2 = PyStr "Total Paid" /\
    cell_value sheet' F2 = default (PyNum 0) (total_paid job_data) /\
    cell_value sheet' E3 = PyStr "Outstanding Balance" /\
    cell_value sheet' F3 = default (PyNum 0) (outstanding_balance job_data) /\
    cell_value sheet' E4 = PyStr "Payment Rate" /\
    cell_value sheet' F4 = PyStr (rate ++ "%") /\
    cell_value sheet' A1 = PyStr ("Last updated: " ++ UpdateCvrExamples.now_text).
Proof.
  apply (proj1 (payment_block_and_stamp_unconditional empty_rules
                  UpdateCvrExamples.now_text UpdateCvrExamples.tracking_ledger
                  "NDA-001" [] "NDA-001" _)).
  vm_compute. reflexivity.
Defined.

Example tracking_cells_replaced :
  let wb' := (update_cvr_with_invoice empty_rules UpdateCvrExamples.now_text
                UpdateCvrExamples.tracking_ledger UpdateCvrExamples.invoice_report
                "NDA-001").2 in
  cell_value (_get_or_create_job_sheet UpdateCvrExamples.tracking_ledger "NDA-001") F2
  = PyStr "=SUM(F5:F9)" /\
  cell_value (_get_or_create_job_sheet wb' "NDA-001") F2 = PyNum 200 /\
  cell_value (_get_or_create_job_sheet wb' "NDA-001") F4 = PyStr "40.0%" /\
  cell_value (_get_or_create_job_sheet wb' "NDA-001") A1
  = PyStr "Last updated: 2024-05-01 09:30:00".
Proof. repeat split; vm_compute; reflexivity. Qed.

(** [pnl_body] is the loop over [pnl_fields], then the stamp. *)
Lemma pnl_body_steps rules ts sheet job_data :
  pnl_body rules ts sheet job_data =
  (st ← pnl_steps rules job_data pnl_fields ([], sheet); Ok (st.1, stamp ts st.2)).
Proof.
  unfold pnl_body, pnl_fields, pnl_steps, category_field, pnl_field_value. cbn.
  destruct (update_field _ _ _ _ _) as [st1|e]; cbn; [|reflexivity].
  destruct (_calculate_category_cost _ _ "material") as [c1|e]; cbn; [|reflexivity].
  destruct (update_field _ _ _ _ st1) as [st2|e]; cbn; [|reflexivity].
  destruct (_calculate_category_cost _ _ "labour") as [c2|e]; cbn; [|reflexivity].
  destruct (update_field _ _ _ _ st2) as [st3|e]; cbn; [|reflexivity].
  destruct (_calculate_category_cost _ _ "plant") as [c3|e]; cbn; [|reflexivity].
  destruct (update_field _ _ _ _ st3) as [st4|e]; cbn; [|reflexivity].
  destruct (_calculate_category_cost _ _ "subcontract") as [c4|e]; cbn; [|reflexivity].
  destruct (update_field _ _ _ _ st4) as [st5|e]; cbn; reflexivity.
Qed.

Lemma has_line_app label l1 l2 :
  has_line label (app l1 l2) = has_line label l1 || has_line label l2.
Proof. unfold has_line. apply existsb_app. Qed.

(** The loop never reports, and never touches the cell of, a field whose
    update is rejected, as long as the other fields of the loop have other
    labels and other addresses. *)
Lemma pnl_steps_skipped rules job_data label cell_key category value fields :
  pnl_field_value rules job_data category = Ok value ->
  skipped rules cell_key value ->
  (forall label' key' cat',
     In (label', key', cat') fields ->
     (label', key', cat') = (label, cell_key, category) \/
     (key' <> cell_key /\
      forall amount, String.prefix (label ++ ": £") (update_line label' amount) = false)) ->
  forall st st',
    pnl_steps rules job_data fields st = Ok st' ->
    (has_line label st.1 = false -> has_line label st'.1 = false) /\
    (forall addr,
       cell_mappings rules !! cell_key = Some addr ->
       (forall label' key' cat',
          In (label', key', cat') fields -> key' <> cell_key ->
          cell_mappings rules !! key' <> Some addr) ->
       keeps addr st.2 st'.2).
Proof.
  intros Hval Hskip. induction fields as [|[[label' key'] cat'] rest IH];
    intros Hothers st st' Hrun.
  - cbn in Hrun. injection Hrun as <-. split; [auto|]. intros; reflexivity.
  - cbn in Hrun.
    destruct (pnl_field_value rules job_data cat') as [value'|e] eqn:Hval';
      cbn in Hrun; [|discriminate].
    destruct (update_field rules label' key' value' st) as [st1|e] eqn:Hstep;
      cbn in Hrun; [|discriminate].
    assert (Hrest : forall l k ct, In (l, k, ct) rest ->
              (l, k, ct) = (label, cell_key, category) \/
              (k <> cell_key /\
               forall amount,
                 String.prefix (label ++ ": £") (update_line l amount) = false)).
    { intros l k ct Hin. apply Hothers. now right. }
    destruct (IH Hrest st1 st' Hrun) as [IHline IHcell].
    destruct (Hothers label' key' cat' (or_introl eq_refl)) as [Hsame|[Hkey Hlab]].
    + injection Hsame as -> -> ->.
      rewrite Hval in Hval'. injection Hval' as <-.
      rewrite (update_field_skipped _ _ _ _ st Hskip) in Hstep.
      injection Hstep as <-. split; [exact IHline|].
      intros addr Hmap Hpriv. apply IHcell; [exact Hmap|].
      intros l k ct Hin. apply (Hpriv l k ct). now right.
    + destruct (update_field_run _ _ _ _ _ _ Hstep)
        as [->|(amount & addr' & _ & Hmap' & -> & _ & _)].
      * split; [exact IHline|].
        intros addr Hmap Hpriv. apply IHcell; [exact Hmap|].
        intros l k ct Hin. apply (Hpriv l k ct). now right.
      * cbn [fst snd] in *. split.
        -- intros Hno. apply IHline. rewrite has_line_app, Hno. cbn.
           now rewrite Hlab.
        -- intros addr Hmap Hpriv.
           eapply keeps_trans; [|apply IHcell; [exact Hmap|]].
           ++ unfold keeps. apply cell_value_insert_ne. intros ->.
              apply (Hpriv label' key' cat' (or_introl eq_refl) Hkey). exact Hmap'.
           ++ intros l k ct Hin. apply (Hpriv l k ct). now right.
Qed.


Lemma pnl_fields_separate label cell_key category :
  In (label, cell_key, category) pnl_fields ->
  forall label' key' cat',
    In (label', key', cat') pnl_fields ->
    (label', key', cat') = (label, cell_key, category) \/
    (key' <> cell_key /\
     forall amount, String.prefix (label ++ ": £") (update_line label' amount) = false).
Proof.
  intros Hin label' key' cat' Hin'. cbn in Hin, Hin'.
  repeat (destruct Hin as [Hin|Hin]; [injection Hin as <- <- <-|]);
    try contradiction;
    repeat (destruct Hin' as [Hin'|Hin']; [injection Hin' as <- <- <-|]);
    try contradiction;
    first [ left; reflexivity
          | right; split; [discriminate | intros amount; reflexivity] ].
Qed.

(** C2.  When the update of a field is rejected, because the field has no
    address in the rules or because the "only positive values" rule is
    active and the aggregate is negative, [_update_cell] returns [False]
    and writes nothing, the updater appends no line for the field, and so
    a successful [update_cvr_with_pnl] or [update_cvr_with_invoice] lists
    no line for it and leaves its cell at the prior value (the cell being
    one that no other field and no unconditional write of the same call
    addresses). *)
Theorem rejected_field_is_silently_skipped rules cell_key value :
  skipped rules cell_key value ->
  (forall sheet, _update_cell rules sheet cell_key value = Ok (false, sheet)) /\
  (forall label st, update_field rules label cell_key value st = Ok st) /\
  (forall ts wb pnl_data job_code job_data label category updates jc wb',
     pnl_data !! job_code = Some job_data ->
     In (label, cell_key, category) pnl_fields ->
     pnl_field_value rules job_data category = Ok value ->
     update_cvr_with_pnl rules ts wb pnl_data job_code = (Success updates jc, wb') ->
     has_line label updates = false /\
     forall addr,
       cell_mappings rules !! cell_key = Some addr ->
       addr <> A1 ->
       pnl_address_private rules cell_key addr ->
       cell_value (_get_or_create_job_sheet wb' job_code) addr
       = cell_value (_get_or_create_job_sheet wb job_code) addr) /\
  (forall ts wb invoice_data job_code job_data updates jc wb',
     invoice_data !! job_code = Some job_data ->
     cell_key = "total_invoiced" ->
     value = default (PyNum 0) (total_invoiced job_data) ->
     update_cvr_with_invoice rules ts wb invoice_data job_code
     = (Success updates jc, wb') ->
     has_line "Total invoiced" updates = false /\
     forall addr,
       cell_mappings rules !! cell_key = Some addr ->
       addr <> A1 -> ~ In addr payment_cells ->
       cell_mappings rules !! "projected_margin" <> Some addr ->
       cell_value (_get_or_create_job_sheet wb' job_code) addr
       = cell_value (_get_or_create_job_sheet wb job_code) addr).
Proof.
  intros Hskip. split; [|split; [|split]].
  - intros sheet. now apply update_cell_skipped.
  - intros label st. now apply update_field_skipped.
  - intros ts wb pnl_data job_code job_data label category updates jc wb'
           Hjob Hin Hval.
    unfold update_cvr_with_pnl. rewrite Hjob.
    destruct (pnl_body _ _ _ _) as [[updates1 sheet1]|e] eqn:Hbody; [|discriminate].
    intros [= <- <- <-].
    rewrite pnl_body_steps in Hbody.
    destruct (pnl_steps _ _ _ _) as [st'|e] eqn:Hsteps; cbn in Hbody; [|discriminate].
    injection Hbody as <- <-.
    destruct (pnl_steps_skipped rules job_data label cell_key category value
                pnl_fields Hval Hskip (pnl_fields_separate _ _ _ Hin) _ _ Hsteps)
      as [Hline Hcell].
    split; [apply Hline; reflexivity|].
    intros addr Hmap HA1 Hpriv. rewrite resolve_after_insert.
    eapply keeps_trans; [apply (Hcell addr Hmap Hpriv)|].
    now apply stamp_keeps.
  - intros ts wb invoice_data job_code job_data updates jc wb' Hjob -> ->.
    unfold update_cvr_with_invoice. rewrite Hjob.
    destruct (invoice_body _ _ _ _) as [[updates1 sheet1]|e] eqn:Hbody; [|discriminate].
    intros [= <- <- <-]. revert Hbody. unfold invoice_body.
    rewrite (update_field_skipped _ _ _ _ _ Hskip). cbn.
    destruct (margin_field _ _) as [st2|e] eqn:Hmargin; cbn; [|discriminate].
    destruct (payment_block _ _) as [sheet3|e] eqn:Hblock; cbn; [|discriminate].
    intros [= <- <-].
    assert (Hst2 : has_line "Total invoiced" st2.1 = false /\
                   forall addr,
                     cell_mappings rules !! "projected_margin" <> Some addr ->
                     keeps addr (_get_or_create_job_sheet wb job_code) st2.2).
    { revert Hmargin. unfold margin_field.
      destruct (py_or0 _) as [|contract_value|?];
        try (intros [= <-]; split; [reflexivity|intros; reflexivity]).
      destruct (Qltb 0 contract_value);
        [|intros [= <-]; split; [reflexivity|intros; reflexivity]].
      destruct (py_sub_num _ _) as [m|e]; cbn; [|discriminate].
      intros Hstep.
      destruct (update_field_run _ _ _ _ _ _ Hstep)
        as [->|(amount & addr' & _ & Hmap' & -> & _ & _)].
      - split; [reflexivity|intros; reflexivity].
      - split; [reflexivity|]. intros addr Hne. cbn. unfold keeps.
        apply cell_value_insert_ne. intros ->. now apply Hne. }
    destruct Hst2 as [Hline Hcell]. split; [exact Hline|].
    intros addr Hmap HA1 Hpay Hne. rewrite resolve_after_insert.
    eapply keeps_trans; [apply (Hcell addr Hne)|].
    eapply keeps_trans; [apply (payment_block_keeps _ _ _ addr Hpay Hblock)|].
    now apply stamp_keeps.
Qed.


(** Under the default rules every P&L field has an address of its own,
    away from the time-stamp cell. *)
Lemma default_addresses_private label cell_key category :
  In (label, cell_key, category) pnl_fields ->
  exists addr,
    cell_mappings default_rules !! cell_key = Some addr /\
    addr <> A1 /\
    pnl_address_private default_rules cell_key addr.
Proof.
  intros Hin. cbn in Hin.
  repeat (destruct Hin as [Hin|Hin]; [injection Hin as <- <- <-|]);
    try contradiction;
    (eexists; split; [vm_compute; reflexivity|]; split; [discriminate|];
     intros l k ct Hin' Hne; cbn in Hin';
     repeat (destruct Hin' as [Hin'|Hin']; [injection Hin' as <- <- <-|]);
     try contradiction; try congruence; vm_compute; discriminate).
Qed.

(** C2, witness: the report's total is -50, the default rules map
    "total_costs" to C5 and keep the positivity rule; the update succeeds,
    lists no "Total costs" line, and C5 keeps its formula. *)
Lemma rejected_field_is_silently_skipped_witness :
  (update_cvr_with_pnl default_rules UpdateCvrExamples.now_text
     UpdateCvrExamples.ledger UpdateCvrExamples.negative_report "NDA-001").1
  = Success ["Material costs: £60.00"; "Labour costs: £0.00";
             "Plant costs: £0.00"; "Subcontract costs: £0.00"] "NDA-001" /\
  has_line "Total costs"
    ["Material costs: £60.00"; "Labour costs: £0.00";
     "Plant costs: £0.00"; "Subcontract costs: £0.00"] = false /\
  cell_value
    (_get_or_create_job_sheet
       (update_cvr_with_pnl default_rules UpdateCvrExamples.now_text
          UpdateCvrExamples.ledger UpdateCvrExamples.negative_report "NDA-001").2
       "NDA-001") C5
  = cell_value (_get_or_create_job_sheet UpdateCvrExamples.ledger "NDA-001") C5.
Proof.
  assert (Hskip : skipped default_rules "total_costs" (PyNum (-50))).
  { right. split; [reflexivity|]. exists (-50)%Q. split; reflexivity. }
  destruct (proj1 (proj2 (proj2
              (rejected_field_is_silently_skipped default_rules "total_costs"
                 (PyNum (-50)) Hskip)))
              UpdateCvrExamples.now_text UpdateCvrExamples.ledger
              UpdateCvrExamples.negative_report "NDA-001"
              {| total_expenses := Some (PyNum (-50));
                 expense_breakdown := Some [("Materials", PyNum 60)] |}
              "Total costs" None
              ["Material costs: £60.00"; "Labour costs: £0.00";
               "Plant costs: £0.00"; "Subcontract costs: £0.00"]
              "NDA-001"
              (update_cvr_with_pnl default_rules UpdateCvrExamples.now_text
                 UpdateCvrExamples.ledger UpdateCvrExamples.negative_report
                 "NDA-001").2)
    as [Hline Hcell].
  - reflexivity.
  - cbn. tauto.
  - reflexivity.
  - vm_compute. reflexivity.
  - split; [vm_compute; reflexivity|]. split; [exact Hline|].
    apply (Hcell C5).
    + vm_compute. reflexivity.
    + discriminate.
    + intros l k ct Hin Hne. cbn in Hin.
      repeat (destruct Hin as [Hin|Hin]; [injection Hin as <- <- <-|]);
        try contradiction; try congruence; vm_compute; discriminate.
Defined.

End UpdateCvrFacts.

(** ** Alerts (crud.py) *)

Section CrudFacts.
Import Models Crud CrudSpec.

Implicit Types (db : Db) (o : Overrun) (coll : Sql.collation).

Lemma prefix_by_eqb_split x s :
  Str.prefix_by Ascii.eqb x s = true -> exists b, s = x ++ b.
Proof.
  revert s. induction x as [|c x IH]; intros s H.
  - now exists s.
  - destruct s as [|d s]; [discriminate|]. simpl in H.
    apply andb_true_iff in H as [Hc H]. apply Ascii.eqb_eq in Hc as ->.
    destruct (IH s H) as [b ->]. now exists b.
Qed.

Lemma contains_split s x :
  Str.contains s x = true -> exists a b, s = a ++ x ++ b.
Proof.
  unfold Str.contains. induction s as [|d s IH]; simpl; intros H.
  - rewrite orb_false_r in H. destruct (prefix_by_eqb_split _ _ H) as [b Hb].
    now exists "", b.
  - apply orb_true_iff in H as [H|H].
    + destruct (prefix_by_eqb_split _ _ H) as [b Hb]. now exists "", b.
    + destruct (IH H) as (a & b & ->). now exists (String d a), b.
Qed.

(** A literal occurrence is a [LIKE] match, under either collation. *)
Lemma contains_sql_contains coll s x :
  Str.contains s x = true -> Sql.contains coll s x = true.
Proof.
  intros H. destruct (contains_split _ _ H) as (a & b & ->).
  apply sql_contains_self.
Qed.

(** The message written for a category occurs in no message written for
    another category, literally or by [LIKE]. *)
Lemma budget_message_parts ceq o k :
  Chars.avoids ceq Chars.numeric k ->
  Str.contains_by ceq (budget_message o) k =
  Str.contains_by ceq ("Budget overrun in " ++ category o ++ ": £") k
  || Str.contains_by ceq " over budget (" k
  || Str.contains_by ceq "%)" k.
Proof.
  intros Hk. unfold budget_message.
  replace ("Budget overrun in " ++ category o ++ ": £"
           ++ Fmt.fixed false 2 (overrun o) ++ " over budget ("
           ++ Fmt.fixed false 1 (percentage_over o) ++ "%)")
    with (("Budget overrun in " ++ category o ++ ": £")
          ++ Fmt.fixed false 2 (overrun o)
          ++ (" over budget (" ++ Fmt.fixed false 1 (percentage_over o) ++ "%)")).
  2: { rewrite !append_assoc. reflexivity. }
  rewrite (contains_by_split ceq Chars.numeric _ _ _ _ Hk
             (fixed_nonempty 1 _) (fixed_numeric 1 _)).
  rewrite (contains_by_split ceq Chars.numeric _ _ _ _ Hk
             (fixed_nonempty 0 _) (fixed_numeric 0 _)).
  now rewrite orb_assoc.
Qed.


Lemma category_wordish X : Str.forallb Chars.wordish (ExpenseCategory_value X) = true.
Proof. destruct X; reflexivity. Qed.

Lemma category_eqb_eq X Y : ExpenseCategory_eqb X Y = true <-> X = Y.
Proof. destruct X, Y; vm_compute; split; congruence. Qed.

Lemma category_eqb_refl X : ExpenseCategory_eqb X X = true.
Proof. now apply category_eqb_eq. Qed.

Lemma budget_message_mentions o X Y :
  category o = ExpenseCategory_value X ->
  Str.contains (budget_message o) (ExpenseCategory_value Y) = ExpenseCategory_eqb X Y.
Proof.
  intros Hcat. unfold Str.contains.
  rewrite (budget_message_parts Ascii.eqb o _
             (wordish_avoids Sql.Binary _ (category_wordish Y))).
  rewrite Hcat. destruct X, Y; reflexivity.
Qed.

Lemma budget_message_like coll o X Y :
  category o = ExpenseCategory_value X ->
  Sql.contains coll (budget_message o) (ExpenseCategory_value Y) = ExpenseCategory_eqb X Y.
Proof.
  intros Hcat. destruct (ExpenseCategory_eqb X Y) eqn:E.
  - apply category_eqb_eq in E as <-. unfold budget_message. rewrite Hcat.
    apply sql_contains_self.
  - destruct (Sql.contains coll (budget_message o) (ExpenseCategory_value Y)) eqn:H;
      [|reflexivity].
    exfalso. unfold Sql.contains in H.
    replace ("%" ++ ExpenseCategory_value Y ++ "%")
      with (String "%" (plain_prefix Y ++ pattern_rest Y)) in H
      by (destruct Y; reflexivity).
    apply like_contains_plain in H; [|destruct Y; reflexivity].
    rewrite (budget_message_parts (Sql.char_eq coll) o (plain_prefix Y)) in H.
    2: { apply wordish_avoids. destruct Y; reflexivity. }
    rewrite Hcat in H.
    destruct coll, X, Y; vm_compute in E, H; discriminate.
Qed.

(** *** The loop of [check_and_create_budget_alerts] *)

Lemma same_tables_refl db : same_tables db db.
Proof. repeat split. Qed.

Lemma same_tables_trans db1 db2 db3 :
  same_tables db1 db2 -> same_tables db2 db3 -> same_tables db1 db3.
Proof. unfold same_tables. intuition congruence. Qed.

Lemma create_alert_run db job_id alert_type message severity alert db' :
  create_alert db job_id alert_type message severity = (alert, db') ->
  same_tables db db' /\ alerts db' = app (alerts db) [alert] /\
  Alert.job_id alert = job_id /\ Alert.alert_type alert = alert_type /\
  Alert.message alert = message /\ Alert.severity alert = severity /\
  Alert.is_acknowledged alert = false.
Proof. unfold create_alert. intros [= <- <-]. repeat split. Qed.

(** What the loop does: it leaves the other tables alone, appends the
    created rows to the alerts table, and every created row is the row of
    one of the overruns. *)
Lemma budget_loop_run coll job_id overruns :
  forall db created created' db',
    budget_alert_loop coll job_id overruns db created = (created', db') ->
    same_tables db db' /\
    exists new,
      alerts db' = app (alerts db) new /\ created' = app created new /\
      forall a, In a new -> exists o, In o overruns /\ budget_alert_of job_id o a.
Proof.
  induction overruns as [|o rest IH]; intros db created created' db' Hrun.
  - injection Hrun as <- <-. split; [apply same_tables_refl|].
    exists []. rewrite !app_nil_r. repeat split. contradiction.
  - cbn [budget_alert_loop] in Hrun.
    destruct (existing_alert coll db job_id "budget_overrun" (category o)).
    + destruct (IH _ _ _ _ Hrun) as (Hsame & new & Hal & Hcr & Hnew).
      split; [exact Hsame|]. exists new. repeat split; auto.
      intros a Ha. destruct (Hnew a Ha) as (o' & Hin & Hof).
      exists o'. split; [now right|exact Hof].
    + destruct (create_alert db job_id "budget_overrun" (budget_message o)
                  (budget_severity o)) as [alert db1] eqn:Hcreate.
      destruct (create_alert_run _ _ _ _ _ _ _ Hcreate)
        as (Hsame1 & Hal1 & Hj & Ht & Hm & Hs & Hack).
      destruct (IH _ _ _ _ Hrun) as (Hsame & new & Hal & Hcr & Hnew).
      split; [eapply same_tables_trans; eauto|].
      exists (alert :: new). rewrite Hal, Hal1, Hcr, <- !app_assoc.
      repeat split. intros a [<-|Ha].
      * exists o. split; [now left|]. repeat split; assumption.
      * destruct (Hnew a Ha) as (o' & Hin & Hof).
        exists o'. split; [now right|exact Hof].
Qed.

Lemma find_app_some {A} (f : A -> bool) l l' x :
  find f l = Some x -> find f (app l l') = Some x.
Proof.
  induction l as [|y l IH]; [discriminate|]. cbn.
  destruct (f y); [auto|exact IH].
Qed.

Lemma find_app_last {A} (f : A -> bool) l x :
  f x = true -> exists a, find f (app l [x]) = Some a.
Proof.
  intros Hx. induction l as [|y l IH]; cbn.
  - rewrite Hx. now exists x.
  - destruct (f y); [now exists y|exact IH].
Qed.

Lemma find_none_filter {A} (f : A -> bool) l :
  find f l = None <-> List.filter f l = [].
Proof.
  induction l as [|y l IH]; cbn; [tauto|].
  destruct (f y); [split; discriminate|exact IH].
Qed.

Lemma existing_alert_mono coll db db' job_id alert_type subject new a :
  alerts db' = app (alerts db) new ->
  existing_alert coll db job_id alert_type subject = Some a ->
  existing_alert coll db' job_id alert_type subject = Some a.
Proof. unfold existing_alert. intros ->. apply find_app_some. Qed.

(** After the loop every overrun it went through has a live alert that
    the query finds. *)
Lemma budget_loop_covers coll job_id overruns :
  forall db created created' db',
    budget_alert_loop coll job_id overruns db created = (created', db') ->
    forall o, In o overruns ->
      existing_alert coll db' job_id "budget_overrun" (category o) <> None.
Proof.
  induction overruns as [|o rest IH]; intros db created created' db' Hrun o' Hin;
    [contradiction|].
  cbn [budget_alert_loop] in Hrun.
  destruct (existing_alert coll db job_id "budget_overrun" (category o))
    as [a0|] eqn:Hex.
  - destruct Hin as [<-|Hin]; [|eapply IH; eauto].
    destruct (budget_loop_run _ _ _ _ _ _ _ Hrun) as (_ & new & Hal & _).
    rewrite (existing_alert_mono _ _ _ _ _ _ _ _ Hal Hex). discriminate.
  - destruct (create_alert db job_id "budget_overrun" (budget_message o)
                (budget_severity o)) as [alert db1] eqn:Hcreate.
    destruct Hin as [<-|Hin]; [|eapply IH; eauto].
    destruct (create_alert_run _ _ _ _ _ _ _ Hcreate)
      as (_ & Hal1 & Hj & Ht & Hm & _ & Hack).
    destruct (budget_loop_run _ _ _ _ _ _ _ Hrun) as (_ & new & Hal & _).
    assert (Hfound : exists a, existing_alert coll db1 job_id "budget_overrun"
                                 (category o) = Some a).
    { unfold existing_alert. rewrite Hal1. apply find_app_last.
      unfold alert_filter. rewrite Hj, Ht, Hm, Hack, Nat.eqb_refl.
      unfold budget_message. rewrite sql_contains_self. reflexivity. }
    destruct Hfound as [a Ha].
    rewrite (existing_alert_mono _ _ _ _ _ _ _ _ Hal Ha). discriminate.
Qed.

(** When every overrun already has such an alert the loop does nothing. *)
Lemma budget_loop_noop coll job_id overruns db created :
  (forall o, In o overruns ->
     existing_alert coll db job_id "budget_overrun" (category o) <> None) ->
  budget_alert_loop coll job_id overruns db created = (created, db).
Proof.
  induction overruns as [|o rest IH]; intros H; [reflexivity|].
  cbn [budget_alert_loop].
  destruct (existing_alert coll db job_id "budget_overrun" (category o)) eqn:Hex.
  - apply IH. intros o' Hin. apply H. now right.
  - exfalso. apply (H o); [now left|exact Hex].
Qed.

Lemma overruns_of_same_tables db db' job_id bs :
  same_tables db db' -> overruns_of db' job_id bs = overruns_of db job_id bs.
Proof.
  intros (_ & He & _). induction bs as [|b bs IH]; [reflexivity|].
  cbn [overruns_of]. unfold actual_spend. rewrite He, IH. reflexivity.
Qed.

Lemma check_budget_overruns_same_tables db db' job_id :
  same_tables db db' -> check_budget_overruns db' job_id = check_budget_overruns db job_id.
Proof.
  intros H. unfold check_budget_overruns, get_budgets_by_job.
  rewrite (overruns_of_same_tables _ _ _ _ H).
  destruct H as (_ & _ & _ & _ & ->). reflexivity.
Qed.


(** Every reported overrun is that of a budget row of the job whose spend
    exceeds a non-zero budget. *)
Lemma overruns_of_sound db job_id bs overruns :
  overruns_of db job_id bs = Ok overruns ->
  forall o, In o overruns ->
    exists b, In b bs /\
      category o = ExpenseCategory_value (Budget.category b) /\
      budgeted o = Budget.budgeted_amount b /\
      actual o = actual_spend db job_id (Budget.category b) /\
      Qltb (budgeted o) (actual o) = true /\
      overrun o = (actual o - budgeted o)%Q /\
      percentage_over o = ((actual o - budgeted o) / budgeted o * 100)%Q.
Proof.
  revert overruns. induction bs as [|b bs IH]; intros overruns Hrun o Hin.
  - injection Hrun as <-. contradiction.
  - cbn [overruns_of] in Hrun.
    destruct (Qltb (Budget.budgeted_amount b) (actual_spend db job_id (Budget.category b)))
      eqn:Hover.
    + unfold float_div in Hrun.
      destruct (Qeq_bool (Budget.budgeted_amount b) 0); cbn in Hrun; [discriminate|].
      destruct (overruns_of db job_id bs) as [more|e]; cbn in Hrun; [|discriminate].
      injection Hrun as <-. destruct Hin as [<-|Hin].
      * exists b. split; [now left|]. cbn. repeat split; auto.
      * destruct (IH more eq_refl o Hin) as (b' & Hb' & H').
        exists b'. split; [now right|exact H'].
    + destruct (IH overruns Hrun o Hin) as (b' & Hb' & H').
      exists b'. split; [now right|exact H'].
Qed.

Lemma live_about_agree coll job_id al Y :
  all_made job_id al ->
  List.filter (alert_filter coll job_id "budget_overrun" (ExpenseCategory_value Y)) al
  = live_about job_id (ExpenseCategory_value Y) al.
Proof.
  intros Hmade. unfold live_about. apply filter_ext_in. intros a Ha.
  unfold alert_filter.
  destruct (live_budget_alert job_id a) eqn:Hlive.
  - destruct (Hmade a Ha Hlive) as (o & X & Hcat & Hmsg).
    unfold live_budget_alert in Hlive.
    apply andb_true_iff in Hlive as [Hlive Hack].
    rewrite Hlive, Hack, Hmsg. cbn.
    rewrite (budget_message_like coll o X Y Hcat),
            (budget_message_mentions o X Y Hcat).
    now rewrite andb_true_r.
  - cbn. unfold live_budget_alert in Hlive.
    destruct (Nat.eqb (Alert.job_id a) job_id); cbn in *; [|reflexivity].
    destruct (String.eqb (Alert.alert_type a) "budget_overrun"); cbn in *; [|reflexivity].
    rewrite Hlive. apply andb_false_r.
Qed.

(** From a state whose live budget alerts of the job were written by the
    loop, at most one per category, the loop keeps it so, never removes
    one, and leaves at least one for every overrun it went through. *)
Lemma budget_loop_counts coll job_id overruns :
  forall db created created' db',
    (forall o, In o overruns -> exists X, category o = ExpenseCategory_value X) ->
    all_made job_id (alerts db) ->
    (forall Y, length (live_about job_id (ExpenseCategory_value Y) (alerts db)) <= 1)%nat ->
    budget_alert_loop coll job_id overruns db created = (created', db') ->
    all_made job_id (alerts db') /\
    (forall Y, length (live_about job_id (ExpenseCategory_value Y) (alerts db')) <= 1)%nat /\
    (forall Y, length (live_about job_id (ExpenseCategory_value Y) (alerts db))
               <= length (live_about job_id (ExpenseCategory_value Y) (alerts db')))%nat /\
    (forall o, In o overruns ->
       1 <= length (live_about job_id (category o) (alerts db')))%nat.
Proof.
  induction overruns as [|o rest IH]; intros db created created' db' Hcats Hmade Hle Hrun.
  - injection Hrun as <- <-. repeat split; auto. contradiction.
  - assert (Hrest : forall o', In o' rest -> exists X, category o' = ExpenseCategory_value X).
    { intros o' Hin. apply Hcats. now right. }
    destruct (Hcats o (or_introl eq_refl)) as [X HX].
    cbn [budget_alert_loop] in Hrun.
    destruct (existing_alert coll db job_id "budget_overrun" (category o))
      as [a0|] eqn:Hex.
    + destruct (IH _ _ _ _ Hrest Hmade Hle Hrun) as (Hmade' & Hle' & Hmono & Hcov).
      repeat split; auto. intros o' [<-|Hin]; [|now apply Hcov].
      rewrite HX. eapply Nat.le_trans; [|apply Hmono].
      rewrite <- (live_about_agree coll _ _ _ Hmade).
      unfold existing_alert in Hex. rewrite HX in Hex.
      destruct (List.filter _ (alerts db)) eqn:Hf; [|cbn; lia].
      apply find_none_filter in Hf. congruence.
    + destruct (create_alert db job_id "budget_overrun" (budget_message o)
                  (budget_severity o)) as [alert db1] eqn:Hcreate.
      destruct (create_alert_run _ _ _ _ _ _ _ Hcreate)
        as (_ & Hal1 & Hj & Ht & Hm & _ & Hack).
      assert (Hlive : live_budget_alert job_id alert = true).
      { unfold live_budget_alert. now rewrite Hj, Ht, Hack, Nat.eqb_refl. }
      assert (Hmade1 : all_made job_id (alerts db1)).
      { rewrite Hal1. intros a Ha Hl. apply in_app_or in Ha as [Ha|[<-|[]]].
        - now apply Hmade.
        - exists o, X. split; assumption. }
      assert (Hcount : forall Y,
                length (live_about job_id (ExpenseCategory_value Y) (alerts db1))
                = (length (live_about job_id (ExpenseCategory_value Y) (alerts db))
                   + (if ExpenseCategory_eqb X Y then 1 else 0))%nat).
      { intros Y. rewrite Hal1. unfold live_about.
        rewrite List.filter_app, List.length_app. cbn [List.filter].
        rewrite Hlive, Hm, (budget_message_mentions o X Y HX). cbn.
        destruct (ExpenseCategory_eqb X Y); reflexivity. }
      assert (Hzero : length (live_about job_id (ExpenseCategory_value X) (alerts db)) = 0%nat).
      { rewrite <- (live_about_agree coll _ _ _ Hmade).
        unfold existing_alert in Hex. rewrite HX in Hex.
        apply find_none_filter in Hex. now rewrite Hex. }
      assert (Hle1 : forall Y,
                (length (live_about job_id (ExpenseCategory_value Y) (alerts db1)) <= 1)%nat).
      { intros Y. rewrite Hcount. destruct (ExpenseCategory_eqb X Y) eqn:E.
        - apply category_eqb_eq in E as <-. rewrite Hzero. lia.
        - specialize (Hle Y). lia. }
      destruct (IH _ _ _ _ Hrest Hmade1 Hle1 Hrun) as (Hmade' & Hle' & Hmono & Hcov).
      repeat split; auto.
      * intros Y. eapply Nat.le_trans; [|apply Hmono]. rewrite Hcount. lia.
      * intros o' [<-|Hin]; [|now apply Hcov].
        rewrite HX. eapply Nat.le_trans; [|apply Hmono].
        rewrite Hcount, category_eqb_refl. lia.
Qed.


Lemma find_some_exists {A} (f : A -> bool) l a :
  In a l -> f a = true -> exists x, find f l = Some x.
Proof.
  intros Hin Hf. induction l as [|y l IH]; [contradiction|]. cbn.
  destruct (f y) eqn:Hy; [now exists y|].
  destruct Hin as [->|Hin]; [congruence|now apply IH].
Qed.

(** C3.  Two calls of [check_and_create_budget_alerts] in succession for
    one job, the alerts of the first left unacknowledged: the second call
    creates nothing and leaves the database as it is; a candidate is
    skipped whenever the alerts table holds an unacknowledged
    budget_overrun alert of the job whose message contains the category
    name; and, when the job had no unacknowledged budget_overrun alert
    before the first call, exactly one such alert mentions each overrun
    category afterwards. *)
Theorem budget_alert_dedup coll db job_id created db1 :
  check_and_create_budget_alerts coll db job_id = Ok (created, db1) ->
  check_and_create_budget_alerts coll db1 job_id = Ok ([], db1) /\
  (forall db' o rest created',
     (exists a, In a (alerts db') /\ live_budget_alert job_id a = true /\
                Str.contains (Alert.message a) (category o) = true) ->
     budget_alert_loop coll job_id (o :: rest) db' created'
     = budget_alert_loop coll job_id rest db' created') /\
  ((forall a, In a (alerts db) -> live_budget_alert job_id a = false) ->
   forall overruns, check_budget_overruns db job_id = Ok overruns ->
   forall o, In o overruns ->
     length (live_about job_id (category o) (alerts db1)) = 1%nat).
Proof.
  unfold check_and_create_budget_alerts.
  destruct (check_budget_overruns db job_id) as [overruns|e] eqn:Hover;
    cbn; [|discriminate].
  intros [= Hrun].
  destruct (budget_loop_run _ _ _ _ _ _ _ Hrun) as (Hsame & _).
  split; [|split].
  - rewrite (check_budget_overruns_same_tables _ _ _ Hsame), Hover. cbn.
    f_equal. apply budget_loop_noop.
    exact (budget_loop_covers _ _ _ _ _ _ _ Hrun).
  - intros db' o rest created' (a & Hin & Hlive & Hmsg).
    cbn [budget_alert_loop].
    destruct (find_some_exists (alert_filter coll job_id "budget_overrun" (category o))
                (alerts db') a Hin) as [x Hx].
    + unfold alert_filter. unfold live_budget_alert in Hlive.
      apply andb_true_iff in Hlive as [Hlive Hack].
      rewrite Hlive, Hack, (contains_sql_contains coll _ _ Hmsg). reflexivity.
    + unfold existing_alert. now rewrite Hx.
  - intros Hfresh overruns' [= <-] o Hin.
    assert (Hcats : forall o, In o overruns ->
              exists X, category o = ExpenseCategory_value X).
    { intros o' Ho'.
      destruct (overruns_of_sound _ _ _ _ Hover o' Ho') as (b & _ & Hc & _).
      now exists (Budget.category b). }
    assert (Hmade : all_made job_id (alerts db)).
    { intros a Ha Hl. rewrite (Hfresh a Ha) in Hl. discriminate. }
    assert (Hnone : forall Y,
              (length (live_about job_id (ExpenseCategory_value Y) (alerts db)) <= 1)%nat).
    { intros Y. unfold live_about.
      rewrite (filter_ext_in _ (fun _ => false)).
      - clear. induction (alerts db); cbn; [lia|assumption].
      - intros a Ha. now rewrite (Hfresh a Ha). }
    destruct (budget_loop_counts _ _ _ _ _ _ _ Hcats Hmade Hnone Hrun)
      as (_ & Hle & _ & Hge).
    destruct (Hcats o Hin) as [X HX].
    specialize (Hge o Hin). specialize (Hle X). rewrite HX in *. lia.
Qed.

(** C3, witness: job 1 of the example database, over on material and
    labour; the second check creates nothing, and one alert mentions each
    of the two categories. *)
Lemma budget_alert_dedup_witness :
  check_and_create_budget_alerts Sql.NoCase CrudExamples.db1 1
  = Ok ([], CrudExamples.db1) /\
  length (live_about 1 "material" (alerts CrudExamples.db1)) = 1%nat /\
  length (live_about 1 "labour" (alerts CrudExamples.db1)) = 1%nat.
Proof.
  assert (Hrun : check_and_create_budget_alerts Sql.NoCase CrudExamples.db0 1
                 = Ok (CrudExamples.created0, CrudExamples.db1))
    by (vm_compute; reflexivity).
  destruct (budget_alert_dedup Sql.NoCase CrudExamples.db0 1
              CrudExamples.created0 CrudExamples.db1 Hrun) as (H1 & _ & H3).
  split; [exact H1|].
  assert (Hfresh : forall a, In a (alerts CrudExamples.db0) ->
                     live_budget_alert 1 a = false) by (intros a []).
  destruct (check_budget_overruns CrudExamples.db0 1) as [overruns|e] eqn:Hover;
    [|vm_compute in Hover; discriminate].
  pose proof (H3 Hfresh overruns eq_refl) as Hone.
  vm_compute in Hover. injection Hover as <-.
  split.
  - apply (Hone {| category := "material"; budgeted := 1000; actual := 0 + 1300;
                   overrun := 0 + 1300 - 1000;
                   percentage_over := (0 + 1300 - 1000) / 1000 * 100 |}).
    vm_compute. tauto.
  - apply (Hone {| category := "labour"; budgeted := 500; actual := 0 + 550;
                   overrun := 0 + 550 - 500;
                   percentage_over := (0 + 550 - 500) / 500 * 100 |}).
    vm_compute. tauto.
Defined.


(** *** Severity of the rows written *)

Lemma invoice_loop_run coll utcnow overdue :
  forall db created created' db',
    invoice_alert_loop coll utcnow overdue db created = (created', db') ->
    same_tables db db' /\
    exists new,
      alerts db' = app (alerts db) new /\ created' = app created new /\
      forall a, In a new ->
        exists invoice, In invoice overdue /\ invoice_alert_of utcnow invoice a.
Proof.
  induction overdue as [|invoice rest IH]; intros db created created' db' Hrun.
  - injection Hrun as <- <-. split; [apply same_tables_refl|].
    exists []. rewrite !app_nil_r. repeat split. contradiction.
  - cbn [invoice_alert_loop] in Hrun.
    destruct (existing_alert coll db (Invoice.job_id invoice) "overdue_invoice"
                (Invoice.invoice_number invoice)).
    + destruct (IH _ _ _ _ Hrun) as (Hsame & new & Hal & Hcr & Hnew).
      split; [exact Hsame|]. exists new. repeat split; auto.
      intros a Ha. destruct (Hnew a Ha) as (i & Hin & Hof).
      exists i. split; [now right|exact Hof].
    + destruct (create_alert db (Invoice.job_id invoice) "overdue_invoice"
                  (invoice_message utcnow invoice) (invoice_severity utcnow invoice))
        as [alert db1] eqn:Hcreate.
      destruct (create_alert_run _ _ _ _ _ _ _ Hcreate)
        as (Hsame1 & Hal1 & Hj & Ht & Hm & Hs & Hack).
      destruct (IH _ _ _ _ Hrun) as (Hsame & new & Hal & Hcr & Hnew).
      split; [eapply same_tables_trans; eauto|].
      exists (alert :: new). rewrite Hal, Hal1, Hcr, <- !app_assoc.
      repeat split. intros a [<-|Ha].
      * exists invoice. split; [now left|]. repeat split; assumption.
      * destruct (Hnew a Ha) as (i & Hin & Hof).
        exists i. split; [now right|exact Hof].
Qed.

(** The budget check of [Crud] is the one of [CrudFloat] with arithmetic
    that does not round. *)
Lemma exact_actual_spend db job_id c :
  CrudFloat.actual_spend Qsum db job_id c = actual_spend db job_id c.
Proof.
  unfold CrudFloat.actual_spend, actual_spend.
  now destruct (List.map Expense.amount _).
Qed.

Lemma exact_overruns_of db job_id bs :
  CrudFloat.overruns_of Qsum Qminus Qdiv Qmult db job_id bs = overruns_of db job_id bs.
Proof.
  induction bs as [|b bs IH]; [reflexivity|].
  cbn [CrudFloat.overruns_of overruns_of]. rewrite exact_actual_spend, IH. reflexivity.
Qed.

Lemma exact_check_and_create_budget_alerts coll db job_id :
  CrudFloat.check_and_create_budget_alerts Qsum Qminus Qdiv Qmult coll db job_id
  = check_and_create_budget_alerts coll db job_id.
Proof.
  unfold CrudFloat.check_and_create_budget_alerts, check_and_create_budget_alerts,
    CrudFloat.check_budget_overruns, check_budget_overruns.
  now rewrite exact_overruns_of.
Qed.

(** Every reported overrun is that of a budget row of the job whose spend
    exceeds a non-zero budget, with the difference and the percentage as
    the floating-point operations return them. *)
Lemma float_overruns_of_sound db_sum float_sub float_truediv float_mul db job_id bs overruns :
  CrudFloat.overruns_of db_sum float_sub float_truediv float_mul db job_id bs = Ok overruns ->
  forall o, In o overruns ->
    exists b, In b bs /\
      category o = ExpenseCategory_value (Budget.category b) /\
      budgeted o = Budget.budgeted_amount b /\
      actual o = CrudFloat.actual_spend db_sum db job_id (Budget.category b) /\
      Qltb (budgeted o) (actual o) = true /\
      overrun o = float_sub (actual o) (budgeted o) /\
      percentage_over o
      = float_mul (float_truediv (float_sub (actual o) (budgeted o)) (budgeted o)) 100%Q.
Proof.
  revert overruns. induction bs as [|b bs IH]; intros overruns Hrun o Hin.
  - injection Hrun as <-. contradiction.
  - cbn [CrudFloat.overruns_of] in Hrun.
    destruct (Qltb (Budget.budgeted_amount b)
                (CrudFloat.actual_spend db_sum db job_id (Budget.category b))) eqn:Hover.
    + unfold CrudFloat.float_div in Hrun.
      destruct (Qeq_bool (Budget.budgeted_amount b) 0); cbn [mbind res_bind] in Hrun;
        [discriminate|].
      destruct (CrudFloat.overruns_of db_sum float_sub float_truediv float_mul db job_id bs)
        as [more|e]; cbn [mbind res_bind] in Hrun; [|discriminate].
      injection Hrun as <-. destruct Hin as [<-|Hin].
      * exists b. split; [now left|]. cbn [category budgeted actual overrun percentage_over].
        repeat split; auto.
      * destruct (IH more eq_refl o Hin) as (b' & Hb' & H').
        exists b'. split; [now right|exact H'].
    + destruct (IH overruns Hrun o Hin) as (b' & Hb' & H').
      exists b'. split; [now right|exact H'].
Qed.

(** C5.  The alerts [check_and_create_budget_alerts] persists are the ones
    it returns; each is the alert of an overrun the check reported for the
    job, and has severity "high" when the percentage over budget of that
    overrun exceeds 20 and "medium" otherwise.  The percentage is the one
    the code computes, ((actual - budgeted) / budgeted) * 100 in doubles,
    each operation rounding as it does: the statement holds whatever the
    floating-point operations and the database's SUM return; it says
    nothing of the percentage in exact arithmetic, which close to 20 can
    lie on the other side of the threshold.  The alerts
    [check_and_create_invoice_alerts] persists are the ones it returns;
    each is the alert of an overdue invoice and has severity "high" when
    the invoice is more than 30 whole days past its due date and "medium"
    otherwise. *)
Theorem persisted_alert_severity coll :
  (forall db_sum float_sub float_truediv float_mul db job_id created db1,
     CrudFloat.check_and_create_budget_alerts db_sum float_sub float_truediv float_mul
       coll db job_id = Ok (created, db1) ->
     alerts db1 = app (alerts db) created /\
     forall a, In a created ->
       exists overruns o,
         CrudFloat.check_budget_overruns db_sum float_sub float_truediv float_mul db job_id
         = Ok overruns /\
         In o overruns /\
         Alert.alert_type a = "budget_overrun" /\
         Alert.message a = budget_message o /\
         percentage_over o
         = float_mul (float_truediv (float_sub (actual o) (budgeted o)) (budgeted o)) 100%Q /\
         Alert.severity a = if Qltb 20 (percentage_over o) then "high" else "medium") /\
  (forall utcnow db job_id created db1,
     check_and_create_invoice_alerts coll utcnow db job_id = (created, db1) ->
     alerts db1 = app (alerts db) created /\
     forall a, In a created ->
       exists invoice,
         In invoice (get_overdue_invoices db job_id utcnow) /\
         Alert.alert_type a = "overdue_invoice" /\
         Alert.message a = invoice_message utcnow invoice /\
         Alert.severity a =
           if (30 <? days_between utcnow (Invoice.due_date invoice))%Z
           then "high" else "medium").
Proof.
  split.
  - intros db_sum float_sub float_truediv float_mul db job_id created db1.
    unfold CrudFloat.check_and_create_budget_alerts.
    destruct (CrudFloat.check_budget_overruns db_sum float_sub float_truediv float_mul
                db job_id) as [overruns|e] eqn:Hover;
      cbn [mbind res_bind]; [|discriminate].
    intros [= Hrun].
    destruct (budget_loop_run _ _ _ _ _ _ _ Hrun) as (_ & new & Hal & Hcr & Hnew).
    cbn [app] in Hcr. subst new. split; [exact Hal|].
    intros a Ha. destruct (Hnew a Ha) as (o & Hin & _ & Ht & Hm & Hs & _).
    destruct (float_overruns_of_sound _ _ _ _ _ _ _ _ Hover o Hin)
      as (b & _ & _ & _ & _ & _ & _ & Hp).
    exists overruns, o. repeat split; auto.
  - intros utcnow db job_id created db1. unfold check_and_create_invoice_alerts.
    intros Hrun.
    destruct (invoice_loop_run _ _ _ _ _ _ _ Hrun) as (_ & new & Hal & Hcr & Hnew).
    cbn in Hcr. subst new. split; [exact Hal|].
    intros a Ha. destruct (Hnew a Ha) as (i & Hin & _ & Ht & Hm & Hs & _).
    exists i. repeat split; auto.
Qed.

(** C5, witness.  On the example database, with arithmetic that does not
    round: the budget check persists two alerts, "high" for the material
    overrun of 30% and "medium" for the labour overrun of 10%; the invoice
    check persists two alerts, "high" for the invoice 40 days overdue and
    "medium" for the one 10 days overdue. *)
Lemma persisted_alert_severity_witness :
  (List.map Alert.severity CrudExamples.created0 = ["high"; "medium"] /\
   alerts CrudExamples.db1 = app (alerts CrudExamples.db0) CrudExamples.created0 /\
   forall a, In a CrudExamples.created0 ->
     exists overruns o,
       CrudFloat.check_budget_overruns Qsum Qminus Qdiv Qmult CrudExamples.db0 1
       = Ok overruns /\
       In o overruns /\
       Alert.alert_type a = "budget_overrun" /\
       Alert.message a = budget_message o /\
       percentage_over o = ((actual o - budgeted o) / budgeted o * 100)%Q /\
       Alert.severity a = if Qltb 20 (percentage_over o) then "high" else "medium") /\
  (List.map Alert.severity
     (check_and_create_invoice_alerts Sql.NoCase CrudExamples.utcnow
        CrudExamples.db0 (Some 1%nat)).1
   = ["high"; "medium"] /\
   alerts (check_and_create_invoice_alerts Sql.NoCase CrudExamples.utcnow
             CrudExamples.db0 (Some 1%nat)).2
   = app (alerts CrudExamples.db0)
       (check_and_create_invoice_alerts Sql.NoCase CrudExamples.utcnow
          CrudExamples.db0 (Some 1%nat)).1 /\
   forall a,
     In a (check_and_create_invoice_alerts Sql.NoCase CrudExamples.utcnow
             CrudExamples.db0 (Some 1%nat)).1 ->
     exists invoice,
       In invoice (get_overdue_invoices CrudExamples.db0 (Some 1%nat) CrudExamples.utcnow) /\
       Alert.alert_type a = "overdue_invoice" /\
       Alert.message a = invoice_message CrudExamples.utcnow invoice /\
       Alert.severity a =
         if (30 <? days_between CrudExamples.utcnow (Invoice.due_date invoice))%Z
         then "high" else "medium").
Proof.
  split.
  - split; [vm_compute; reflexivity|].
    apply (proj1 (persisted_alert_severity Sql.NoCase) Qsum Qminus Qdiv Qmult
             CrudExamples.db0 1%nat).
    vm_compute. reflexivity.
  - split; [vm_compute; reflexivity|].
    apply (proj2 (persisted_alert_severity Sql.NoCase) CrudExamples.utcnow
             CrudExamples.db0 (Some 1%nat)).
    apply surjective_pairing.
Defined.

Example severities_of_example :
  List.map (fun a => (Alert.message a, Alert.severity a)) CrudExamples.created0
  = [("Budget overrun in material: £300.00 over budget (30.0%)", "high");
     ("Budget overrun in labour: £50.00 over budget (10.0%)", "medium")] /\
  List.map (fun a => (Alert.message a, Alert.severity a))
    (check_and_create_invoice_alerts Sql.NoCase CrudExamples.utcnow
       CrudExamples.db0 (Some 1%nat)).1
  = [("Invoice INV-7 is 40 days overdue (£2500.00)", "high");
     ("Invoice INV-8 is 10 days overdue (£900.00)", "medium")].
Proof. split; vm_compute; reflexivity. Qed.

(** Once the alerts of the first check are acknowledged they are no longer
    live, and the next check writes new ones. *)
Example acknowledged_alerts_are_renewed :
  List.map Alert.message
    (match check_and_create_budget_alerts Sql.NoCase
             (acknowledge_alert (acknowledge_alert CrudExamples.db1 1) 2) 1 with
     | Ok (created, _) => created
     | Raise _ => []
     end)
  = ["Budget overrun in material: £300.00 over budget (30.0%)";
     "Budget overrun in labour: £50.00 over budget (10.0%)"].
Proof. vm_compute. reflexivity. Qed.

(** A budget of zero with money spent makes the overrun computation
    divide by zero: the check raises and persists nothing. *)
Example zero_budget_raises :
  check_and_create_budget_alerts Sql.NoCase
    {| jobs := []; expenses := expenses CrudExamples.db0; invoices := [];
       variations := [];
       budgets := [{| Budget.id := 1; Budget.job_id := 1;
                      Budget.category := material; Budget.budgeted_amount := 0 |}];
       alerts := [] |} 1
  = Raise ZeroDivisionError.
Proof. vm_compute. reflexivity. Qed.

End CrudFacts.

(** ** Budget evaluation (budget_check.py) *)

Section BudgetCheckFacts.
Import Models BudgetCheck.

(** The tiers of [_get_alert_level], highest first, for any thresholds. *)
Lemma alert_level_tiers config p :
  let e := default 1%Q (exceeded config) in
  let c := default (95 # 100) (critical config) in
  let w := default (8 # 10) (warning config) in
  ((e <= p)%Q -> _get_alert_level config p = "exceeded") /\
  (~ (e <= p)%Q -> (c <= p)%Q -> _get_alert_level config p = "critical") /\
  (~ (e <= p)%Q -> ~ (c <= p)%Q -> (w <= p)%Q -> _get_alert_level config p = "warning") /\
  (~ (e <= p)%Q -> ~ (c <= p)%Q -> ~ (w <= p)%Q -> _get_alert_level config p = "normal").
Proof.
  cbv zeta. unfold _get_alert_level.
  destruct (Qle_bool (default 1%Q (exceeded config)) p) eqn:He;
  destruct (Qle_bool (default (95 # 100) (critical config)) p) eqn:Hc;
  destruct (Qle_bool (default (8 # 10) (warning config)) p) eqn:Hw;
  repeat match goal with
         | H : Qle_bool _ _ = true |- _ => apply Qle_bool_iff in H
         | H : Qle_bool _ _ = false |- _ =>
             apply not_true_iff_false in H; rewrite Qle_bool_iff in H
         end;
  repeat split; intros; try reflexivity; contradiction.
Qed.

(** The arithmetic of one budget row, as the loop body writes it: the
    examples of the specification, and a budget of 0. *)
Example status_950_of_1000 :
  alert_level (budget_status_of default_config 1000 950) = "critical" /\
  (percentage_used (budget_status_of default_config 1000 950) == 95)%Q.
Proof. split; reflexivity. Qed.

Example status_1000_of_1000 :
  alert_level (budget_status_of default_config 1000 1000) = "exceeded".
Proof. reflexivity. Qed.

Example status_0_of_1000 :
  alert_level (budget_status_of default_config 1000 0) = "normal".
Proof. reflexivity. Qed.

Lemma status_of_zero_budget config actual :
  percentage_used (budget_status_of config 0 actual) = (0 * 100)%Q.
Proof. reflexivity. Qed.

Lemma expense_totals_ok expenses totals :
  exists totals', _calculate_expense_totals expenses totals = Ok totals'.
Proof.
  revert totals. induction expenses as [|e rest IH]; intros totals.
  - now exists totals.
  - cbn. apply IH.
Qed.

(** The loop never gets past its first budget row: a [Budget] row has no
    attribute [amount] (the column is [budgeted_amount]). *)
Lemma check_rows_raises config totals budget rest :
  check_rows config totals (budget :: rest) = Raise (AttributeError "amount").
Proof. reflexivity. Qed.

(** So [check_job_budgets] fails for every job that has a budget. *)
Lemma check_job_budgets_with_budget config db job_code job :
  Crud.get_job_by_code db job_code = Some job ->
  Crud.get_budgets_by_job db (Job.id job) <> [] ->
  check_job_budgets config db job_code = Failure (Exception (AttributeError "amount")).
Proof.
  intros Hjob Hb. unfold check_job_budgets. rewrite Hjob.
  destruct (Crud.get_budgets_by_job db (Job.id job)) as [|b bs]; [congruence|].
  destruct (expense_totals_ok (Crud.get_expenses_by_job db (Job.id job)) [])
    as [totals ->].
  reflexivity.
Qed.

Lemma check_job_budgets_never_succeeds config db job_code job_code' status alerts :
  check_job_budgets config db job_code <> Success job_code' status alerts.
Proof.
  unfold check_job_budgets.
  destruct (Crud.get_job_by_code db job_code) as [job|]; [|discriminate].
  destruct (Crud.get_budgets_by_job db (Job.id job)) as [|b bs]; [discriminate|].
  destruct (expense_totals_ok (Crud.get_expenses_by_job db (Job.id job)) [])
    as [totals ->].
  discriminate.
Qed.

(** C4, the code at the specification's example.  Budget 1000, actual 950:
    the specification expects the tier "critical"; [check_job_budgets]
    returns a failure, because the loop reads [budget.amount] and the
    [Budget] model has no such attribute. *)
Theorem check_job_budgets_on_example :
  check_job_budgets default_config BudgetCheckExamples.budget_db "NDA-001"
  = Failure (Exception (AttributeError "amount")).
Proof. reflexivity. Qed.

End BudgetCheckFacts.

(** ** The classifier and the P&L normalizer (parse_pnl.py) *)

Section ParsePnlFacts.
Import Models ParsePnl ParsePnlSpec.

(** The order of the tests is the specification's: materials, labour,
    plant, subcontractor, transport, other.  What the classifier returns is
    the attribute of [ExpenseCategory] of the selected name. *)
Lemma categorize_expense_selects description :
  categorize_expense description = ExpenseCategory_member (selected_member description).
Proof.
  unfold categorize_expense, selected_member.
  repeat match goal with
         | |- context [if ?b then _ else _] => destruct b
         end; reflexivity.
Qed.

(** Of the six names only [plant_machinery] is a member of the
    enumeration in models.py ([material], [labour], [plant_machinery],
    [overheads], [subcontractor]). *)
Lemma member_lookups :
  ExpenseCategory_member "materials" = Raise (AttributeError "materials") /\
  ExpenseCategory_member "labor" = Raise (AttributeError "labor") /\
  ExpenseCategory_member "plant_machinery" = Ok plant_machinery /\
  ExpenseCategory_member "subcontractors" = Raise (AttributeError "subcontractors") /\
  ExpenseCategory_member "transport" = Raise (AttributeError "transport") /\
  ExpenseCategory_member "other" = Raise (AttributeError "other").
Proof. repeat split; reflexivity. Qed.

(** A description with a labour keyword and no material keyword does not
    classify as labour: the classifier raises. *)
Lemma categorize_expense_labour description :
  Str.any_in labor_keywords (Str.strip (Str.lower description)) = true ->
  Str.any_in material_keywords (Str.strip (Str.lower description)) = false ->
  categorize_expense description = Raise (AttributeError "labor").
Proof.
  intros Hl Hm. rewrite categorize_expense_selects. unfold selected_member.
  now rewrite Hm, Hl.
Qed.

Lemma categorize_expense_material description :
  Str.any_in material_keywords (Str.strip (Str.lower description)) = true ->
  categorize_expense description = Raise (AttributeError "materials").
Proof.
  intros Hm. rewrite categorize_expense_selects. unfold selected_member.
  now rewrite Hm.
Qed.

(** The only category the classifier ever returns. *)
Lemma categorize_expense_returns description c :
  categorize_expense description = Ok c -> c = plant_machinery.
Proof.
  rewrite categorize_expense_selects. unfold selected_member.
  repeat match goal with
         | |- context [if ?b then _ else _] => destruct b
         end; cbn; congruence.
Qed.

(** C6, the code at the specification's examples.  A description with a
    labour keyword and no material keyword should classify as labour, and
    one with keywords of both as material; the classifier raises
    [AttributeError] on both, since it returns [ExpenseCategory.labor] and
    [ExpenseCategory.materials] and the enumeration has neither member. *)
Theorem categorize_expense_on_examples :
  categorize_expense "  Site LABOUR week 12 " = Raise (AttributeError "labor") /\
  categorize_expense "Labour and materials" = Raise (AttributeError "materials") /\
  categorize_expense "Excavator hire" = Ok plant_machinery.
Proof. repeat split; reflexivity. Qed.

(** *** [extract_job_code_from_class] *)

Example job_code_pattern1 :
  extract_job_code_from_class "JOB001-Main Road" = Some "JOB001".
Proof. reflexivity. Qed.

Example job_code_pattern1_case :
  extract_job_code_from_class " site job42 (north)" = Some "JOB42".
Proof. reflexivity. Qed.

Example job_code_pattern2 :
  extract_job_code_from_class "Works sgn-2024-001 phase 2" = Some "SGN-2024-001".
Proof. reflexivity. Qed.

Example job_code_pattern3 :
  extract_job_code_from_class "NDA-2023-17 Depot" = Some "NDA-2023-17".
Proof. reflexivity. Qed.

Example job_code_fallback :
  extract_job_code_from_class " Head office " = Some "HEAD OFFICE".
Proof. reflexivity. Qed.

Example job_code_not_specified :
  extract_job_code_from_class "Not Specified" = None.
Proof. reflexivity. Qed.

(** *** [process_pnl_data] *)

Section Rows.
Variable float_of_text : string -> option Q.
Variable text_of_float : Q -> string.

(** Summary rows and empty cells produce nothing. *)
Lemma summary_row_is_skipped cols jobs row account_name p :
  account_of text_of_float cols row = Some account_name ->
  Str.any_in skip_words (Str.lower account_name) = true ->
  process_row float_of_text text_of_float cols jobs row p = p.
Proof. intros Ha Hs. unfold process_row. now rewrite Ha, Hs. Qed.

Lemma zero_cell_is_skipped account_name q job_code p :
  (q == 0)%Q ->
  process_cell float_of_text account_name (CNum q) job_code p = p.
Proof.
  intros Hq. unfold process_cell, cell_amount.
  apply Qeq_bool_iff in Hq. now rewrite Hq.
Qed.

Lemma missing_cell_is_skipped account_name job_code p :
  process_cell float_of_text account_name CNaN job_code p = p.
Proof. reflexivity. Qed.

(** The parser cannot provision a job: [JobCreate] is called without the
    required [amended_value] and [estimated_final_cost]. *)
Lemma create_job_if_not_exists_fails self job_code :
  create_job_if_not_exists self job_code = (None, self).
Proof. reflexivity. Qed.

Lemma added_ok_refl l : added_ok l l.
Proof. exists []. rewrite app_nil_r. split; [reflexivity|contradiction]. Qed.

Lemma added_ok_trans l1 l2 l3 : added_ok l1 l2 -> added_ok l2 l3 -> added_ok l1 l3.
Proof.
  intros (n1 & -> & H1) (n2 & -> & H2). exists (app n1 n2).
  rewrite app_assoc. split; [reflexivity|].
  intros e He. apply in_app_or in He as [He|He]; auto.
Qed.

Lemma cell_amount_nonneg amount q :
  cell_amount float_of_text amount = Some (Ok q) -> (0 <= q)%Q.
Proof.
  unfold cell_amount. destruct amount as [x|t|]; [| |discriminate].
  - destruct (Qeq_bool x 0); [discriminate|]. intros [= <-]. apply Qabs_nonneg.
  - destruct (float_of_text t); [|discriminate]. intros [= <-]. apply Qabs_nonneg.
Qed.

Lemma process_cell_adds account_name amount job_code p :
  added_ok (processed_expenses (parser p))
    (processed_expenses
       (parser (process_cell float_of_text account_name amount job_code p))).
Proof.
  unfold process_cell.
  destruct (cell_amount float_of_text amount) as [[q|e]|] eqn:Hamount;
    [|apply added_ok_refl..].
  pose proof (cell_amount_nonneg _ _ Hamount) as Hq.
  destruct (job_mappings (parser p) !! job_code) as [[|n]|].
  - rewrite create_job_if_not_exists_fails. apply added_ok_refl.
  - destruct (categorize_expense account_name) as [c|e] eqn:Hc; cbn;
      [|apply added_ok_refl].
    eexists. split; [reflexivity|]. intros e [<-|[]]. cbn. split; [|exact Hq].
    exact (categorize_expense_returns _ _ Hc).
  - rewrite create_job_if_not_exists_fails. apply added_ok_refl.
Qed.

Lemma process_cells_adds cols row account_name jobs p :
  added_ok (processed_expenses (parser p))
    (processed_expenses
       (parser (process_cells float_of_text cols row account_name jobs p))).
Proof.
  revert p. induction jobs as [|[col_name job_code] rest IH]; intros p.
  - apply added_ok_refl.
  - cbn [process_cells]. eapply added_ok_trans; [|apply IH]. apply process_cell_adds.
Qed.

Lemma process_row_adds cols jobs row p :
  added_ok (processed_expenses (parser p))
    (processed_expenses
       (parser (process_row float_of_text text_of_float cols jobs row p))).
Proof.
  unfold process_row. destruct (account_of _ _ _); [|apply added_ok_refl].
  destruct (Str.any_in _ _); [apply added_ok_refl|apply process_cells_adds].
Qed.

(** Whatever the sheet, the only line items the normalizer adds are
    plant/machinery ones, with a non-negative amount. *)
Lemma process_pnl_data_adds self df :
  added_ok (processed_expenses self)
    (processed_expenses
       (parser (process_pnl_data float_of_text text_of_float self df))).
Proof.
  unfold process_pnl_data.
  change (processed_expenses self)
    with (processed_expenses
            (parser {| parser := self; processed_count := 0; skipped_count := 0 |})).
  generalize {| parser := self; processed_count := 0; skipped_count := 0 |}.
  induction (rows df) as [|row rest IH]; intros p.
  - apply added_ok_refl.
  - cbn [fold_left]. eapply added_ok_trans; [|apply IH]. apply process_row_adds.
Qed.

End Rows.

(** C7, the code at the specification's example.  The sheet has the job
    column "JOB001-Main Road" and the account row "Materials" with value
    -150.  The job code JOB001 is extracted, but no line item is produced:
    the classifier raises on "Materials" (see C6), the cell is counted as
    skipped, and the list of expenses stays empty.  With the account "Plant
    hire", the one description class that classifies, the same cell gives
    the line item of job 1 with amount 150. *)
Theorem process_pnl_data_on_example float_of_text text_of_float :
  job_columns (columns ParsePnlExamples.materials_sheet)
  = [("JOB001-Main Road", "JOB001")] /\
  process_pnl_data float_of_text text_of_float ParsePnlExamples.parser0
    ParsePnlExamples.materials_sheet
  = {| parser := ParsePnlExamples.parser0; processed_count := 0; skipped_count := 1 |} /\
  processed_expenses
    (parser (process_pnl_data float_of_text text_of_float ParsePnlExamples.parser0
               ParsePnlExamples.plant_sheet))
  = [{| job_id := 1; category := plant_machinery; description := "Plant hire";
        amount := Qabs (-150) |}].
Proof. repeat split; vm_compute; reflexivity. Qed.

(** When the parser does not know the job the cell is dropped without
    being counted at all: no job is provisioned. *)
Example unknown_job_is_dropped float_of_text text_of_float :
  process_pnl_data float_of_text text_of_float ParsePnlExamples.blank_parser
    ParsePnlExamples.plant_sheet
  = {| parser := ParsePnlExamples.blank_parser; processed_count := 0;
       skipped_count := 0 |}.
Proof. vm_compute. reflexivity. Qed.

End ParsePnlFacts.

(** ** The invoice normalizer (parse_invoice.py) *)

Section ParseInvoiceFacts.
Import ParseInvoice.

Variable float_of_text : string -> option Q.
Variable datetime_of : Cell -> option Z.
Variable text_of : Cell -> string.

Lemma when_present_columns label f df :
  columns (when_present label f df) = columns df.
Proof. unfold when_present. destruct (has_column df label); reflexivity. Qed.

(** Cleaning trims the column labels and neither adds nor removes one. *)
Lemma clean_columns df :
  columns (_clean_dataframe float_of_text datetime_of text_of df)
  = List.map Str.strip (columns df).
Proof. unfold _clean_dataframe. now rewrite !when_present_columns. Qed.

Lemma job_entries_ok now df codes :
  has_column df "Amount" = true -> has_column df "Balance" = true ->
  exists data, job_entries text_of now df codes = Ok data.
Proof.
  intros Ha Hb. induction codes as [|code rest [data IH]].
  - now exists [].
  - cbn [job_entries]. destruct (String.eqb code "UNASSIGNED").
    + now exists data.
    + unfold job_entry, column. rewrite Ha, Hb. cbn. rewrite IH. cbn. eauto.
Qed.

(** What the parser in fact needs: a file whose (trimmed) labels include
    "Class", "Amount" and "Balance" parses, whatever else is missing. *)
Lemma parse_needs_three_columns now df :
  let cleaned := _clean_dataframe float_of_text datetime_of text_of df in
  has_column cleaned "Class" = true ->
  has_column cleaned "Amount" = true ->
  has_column cleaned "Balance" = true ->
  exists data summary,
    parse_invoice_file float_of_text datetime_of text_of now df = Parsed data summary.
Proof.
  cbv zeta. intros Hc Ha Hb. unfold parse_invoice_file, _process_invoice_data.
  rewrite Hc.
  destruct (job_entries_ok now _ (fold_right insert_key []
              (List.map (class_of text_of
                 (_clean_dataframe float_of_text datetime_of text_of df))
                 (rows (_clean_dataframe float_of_text datetime_of text_of df))))
              Ha Hb) as [data ->].
  eauto.
Qed.

(** Without "Class" the parse fails, and the error names that column. *)
Lemma parse_without_class now df :
  has_column (_clean_dataframe float_of_text datetime_of text_of df) "Class" = false ->
  parse_invoice_file float_of_text datetime_of text_of now df
  = Failed (KeyError "Class").
Proof.
  intros Hc. unfold parse_invoice_file, _process_invoice_data. now rewrite Hc.
Qed.

Lemma insert_key_in x k l : In x (insert_key k l) <-> x = k \/ In x l.
Proof.
  induction l as [|y l IH]; cbn; [intuition|].
  destruct (String.eqb k y) eqn:E.
  - apply String.eqb_eq in E as ->. cbn. intuition.
  - destruct (String.ltb k y); cbn; [intuition|]. rewrite IH. intuition.
Qed.

Lemma group_keys_in x l : In x (fold_right insert_key [] l) <-> In x l.
Proof.
  induction l as [|y l IH]; cbn; [tauto|]. rewrite insert_key_in, IH. intuition.
Qed.

(** A missing "Amount" or "Balance" column fails the parse only through a
    row that belongs to a job; the error names the first column hit. *)
Lemma job_entries_missing_column now df codes :
  has_column df "Amount" = false \/ has_column df "Balance" = false ->
  (exists code, In code codes /\ code <> "UNASSIGNED") ->
  job_entries text_of now df codes
  = Raise (KeyError (if has_column df "Amount" then "Balance" else "Amount")).
Proof.
  intros Hmiss (code & Hin & Hne). induction codes as [|c rest IH]; [contradiction|].
  cbn [job_entries]. destruct (String.eqb c "UNASSIGNED") eqn:E.
  - apply String.eqb_eq in E. destruct Hin as [Hin|Hin]; [congruence|auto].
  - unfold job_entry, column.
    destruct (has_column df "Amount"); cbn; [|reflexivity].
    destruct Hmiss as [Hmiss|Hmiss]; [discriminate|]. now rewrite Hmiss.
Qed.

Lemma job_entries_unassigned now df codes :
  (forall code, In code codes -> code = "UNASSIGNED") ->
  job_entries text_of now df codes = Ok [].
Proof.
  induction codes as [|c rest IH]; intros H; [reflexivity|].
  cbn [job_entries]. rewrite (H c (or_introl eq_refl)). cbn. apply IH.
  intros code Hin. apply H. now right.
Qed.

Lemma parse_without_amount_or_balance now df :
  let cleaned := _clean_dataframe float_of_text datetime_of text_of df in
  has_column cleaned "Class" = true ->
  has_column cleaned "Amount" = false \/ has_column cleaned "Balance" = false ->
  (exists row, In row (rows cleaned) /\ class_of text_of cleaned row <> "UNASSIGNED") ->
  parse_invoice_file float_of_text datetime_of text_of now df
  = Failed (KeyError (if has_column cleaned "Amount" then "Balance" else "Amount")).
Proof.
  cbv zeta. intros Hc Hmiss (row & Hin & Hne).
  unfold parse_invoice_file, _process_invoice_data. rewrite Hc.
  rewrite (job_entries_missing_column now _ _ Hmiss); [reflexivity|].
  exists (class_of text_of (_clean_dataframe float_of_text datetime_of text_of df) row).
  split; [|exact Hne]. apply group_keys_in. now apply in_map.
Qed.

(** C8, the code at a file without the "Type" column, and at a file with
    none of "Type", "Date", "Num", "Name".  The specification expects a
    failure naming the missing columns; the parser never consults
    [required_columns], and both files parse: job NDA-001 is reported
    with its totals.  A missing "Class" column does fail the parse. *)
Theorem parse_invoice_file_without_required_columns :
  parse_invoice_file float_of_text datetime_of text_of ParseInvoiceExamples.now
    ParseInvoiceExamples.no_type_sheet
  = Parsed
      [("NDA-001",
        {| job_code := "NDA-001"; total_invoiced := 500 + 0; total_paid := 0;
           outstanding_balance := 0 + 0; paid_invoices_count := 1;
           unpaid_invoices_count := 0;
           invoices :=
             [{| invoice_number := "1001"; date := Some (19990 * 86400)%Z;
                 client_name := "SGN"; amount := 500; balance := 0;
                 paid_amount := 0; status := "PAID"; due_date := None;
                 aging_days := 0 |}];
           payment_rate := 0 / (500 + 0) * 100 |})]
      (_generate_summary
         [("NDA-001",
           {| job_code := "NDA-001"; total_invoiced := 500 + 0; total_paid := 0;
              outstanding_balance := 0 + 0; paid_invoices_count := 1;
              unpaid_invoices_count := 0;
              invoices :=
                [{| invoice_number := "1001"; date := Some (19990 * 86400)%Z;
                    client_name := "SGN"; amount := 500; balance := 0;
                    paid_amount := 0; status := "PAID"; due_date := None;
                    aging_days := 0 |}];
              payment_rate := 0 / (500 + 0) * 100 |})]) /\
  (exists data summary,
     parse_invoice_file float_of_text datetime_of text_of ParseInvoiceExamples.now
       ParseInvoiceExamples.three_column_sheet = Parsed data summary /\
     List.map fst data = ["NDA-001"]) /\
  parse_invoice_file float_of_text datetime_of text_of ParseInvoiceExamples.now
    ParseInvoiceExamples.no_class_sheet = Failed (KeyError "Class").
Proof.
  split; [|split].
  - reflexivity.
  - eexists _, _. split; reflexivity.
  - reflexivity.
Qed.

End ParseInvoiceFacts.

(** ** The batch pass (process_all_jobs_cvr) *)

Section CvrBatchFacts.
Import Models CvrBatch.

(** *** The latest template: [sorted(...)[-1]] is the greatest name *)

Lemma ascii_compare_lt a b :
  Ascii.compare a b = Lt <-> (N_of_ascii a < N_of_ascii b)%N.
Proof. unfold Ascii.compare. apply N.compare_lt_iff. Qed.

Lemma string_compare_lt_trans a b c :
  String.compare a b = Lt -> String.compare b c = Lt -> String.compare a c = Lt.
Proof.
  revert b c. induction a as [|x a IH]; intros [|y b] [|z c]; simpl; try easy.
  destruct (Ascii.compare x y) eqn:Hxy; try easy;
    destruct (Ascii.compare y z) eqn:Hyz; try easy.
  - apply Ascii.compare_eq_iff in Hxy as ->. rewrite Hyz. apply IH.
  - apply Ascii.compare_eq_iff in Hxy as ->. now rewrite Hyz.
  - apply Ascii.compare_eq_iff in Hyz as <-. now rewrite Hxy.
  - apply ascii_compare_lt in Hxy. apply ascii_compare_lt in Hyz.
    assert (Hxz : Ascii.compare x z = Lt).
    { apply ascii_compare_lt. eapply N.lt_trans; eassumption. }
    now rewrite Hxz.
Qed.

Lemma string_leb_trans a b c :
  String.leb a b = true -> String.leb b c = true -> String.leb a c = true.
Proof.
  unfold String.leb.
  destruct (String.compare a b) eqn:Hab; try easy;
    destruct (String.compare b c) eqn:Hbc; try easy; intros _ _.
  - apply String.compare_eq_iff in Hab as ->. now rewrite Hbc.
  - apply String.compare_eq_iff in Hab as ->. now rewrite Hbc.
  - apply String.compare_eq_iff in Hbc as <-. now rewrite Hab.
  - now rewrite (string_compare_lt_trans _ _ _ Hab Hbc).
Qed.

Lemma insert_sorted_in x k l : In x (insert_sorted k l) <-> x = k \/ In x l.
Proof.
  induction l as [|y l IH]; cbn; [intuition|].
  destruct (String.leb k y); cbn; [intuition|]. rewrite IH. intuition.
Qed.

Lemma sorted_in x names : In x (sorted names) <-> In x names.
Proof.
  unfold sorted. induction names as [|n names IH]; cbn; [tauto|].
  rewrite insert_sorted_in, IH. intuition.
Qed.

Lemma insert_sorted_ascending k l :
  StronglySorted (fun a b => String.leb a b = true) l ->
  StronglySorted (fun a b => String.leb a b = true) (insert_sorted k l).
Proof.
  induction 1 as [|y l Hl IH Hy]; cbn.
  - constructor; constructor.
  - destruct (String.leb k y) eqn:Hky.
    + constructor; [now constructor|]. constructor; [exact Hky|].
      eapply List.Forall_impl; [|exact Hy]. intros z Hz. cbn in Hz.
      eapply string_leb_trans; eauto.
    + constructor; [exact IH|]. apply List.Forall_forall. intros z Hz.
      apply insert_sorted_in in Hz as [->|Hz].
      * destruct (String.leb_total k y) as [H|H]; congruence.
      * rewrite List.Forall_forall in Hy. now apply Hy.
Qed.

Lemma sorted_ascending names :
  StronglySorted (fun a b => String.leb a b = true) (sorted names).
Proof.
  unfold sorted. induction names as [|n names IH]; cbn; [constructor|].
  now apply insert_sorted_ascending.
Qed.

Lemma string_leb_refl a : String.leb a a = true.
Proof. destruct (String.leb_total a a); assumption. Qed.

Lemma last_of_ascending l p :
  StronglySorted (fun a b => String.leb a b = true) l ->
  last_of l = Some p ->
  In p l /\ forall q, In q l -> String.leb q p = true.
Proof.
  unfold last_of. induction 1 as [|y l Hl IH Hy]; [discriminate|].
  destruct l as [|z l'].
  - cbn. intros [= <-]. split; [now left|].
    intros q [<-|[]]. apply string_leb_refl.
  - intros Hlast.
    change (List.last (List.map Some (z :: l')) None = Some p) in Hlast.
    destruct (IH Hlast) as [Hin Hmax]. split; [now right|].
    intros q [<-|Hq]; [|now apply Hmax].
    rewrite List.Forall_forall in Hy. now apply Hy.
Qed.

(** The template taken when none is given is a ".xlsx" file of the
    directory, and no such file has a greater name. *)
Lemma latest_template_is_greatest files latest :
  last_of (sorted (glob_xlsx files CVR_TEMPLATES_DIR)) = Some latest ->
  In latest (glob_xlsx files CVR_TEMPLATES_DIR) /\
  forall other, In other (glob_xlsx files CVR_TEMPLATES_DIR) ->
    String.leb other latest = true.
Proof.
  intros H.
  destruct (last_of_ascending _ _ (sorted_ascending _) H) as [Hin Hmax].
  split; [now apply sorted_in|].
  intros other Ho. apply Hmax. now apply sorted_in.
Qed.

(** *** The loop *)

(** The metrics look-up of the loop passes the keyword [job_code], which
    [get_job_detail_metrics(db, job_id)] does not have: the call raises. *)
Lemma metrics_call_raises db value :
  call_get_job_detail_metrics db "job_code" value
  = Raise (TypeError
             "get_job_detail_metrics() got an unexpected keyword argument 'job_code'").
Proof. reflexivity. Qed.

(** Hence the pass raises at its first data row: with a "Job Code" header
    the look-up raises [TypeError], without one the index raises
    [KeyError]. *)
Lemma process_rows_raises db sheet row rest :
  process_rows db sheet (row :: rest)
  = match col_index sheet "Job Code" with
    | Ok _ =>
        Raise (TypeError
                 "get_job_detail_metrics() got an unexpected keyword argument 'job_code'")
    | Raise e => Raise e
    end.
Proof.
  cbn [process_rows]. unfold process_row.
  destruct (col_index sheet "Job Code"); reflexivity.
Qed.

Lemma process_all_jobs_cvr_never_updates db files template_path stamp out files' :
  process_all_jobs_cvr db files template_path stamp = Ok (out, files') ->
  exists sheet,
    read_file files' (path out) = Some sheet /\ data_rows sheet = [].
Proof.
  unfold process_all_jobs_cvr.
  destruct (match template_path with
            | Some (String c p) => Ok (String c p)
            | _ => _
            end) as [tp|e]; cbn; [|discriminate].
  destruct (read_file files tp) as [sheet|]; cbn; [|discriminate].
  destruct (data_rows sheet) as [|row rest] eqn:Hrows.
  - cbn. intros [= <- <-].
    exists {| header := header sheet; data_rows := [] |}. split; [|reflexivity].
    unfold read_file, write_file. cbn. now rewrite String.eqb_refl.
  - rewrite process_rows_raises. destruct (col_index sheet "Job Code"); discriminate.
Qed.

(** C9, the code at a template directory.  With no explicit template the
    pass takes the last ".xlsx" file of the directory in name order, here
    the template of March; that template has one data row, for job
    NDA-001, which the database knows; the pass raises [TypeError] at the
    metrics look-up and writes no file.  When the latest template has
    only its header row the pass succeeds and saves the copy as
    cvr_processed_<stamp>.xlsx. *)
Theorem process_all_jobs_cvr_on_example :
  last_of (sorted (glob_xlsx CvrBatchExamples.uploads CVR_TEMPLATES_DIR))
  = Some "CVR_Templates/cvr_master_20240301_101500.xlsx" /\
  process_all_jobs_cvr CrudExamples.db0 CvrBatchExamples.uploads None
    CvrBatchExamples.stamp
  = Raise (TypeError
             "get_job_detail_metrics() got an unexpected keyword argument 'job_code'") /\
  process_all_jobs_cvr CrudExamples.db0 CvrBatchExamples.header_only_uploads None
    CvrBatchExamples.stamp
  = Ok ({| file := "cvr_processed_20240302_120000.xlsx";
           path := "CVR_Processed/cvr_processed_20240302_120000.xlsx" |},
        ("CVR_Processed/cvr_processed_20240302_120000.xlsx",
         CvrBatchExamples.old_template) :: CvrBatchExamples.header_only_uploads).
Proof. repeat split; vm_compute; reflexivity. Qed.

End CvrBatchFacts.
(** ** Job, expense and invoice management (crud.py) *)

Section CrudOpsFacts.
Import Models Crud CrudOps.

Lemma fresh_id_above ids i : In i ids -> (i < fresh_id ids)%nat.
Proof.
  unfold fresh_id. induction ids as [|x ids IH]; [easy|].
  intros [->|H]; cbn [fold_right]; [lia|]. specialize (IH H). lia.
Qed.

Lemma find_app_none {A} (f : A -> bool) l l' :
  find f l = None -> find f (app l l') = find f l'.
Proof.
  induction l as [|x l IH]; [reflexivity|]. cbn [find app].
  destruct (f x); [discriminate|exact IH].
Qed.

Lemma find_none_all {A} (f : A -> bool) l :
  (forall x, In x l -> f x = false) -> find f l = None.
Proof.
  induction l as [|x l IH]; intros H; [reflexivity|]. cbn [find].
  rewrite (H x) by now left. apply IH. intros y Hy. apply H. now right.
Qed.

Lemma find_snoc_other {A} (f : A -> bool) l x :
  f x = false -> find f (app l [x]) = find f l.
Proof.
  intros Hx. induction l as [|y l IH]; cbn [find app].
  - now rewrite Hx.
  - destruct (f y); [reflexivity|exact IH].
Qed.

(** X1.  A job that [create_job] accepts gets an id and a code that no
    earlier job has, is found afterwards by its code and by its id, hides
    no other job, and cannot be created a second time: the unique index on
    the job code refuses it. *)
Theorem create_job_then_lookup db job j db' :
  create_job db job = Ok (j, db') ->
  Job.job_code j = JobCreate.job_code job /\
  (forall x, In x (jobs db) -> Job.id x <> Job.id j /\ Job.job_code x <> Job.job_code j) /\
  get_job_by_code db' (Job.job_code j) = Some j /\
  get_job_by_id db' (Job.id j) = Some j /\
  (forall code, code <> Job.job_code j ->
     get_job_by_code db' code = get_job_by_code db code) /\
  (forall i, i <> Job.id j -> get_job_by_id db' i = get_job_by_id db i) /\
  create_job db' job = Raise (IntegrityError "UNIQUE constraint failed: jobs.job_code").
Proof.
  unfold create_job. destruct (get_job_by_code db (JobCreate.job_code job)) eqn:Hcode;
    [discriminate|].
  intros [= <- <-]. cbn [Job.job_code Job.id jobs].
  assert (Hfresh : forall x, In x (jobs db) ->
            Job.id x <> fresh_id (List.map Job.id (jobs db))).
  { intros x Hx. pose proof (fresh_id_above (List.map Job.id (jobs db)) (Job.id x)
                               (in_map Job.id _ _ Hx)). lia. }
  assert (Hnew : forall x, In x (jobs db) -> Job.job_code x <> JobCreate.job_code job).
  { intros x Hx Heq. unfold get_job_by_code in Hcode.
    apply (find_none _ _ Hcode) in Hx. rewrite Heq, String.eqb_refl in Hx. discriminate. }
  split; [reflexivity|]. split; [intros x Hx; split; auto|].
  unfold get_job_by_code, get_job_by_id. cbn [jobs].
  split; [|split; [|split; [|split]]].
  - rewrite find_app_none by exact Hcode. cbn. now rewrite String.eqb_refl.
  - rewrite find_app_none.
    + cbn [find Job.id]. now rewrite Nat.eqb_refl.
    + apply find_none_all. intros x Hx. apply Nat.eqb_neq. now apply Hfresh.
  - intros code Hne. apply find_snoc_other. cbn [Job.job_code].
    apply String.eqb_neq. congruence.
  - intros i Hne. apply find_snoc_other. cbn [Job.id]. apply Nat.eqb_neq. congruence.
  - rewrite find_app_none by exact Hcode. cbn. now rewrite String.eqb_refl.
Qed.

Lemma create_job_then_lookup_witness :
  exists j db',
    create_job CrudExamples.db0 CrudOpsExamples.new_job = Ok (j, db') /\
    Job.id j = 2%nat /\
    get_job_by_code db' "NDA-002" = Some j /\
    get_job_by_id db' 2 = Some j /\
    create_job db' CrudOpsExamples.new_job
    = Raise (IntegrityError "UNIQUE constraint failed: jobs.job_code").
Proof.
  eexists _, _. split; [reflexivity|]. split; [reflexivity|].
  destruct (create_job_then_lookup CrudExamples.db0 CrudOpsExamples.new_job _ _ eq_refl)
    as (_ & _ & Hcode & Hid & _ & _ & Hdup).
  split; [exact Hcode|]. split; [exact Hid|exact Hdup].
Defined.

Lemma filter_filter_sub {A} (f g : A -> bool) l :
  (forall x, f x = true -> g x = true) ->
  List.filter f (List.filter g l) = List.filter f l.
Proof.
  intros H. induction l as [|x l IH]; [reflexivity|]. cbn [List.filter].
  destruct (g x) eqn:Hg; cbn [List.filter].
  - now rewrite IH.
  - rewrite IH. destruct (f x) eqn:Hf; [|reflexivity].
    apply H in Hf. congruence.
Qed.

Lemma filter_filter_none {A} (f g : A -> bool) l :
  (forall x, g x = true -> f x = false) -> List.filter f (List.filter g l) = [].
Proof.
  intros H. induction l as [|x l IH]; [reflexivity|]. cbn [List.filter].
  destruct (g x) eqn:Hg; [|exact IH]. cbn [List.filter]. now rewrite (H x Hg).
Qed.

Lemma find_filter_sub {A} (f g : A -> bool) l :
  (forall x, f x = true -> g x = true) -> find f (List.filter g l) = find f l.
Proof.
  intros H. induction l as [|x l IH]; [reflexivity|]. cbn [List.filter find].
  destruct (g x) eqn:Hg; cbn [find].
  - now rewrite IH.
  - rewrite IH. destruct (f x) eqn:Hf; [|reflexivity].
    apply H in Hf. congruence.
Qed.

Lemma filter_and {A} (f g : A -> bool) l :
  List.filter (fun x => f x && g x) l = List.filter g (List.filter f l).
Proof.
  induction l as [|x l IH]; [reflexivity|]. cbn [List.filter].
  destruct (f x); cbn [andb List.filter]; [destruct (g x)|]; now rewrite IH.
Qed.

(** What the queries about one job read: the job's rows of each table. *)
Lemma job_queries_agree db db' j :
  get_job_by_id db' j = get_job_by_id db j ->
  get_expenses_by_job db' j = get_expenses_by_job db j ->
  get_invoices_by_job db' j = get_invoices_by_job db j ->
  get_variations_by_job db' j = get_variations_by_job db j ->
  get_budgets_by_job db' j = get_budgets_by_job db j ->
  (forall c, actual_spend db' j c = actual_spend db j c) /\
  get_total_expenses_by_job db' j = get_total_expenses_by_job db j /\
  get_total_invoiced_by_job db' j = get_total_invoiced_by_job db j /\
  get_total_unpaid_by_job db' j = get_total_unpaid_by_job db j /\
  get_approved_variations_total db' j = get_approved_variations_total db j /\
  get_expenses_by_category_summary db' j = get_expenses_by_category_summary db j /\
  get_job_detail_metrics db' j = get_job_detail_metrics db j /\
  Crud.get_job_detail_metrics db' j = Crud.get_job_detail_metrics db j /\
  check_budget_overruns db' j = check_budget_overruns db j.
Proof.
  intros Hj He Hi Hv Hb.
  assert (Hspend : forall c, actual_spend db' j c = actual_spend db j c).
  { intros c. unfold actual_spend. rewrite !filter_and.
    unfold get_expenses_by_job in He. now rewrite He. }
  assert (Hcat : forall c, get_expenses_by_category db' j c = get_expenses_by_category db j c).
  { intros c. unfold get_expenses_by_category. rewrite !filter_and.
    unfold get_expenses_by_job in He. now rewrite He. }
  assert (Hcosts : get_total_expenses_by_job db' j = get_total_expenses_by_job db j).
  { unfold get_total_expenses_by_job. now rewrite He. }
  assert (Hinv : get_total_invoiced_by_job db' j = get_total_invoiced_by_job db j).
  { unfold get_total_invoiced_by_job. unfold get_invoices_by_job in Hi. now rewrite Hi. }
  assert (Hunpaid : get_total_unpaid_by_job db' j = get_total_unpaid_by_job db j).
  { unfold get_total_unpaid_by_job, get_unpaid_invoices_by_job. rewrite !filter_and.
    unfold get_invoices_by_job in Hi. now rewrite Hi. }
  assert (Hvar : get_approved_variations_total db' j = get_approved_variations_total db j).
  { unfold get_approved_variations_total. rewrite !filter_and.
    unfold get_variations_by_job in Hv. now rewrite Hv. }
  assert (Hsum : get_expenses_by_category_summary db' j
                 = get_expenses_by_category_summary db j).
  { unfold get_expenses_by_category_summary. f_equal.
    rewrite (List.filter_ext _ (fun c => negb (length (get_expenses_by_category db j c) =? 0)%nat))
      by (intros c; now rewrite Hcat).
    apply List.map_ext. intros c. now rewrite Hspend. }
  repeat split; try assumption.
  - unfold get_job_detail_metrics. now rewrite Hj, Hsum, Hcosts, Hinv, Hunpaid, Hvar, Hb.
  - unfold Crud.get_job_detail_metrics. now rewrite Hj, Hcosts, Hinv, Hvar.
  - unfold check_budget_overruns. rewrite Hb. clear Hb.
    induction (get_budgets_by_job db j) as [|b bs IH]; [reflexivity|].
    cbn [overruns_of]. rewrite !Hspend.
    destruct (Qltb _ _); [|exact IH].
    destruct (float_div _ _); [|reflexivity]. cbn. now rewrite IH.
Qed.

(** A query for [other] passes the filter that removed the rows of
    [job_id]. *)
Ltac other_job :=
  let x := fresh "x" in
  let H := fresh "H" in
  intros x H;
  repeat match goal with
         | H : (_ && _) = true |- _ => apply andb_true_iff in H as [? ?]
         end;
  match goal with
  | H : Nat.eqb _ _ = true |- _ => apply Nat.eqb_eq in H
  end;
  apply negb_true_iff, Nat.eqb_neq; congruence.

(** X2.  [delete_job] of a job that does not exist changes nothing and
    answers [False].  Otherwise it answers [True] and removes the job with
    every expense, invoice, variation, budget and alert that refers to
    it, and nothing else: each query about another job answers as
    before. *)
Theorem delete_job_removes_its_records db job_id :
  (get_job_by_id db job_id = None -> delete_job db job_id = (false, db)) /\
  (forall job, get_job_by_id db job_id = Some job ->
     (delete_job db job_id).1 = true /\
     (let db' := (delete_job db job_id).2 in
      get_job_by_id db' job_id = None /\
      get_expenses_by_job db' job_id = [] /\
      get_invoices_by_job db' job_id = [] /\
      get_variations_by_job db' job_id = [] /\
      get_budgets_by_job db' job_id = [] /\
      (forall a, In a (alerts db') -> Alert.job_id a <> job_id) /\
      get_job_detail_metrics db' job_id = None /\
      forall other, other <> job_id ->
        get_job_by_id db' other = get_job_by_id db other /\
        get_expenses_by_job db' other = get_expenses_by_job db other /\
        get_invoices_by_job db' other = get_invoices_by_job db other /\
        get_variations_by_job db' other = get_variations_by_job db other /\
        get_budgets_by_job db' other = get_budgets_by_job db other /\
        get_job_detail_metrics db' other = get_job_detail_metrics db other /\
        check_budget_overruns db' other = check_budget_overruns db other)).
Proof.
  unfold delete_job. split; [now intros ->|]. intros job ->. cbn [fst snd].
  split; [reflexivity|]. cbv zeta.
  set (db' := {| jobs := _ |}).
  assert (Hgone : get_job_by_id db' job_id = None).
  { unfold get_job_by_id. cbn [jobs db']. apply find_none_all. intros x Hx.
    apply filter_In in Hx as [_ Hx]. now apply negb_true_iff in Hx. }
  split; [exact Hgone|].
  split; [|split; [|split; [|split; [|split; [|split]]]]].
  1-4: apply filter_filter_none; intros x Hx; now apply negb_true_iff in Hx.
  - intros a Ha. apply filter_In in Ha as [_ Ha].
    now apply negb_true_iff, Nat.eqb_neq in Ha.
  - unfold get_job_detail_metrics. now rewrite Hgone.
  - intros other Hother.
    assert (Hj : get_job_by_id db' other = get_job_by_id db other)
      by (apply find_filter_sub; other_job).
    assert (He : get_expenses_by_job db' other = get_expenses_by_job db other)
      by (apply filter_filter_sub; other_job).
    assert (Hi : get_invoices_by_job db' other = get_invoices_by_job db other)
      by (apply filter_filter_sub; other_job).
    assert (Hv : get_variations_by_job db' other = get_variations_by_job db other)
      by (apply filter_filter_sub; other_job).
    assert (Hb : get_budgets_by_job db' other = get_budgets_by_job db other)
      by (apply filter_filter_sub; other_job).
    destruct (job_queries_agree db db' other Hj He Hi Hv Hb)
      as (_ & _ & _ & _ & _ & _ & Hm & _ & Ho).
    repeat split; assumption.
Qed.

End CrudOpsFacts.
(** ** Updating rows: jobs, invoices and variations (crud.py) *)

Section CrudRowFacts.
Import Models Crud CrudOps.


Lemma map_map_if {A B} (key : A -> nat) (g : A -> A) (f : A -> B) (k : nat) l :
  (forall x, f (g x) = f x) ->
  List.map f (List.map (fun x => if Nat.eqb (key x) k then g x else x) l) = List.map f l.
Proof.
  intros Hf. rewrite List.map_map. apply List.map_ext. intros x.
  destruct (Nat.eqb (key x) k); [apply Hf|reflexivity].
Qed.


Lemma filter_map_if {A} (key : A -> nat) (g : A -> A) (p : A -> bool) (k : nat) l :
  (forall x, p (g x) = p x) ->
  List.filter p (List.map (fun x => if Nat.eqb (key x) k then g x else x) l)
  = List.map (fun x => if Nat.eqb (key x) k then g x else x) (List.filter p l).
Proof.
  intros Hp. induction l as [|x l IH]; [reflexivity|]. cbn [List.map List.filter].
  replace (p (if Nat.eqb (key x) k then g x else x)) with (p x)
    by (destruct (Nat.eqb (key x) k); [now rewrite Hp|reflexivity]).
  destruct (p x); cbn [List.map]; now rewrite IH.
Qed.

(** X4.  [mark_invoice_paid] answers [None] and changes nothing when the
    invoice does not exist.  Otherwise the invoice is paid afterwards and
    only it has changed: the invoiced totals are as before, the alerts
    table is untouched (an alert raised earlier stays), the invoice is no
    longer among the overdue ones, and no later invoice check raises an
    alert for it. *)
Theorem paid_invoice_is_not_overdue db invoice_id :
  (find (fun i => Nat.eqb (Invoice.id i) invoice_id) (invoices db) = None ->
   mark_invoice_paid db invoice_id = (None, db)) /\
  (forall inv db', mark_invoice_paid db invoice_id = (Some inv, db') ->
     Invoice.id inv = invoice_id /\ Invoice.is_paid inv = true /\
     jobs db' = jobs db /\ expenses db' = expenses db /\
     variations db' = variations db /\ budgets db' = budgets db /\
     alerts db' = alerts db /\
     (forall j, get_total_invoiced_by_job db' j = get_total_invoiced_by_job db j) /\
     (forall job_id utcnow i,
        In i (get_overdue_invoices db' job_id utcnow) ->
        Invoice.id i <> invoice_id /\ In i (get_overdue_invoices db job_id utcnow)) /\
     (forall coll utcnow job_id a,
        In a (check_and_create_invoice_alerts coll utcnow db' job_id).1 ->
        exists i, In i (invoices db) /\ Invoice.id i <> invoice_id /\
                  Invoice.is_paid i = false /\
                  Alert.message a = invoice_message utcnow i)).
Proof.
  unfold mark_invoice_paid. split; [now intros ->|]. intros inv db'.
  destruct (find _ (invoices db)) as [x|] eqn:Hx; [|discriminate].
  intros [= <- <-]. cbn [jobs expenses invoices variations budgets alerts].
  assert (Hid : Invoice.id x = invoice_id).
  { apply find_some in Hx as [_ H]. now apply Nat.eqb_eq in H. }
  assert (Hover : forall job_id utcnow i,
            In i (get_overdue_invoices
                    {| jobs := jobs db; expenses := expenses db;
                       invoices := List.map (fun i => if Nat.eqb (Invoice.id i) invoice_id
                                                      then paid i else i) (invoices db);
                       variations := variations db; budgets := budgets db;
                       alerts := alerts db |} job_id utcnow) ->
            Invoice.id i <> invoice_id /\ In i (get_overdue_invoices db job_id utcnow)).
  { intros job_id utcnow i. unfold get_overdue_invoices. cbn [invoices].
    rewrite !filter_In, in_map_iff. intros [(y & Hy & Hin) Hf].
    destruct (Nat.eqb (Invoice.id y) invoice_id) eqn:Hk.
    - subst i. cbn in Hf. discriminate.
    - subst i. apply Nat.eqb_neq in Hk. auto. }
  repeat split; try reflexivity; try exact Hid.
  - intros j. unfold get_total_invoiced_by_job. cbn [invoices].
    rewrite (filter_map_if Invoice.id paid) by reflexivity.
    now rewrite (map_map_if Invoice.id paid).
  - now apply Hover in H.
  - now apply Hover in H.
  - intros coll utcnow job_id a Ha. unfold check_and_create_invoice_alerts in Ha.
    destruct (invoice_alert_loop _ _ _ _ _) as [created db1] eqn:Hloop.
    apply invoice_loop_run in Hloop as (_ & new & _ & Hc & Hnew).
    cbn [fst app] in Ha, Hc. subst created.
    apply Hnew in Ha as (i & Hi & Halert).
    pose proof (Hover _ _ _ Hi) as [Hne Hin].
    exists i. unfold get_overdue_invoices in Hin. apply filter_In in Hin as [Hin Hf].
    split; [exact Hin|]. split; [exact Hne|].
    split; [|apply Halert].
    apply andb_true_iff in Hf as [Hf _]. apply andb_true_iff in Hf as [Hf _].
    now apply negb_true_iff in Hf.
Qed.

End CrudRowFacts.
(** ** Overruns and metrics (crud.py) *)

Section CrudMetricFacts.
Import Models Crud CrudOps.

Lemma Qltb_lt x y : Qltb x y = true <-> (x < y)%Q.
Proof.
  unfold Qltb. rewrite negb_true_iff. split.
  - intros H. apply Qnot_le_lt. intros Hle. apply Qle_bool_iff in Hle. congruence.
  - intros H. destruct (Qle_bool y x) eqn:E; [|reflexivity].
    apply Qle_bool_iff in E. exfalso. now apply (Qlt_not_le x y).
Qed.

Lemma Qltb_ge x y : Qltb x y = false <-> (y <= x)%Q.
Proof.
  unfold Qltb. rewrite negb_false_iff. apply Qle_bool_iff.
Qed.

(** X5.  [check_budget_overruns] raises [ZeroDivisionError] exactly when
    some budget of the job is 0 and has spend against it.  Otherwise it
    reports the budget rows whose category spend exceeds the budget, all
    of them and no other, in the order of the rows, each with the
    category, the budget and the spend of its row. *)
Theorem check_budget_overruns_exact db job_id :
  let over :=
    List.filter (fun b => Qltb (Budget.budgeted_amount b)
                               (actual_spend db job_id (Budget.category b)))
                (get_budgets_by_job db job_id) in
  if existsb (fun b => Qeq_bool (Budget.budgeted_amount b) 0) over
  then check_budget_overruns db job_id = Raise ZeroDivisionError
  else exists overruns,
      check_budget_overruns db job_id = Ok overruns /\
      List.map category overruns
      = List.map (fun b => ExpenseCategory_value (Budget.category b)) over /\
      List.map budgeted overruns = List.map Budget.budgeted_amount over /\
      List.map actual overruns
      = List.map (fun b => actual_spend db job_id (Budget.category b)) over.
Proof.
  unfold check_budget_overruns. cbv zeta.
  induction (get_budgets_by_job db job_id) as [|b bs IH].
  - cbn. exists []. repeat split.
  - cbn [overruns_of List.filter].
    destruct (Qltb (Budget.budgeted_amount b) _) eqn:Hover.
    + cbn [existsb]. unfold float_div.
      destruct (Qeq_bool (Budget.budgeted_amount b) 0) eqn:Hzero; [reflexivity|].
      cbn [orb]. destruct (existsb _ _).
      * cbn. now rewrite IH.
      * destruct IH as (overruns & -> & Hc & Hb & Ha). cbn.
        eexists. split; [reflexivity|]. cbn [List.map category budgeted actual].
        now rewrite Hc, Hb, Ha.
    + exact IH.
Qed.

Lemma lookup_members (present : ExpenseCategory -> bool) (a : ExpenseCategory -> Q) c :
  default 0%Q
    ((list_to_map
        (List.map (fun c => (ExpenseCategory_value c, a c))
           (List.filter present ExpenseCategory_members)) : gmap string Q)
     !! ExpenseCategory_value c)
  = if present c then a c else 0%Q.
Proof.
  unfold ExpenseCategory_members. cbn [List.filter].
  destruct (present material) eqn:E1, (present labour) eqn:E2,
    (present plant_machinery) eqn:E3, (present overheads) eqn:E4,
    (present subcontractor) eqn:E5;
    destruct c; rewrite ?E1, ?E2, ?E3, ?E4, ?E5; reflexivity.
Qed.

Lemma summary_lookup db j c :
  default 0%Q (get_expenses_by_category_summary db j !! ExpenseCategory_value c)
  = if (length (get_expenses_by_category db j c) =? 0)%nat
    then 0%Q else actual_spend db j c.
Proof.
  unfold get_expenses_by_category_summary.
  rewrite (lookup_members
             (fun c => negb (length (get_expenses_by_category db j c) =? 0)%nat)
             (actual_spend db j) c).
  now destruct (length (get_expenses_by_category db j c) =? 0)%nat.
Qed.

Lemma no_expense_no_spend db j c :
  (length (get_expenses_by_category db j c) =? 0)%nat = true ->
  actual_spend db j c = 0%Q.
Proof.
  intros H. apply Nat.eqb_eq in H. unfold actual_spend.
  unfold get_expenses_by_category in H.
  now destruct (List.filter _ (expenses db)).
Qed.

Lemma summary_get db j c :
  default 0%Q (get_expenses_by_category_summary db j !! ExpenseCategory_value c)
  = actual_spend db j c.
Proof.
  rewrite summary_lookup.
  destruct (length (get_expenses_by_category db j c) =? 0)%nat eqn:E; [|reflexivity].
  now rewrite no_expense_no_spend.
Qed.

Lemma Qmax0_nonneg x : (0 <= Qmax0 x)%Q.
Proof.
  unfold Qmax0. destruct (Qltb x 0) eqn:E; [apply Qle_refl|].
  now apply Qltb_ge in E.
Qed.

(** X6.  In the dictionary [get_job_detail_metrics] returns, each of the
    five category costs is the job's spend in that category, the one
    [check_budget_overruns] compares with the budget, and 0 for a category
    without expenses; [pending_invoices] is never negative; the margin
    percentage is 0 when the contract value with approved variations is
    not positive; and the entries the batch pass reads are the ones of the
    short form. *)
Theorem job_detail_costs_by_category db job_id m :
  get_job_detail_metrics db job_id = Some m ->
  JobDetail.material_costs m = actual_spend db job_id material /\
  JobDetail.labour_costs m = actual_spend db job_id labour /\
  JobDetail.plant_machinery_costs m = actual_spend db job_id plant_machinery /\
  JobDetail.overhead_costs m = actual_spend db job_id overheads /\
  JobDetail.subcontractor_costs m = actual_spend db job_id subcontractor /\
  (forall c, get_expenses_by_category db job_id c = [] -> actual_spend db job_id c = 0%Q) /\
  (0 <= JobDetail.pending_invoices m)%Q /\
  ((JobDetail.amended_value m <= 0)%Q -> JobDetail.margin_percentage m = 0%Q) /\
  Crud.get_job_detail_metrics db job_id
  = Some {| Crud.amended_value := JobDetail.amended_value m;
            Crud.total_costs := JobDetail.total_costs m;
            Crud.total_invoiced := JobDetail.total_invoiced m;
            Crud.pending_invoices := JobDetail.pending_invoices m;
            Crud.projected_margin := JobDetail.projected_margin m |}.
Proof.
  unfold get_job_detail_metrics, Crud.get_job_detail_metrics.
  destruct (get_job_by_id db job_id) as [job|]; [|discriminate].
  intros [= <-].
  cbn [JobDetail.material_costs JobDetail.labour_costs JobDetail.plant_machinery_costs
         JobDetail.overhead_costs JobDetail.subcontractor_costs JobDetail.total_costs
         JobDetail.pending_invoices JobDetail.margin_percentage JobDetail.amended_value
         JobDetail.total_invoiced JobDetail.projected_margin].
  change (get_expenses_by_category_summary db job_id !! "material")
    with (get_expenses_by_category_summary db job_id !! ExpenseCategory_value material).
  change (get_expenses_by_category_summary db job_id !! "labour")
    with (get_expenses_by_category_summary db job_id !! ExpenseCategory_value labour).
  change (get_expenses_by_category_summary db job_id !! "plant_machinery")
    with (get_expenses_by_category_summary db job_id
            !! ExpenseCategory_value plant_machinery).
  change (get_expenses_by_category_summary db job_id !! "overheads")
    with (get_expenses_by_category_summary db job_id !! ExpenseCategory_value overheads).
  change (get_expenses_by_category_summary db job_id !! "subcontractor")
    with (get_expenses_by_category_summary db job_id
            !! ExpenseCategory_value subcontractor).
  rewrite !summary_get.
  do 5 (split; [reflexivity|]).
  split.
  { intros c Hnone. apply no_expense_no_spend. now rewrite Hnone. }
  split; [apply Qmax0_nonneg|].
  split; [|reflexivity].
  intros Hle. destruct (Qltb 0 _) eqn:E; [|reflexivity].
  apply Qltb_lt in E. exfalso. now apply (Qlt_not_le _ _ E).
Qed.

Lemma job_detail_costs_by_category_witness :
  exists m,
    get_job_detail_metrics CrudExamples.db0 1 = Some m /\
    JobDetail.material_costs m = actual_spend CrudExamples.db0 1 material /\
    JobDetail.overhead_costs m = 0%Q.
Proof.
  eexists. split; [reflexivity|].
  split; [|reflexivity].
  apply (job_detail_costs_by_category CrudExamples.db0 1 _ eq_refl).
Defined.


Lemma status_counts (js : list Job.t) :
  (length (List.filter (fun j => is_active (Job.status j)) js)
   + length (List.filter (fun j => is_completed (Job.status j)) js)
   <= length js)%nat.
Proof.
  induction js as [|j js IH]; [reflexivity|].
  cbn [List.filter]. destruct (Job.status j); cbn; lia.
Qed.

Lemma metric_jobs_length db job_id :
  (length (metric_jobs db job_id) <= length (jobs db))%nat.
Proof.
  unfold metric_jobs. destruct job_id as [[|n]|]; try reflexivity.
  apply List.filter_length_le.
Qed.

(** X7.  The aggregated dashboard metrics: [pending_invoices] is never
    negative, and the counts of active and completed jobs never exceed the
    number of jobs.  A job id of 0 selects all jobs, as no id does, and the
    id of a job that does not exist gives the all-zero metrics. *)
Theorem dashboard_metrics_bounds db job_id :
  (let m := get_dashboard_metrics db job_id in
   (0 <= pending_invoices m)%Q /\
   (active_jobs_count m + completed_jobs_count m <= length (jobs db))%nat) /\
  get_dashboard_metrics db (Some 0%nat) = get_dashboard_metrics db None /\
  (forall n, get_job_by_id db (S n) = None ->
     get_dashboard_metrics db (Some (S n))
     = {| total_contract_value := 0; total_invoiced := 0; total_costs := 0;
          projected_margin := 0; pending_invoices := 0; unpaid_invoices := 0;
          active_jobs_count := 0; completed_jobs_count := 0 |}).
Proof.
  split; [|split; [reflexivity|]].
  - cbv zeta. unfold get_dashboard_metrics.
    pose proof (metric_jobs_length db job_id) as Hlen.
    destruct (metric_jobs db job_id) as [|j js].
    + cbn. split; [apply Qle_refl|lia].
    + set (l := j :: js) in *.
      cbn [pending_invoices active_jobs_count completed_jobs_count].
      split; [apply Qmax0_nonneg|].
      pose proof (status_counts l). lia.
  - intros n Hn. unfold get_dashboard_metrics, metric_jobs.
    replace (List.filter (fun j => Nat.eqb (Job.id j) (S n)) (jobs db)) with (@nil Job.t);
      [reflexivity|].
    symmetry. apply find_none_filter. exact Hn.
Qed.

End CrudMetricFacts.
(** ** Summaries, search and bulk inserts (crud.py) *)

Section CrudListFacts.
Import Models Crud CrudOps.

Lemma firstn_incl {A} n (l : list A) x : In x (firstn n l) -> In x l.
Proof.
  revert n. induction l as [|y l IH]; intros [|n]; cbn; try contradiction.
  intros [->|H]; [now left|right; eauto].
Qed.

Lemma summary_of_all db js :
  (forall j, In j js -> In j (jobs db)) ->
  List.map JobSummary.id (summary_of db js) = List.map Job.id js /\
  List.map JobSummary.job_code (summary_of db js) = List.map Job.job_code js.
Proof.
  induction js as [|j js IH]; intros Hin; [split; reflexivity|].
  cbn [summary_of]. unfold get_job_detail_metrics.
  destruct (find_some_exists (fun x => Nat.eqb (Job.id x) (Job.id j)) (jobs db) j)
    as [x Hx]; [apply Hin; now left|apply Nat.eqb_refl|].
  unfold get_job_by_id. rewrite Hx. cbn [List.map JobSummary.id JobSummary.job_code].
  destruct IH as [IH1 IH2]; [intros y Hy; apply Hin; now right|].
  now rewrite IH1, IH2.
Qed.

(** X8.  [get_jobs_summary] has one entry for each of the first 100 jobs,
    in their order, and none for a job beyond them; each entry carries the
    id and the code of its job. *)
Theorem jobs_summary_lists_first_hundred db :
  List.map JobSummary.id (get_jobs_summary db) = List.map Job.id (firstn 100 (jobs db)) /\
  List.map JobSummary.job_code (get_jobs_summary db)
  = List.map Job.job_code (firstn 100 (jobs db)) /\
  (length (get_jobs_summary db) <= 100)%nat /\
  (length (jobs db) <= 100 -> length (get_jobs_summary db) = length (jobs db))%nat.
Proof.
  unfold get_jobs_summary, get_all_jobs.
  destruct (summary_of_all db (firstn 100 (jobs db))) as [H1 H2];
    [intros j; apply firstn_incl|].
  split; [exact H1|]. split; [exact H2|].
  rewrite <- (List.length_map JobSummary.id), H1, List.length_map.
  split; [apply List.firstn_le_length|].
  intros Hlen. now rewrite firstn_all2.
Qed.

(** *** Search *)

Lemma lower_char_wild c :
  (Ascii.eqb (Str.lower_char c) "%" = Ascii.eqb c "%") /\
  (Ascii.eqb (Str.lower_char c) "_" = Ascii.eqb c "_").
Proof.
  destruct c as [[] [] [] [] [] [] [] []]; split; reflexivity.
Qed.

Lemma lower_char_idem c : Str.lower_char (Str.lower_char c) = Str.lower_char c.
Proof.
  destruct c as [[] [] [] [] [] [] [] []]; reflexivity.
Qed.

(** [LIKE] without regard to case reads its pattern in lower case. *)
Lemma like_nocase_lower p s :
  Sql.like Sql.NoCase (Str.lower p) s = Sql.like Sql.NoCase p s.
Proof.
  revert s. induction p as [|c p IH]; intros s; [reflexivity|].
  change (Str.lower (String c p)) with (String (Str.lower_char c) (Str.lower p)).
  cbn [Sql.like]. destruct (lower_char_wild c) as [-> ->].
  destruct (Ascii.eqb c "%").
  - induction s as [|d s IHs]; cbn; rewrite IH; [reflexivity|].
    now rewrite IHs.
  - destruct (Ascii.eqb c "_").
    + destruct s as [|d s]; [reflexivity|apply IH].
    + destruct s as [|d s]; [reflexivity|].
      unfold Sql.char_eq. now rewrite lower_char_idem, IH.
Qed.

Lemma lower_app a b : Str.lower (a ++ b) = Str.lower a ++ Str.lower b.
Proof.
  induction a as [|c a IH]; [reflexivity|].
  rewrite append_cons. unfold Str.lower in *. cbn [Str.map].
  now rewrite IH, append_cons.
Qed.

Lemma ilike_contains_part a x b query :
  Str.lower query = Str.lower x ->
  ilike_contains (a ++ x ++ b) query = true.
Proof.
  intros Hq. unfold ilike_contains.
  rewrite <- like_nocase_lower, !lower_app, Hq, <- !lower_app, like_nocase_lower.
  apply (sql_contains_self Sql.NoCase a x b).
Qed.

(** X9.  [search_jobs] finds a job by any part of its code, of its name or
    of its client's name, whatever the case of the letters in the query;
    the empty query finds every job; and whatever is found is a job of the
    table, listed once and in the table's order. *)
Theorem search_jobs_finds_by_part db :
  (forall j a x b query,
     In j (jobs db) ->
     Job.job_code j = a ++ x ++ b \/ Job.job_name j = a ++ x ++ b
     \/ Job.client j = a ++ x ++ b ->
     Str.lower query = Str.lower x ->
     In j (search_jobs db query)) /\
  search_jobs db "" = jobs db /\
  (forall query, exists keep,
     search_jobs db query = List.filter keep (jobs db)).
Proof.
  split; [|split].
  - intros j a x b query Hj Hpart Hq. unfold search_jobs.
    apply filter_In. split; [exact Hj|].
    destruct Hpart as [ -> | [ -> | -> ] ].
    + now rewrite ilike_contains_part.
    + rewrite (ilike_contains_part a x b query Hq). now rewrite orb_true_r.
    + rewrite (ilike_contains_part a x b query Hq). now rewrite !orb_true_r.
  - unfold search_jobs. induction (jobs db) as [|j l IH]; [reflexivity|].
    cbn [List.filter]. rewrite IH.
    replace (ilike_contains (Job.job_code j) "") with true; [reflexivity|].
    symmetry. apply (ilike_contains_part "" "" (Job.job_code j) "" eq_refl).
  - intros query. eexists. reflexivity.
Qed.

End CrudListFacts.
(** ** Bulk inserts and variations (crud.py) *)

Section CrudInsertFacts.
Import Models Crud CrudOps CrudOpsSpec.

Lemma create_expense_run db expense e db' :
  create_expense db expense = (e, db') ->
  expenses db' = app (expenses db) [e] /\
  expense_fields e = request_fields expense /\
  (forall x, In x (expenses db) -> Expense.id x <> Expense.id e) /\
  jobs db' = jobs db /\ invoices db' = invoices db /\ variations db' = variations db /\
  budgets db' = budgets db /\ alerts db' = alerts db.
Proof.
  unfold create_expense. intros [= <- <-]. cbn. repeat split.
  intros x Hx. pose proof (fresh_id_above (List.map Expense.id (expenses db)) (Expense.id x)
                             (in_map Expense.id _ _ Hx)). lia.
Qed.

(** X10.  [bulk_create_expenses] appends one row per request, in order,
    with the request's job, category, description and amount; the new ids
    differ from one another and from every id already in the table; the
    other tables are untouched. *)
Theorem bulk_create_expenses_appends requests :
  forall db created db',
    bulk_create_expenses db requests = (created, db') ->
    expenses db' = app (expenses db) created /\
    List.map expense_fields created = List.map request_fields requests /\
    List.NoDup (List.map Expense.id created) /\
    (forall e x, In e created -> In x (expenses db) -> Expense.id x <> Expense.id e) /\
    jobs db' = jobs db /\ invoices db' = invoices db /\ variations db' = variations db /\
    budgets db' = budgets db /\ alerts db' = alerts db.
Proof.
  induction requests as [|r requests IH]; intros db created db'.
  - cbn. intros [= <- <-]. rewrite List.app_nil_r.
    repeat split; try constructor; try contradiction.
  - cbn [bulk_create_expenses].
    destruct (create_expense db r) as [e db1] eqn:He.
    destruct (bulk_create_expenses db1 requests) as [es db2] eqn:Hes.
    intros [= <- <-].
    apply create_expense_run in He as (He & Hf & Hnew & Hj & Hi & Hv & Hb & Ha).
    apply IH in Hes as (Hes & Hfs & Hnd & Hfresh & Hj2 & Hi2 & Hv2 & Hb2 & Ha2).
    assert (Hall : expenses db2 = app (expenses db) (e :: es)).
    { rewrite Hes, He, <- List.app_assoc. reflexivity. }
    split; [exact Hall|]. split; [cbn [List.map]; now rewrite Hf, Hfs|].
    split; [|split].
    + cbn [List.map]. constructor; [|exact Hnd].
      intros Hin. apply in_map_iff in Hin as (x & Hx & Hin).
      apply (Hfresh x e Hin); [rewrite He; apply in_or_app; right; now left|].
      now symmetry.
    + intros x y [<-|Hx] Hy; [now apply Hnew|].
      apply (Hfresh x y Hx). rewrite He. apply in_or_app. now left.
    + repeat split; congruence.
Qed.

Lemma bulk_create_expenses_appends_witness :
  exists created db',
    bulk_create_expenses CrudExamples.db0 CrudOpsExamples.new_expenses = (created, db') /\
    List.map Expense.id created = [4; 5]%nat /\
    expenses db' = app (expenses CrudExamples.db0) created.
Proof.
  eexists _, _. split; [reflexivity|]. split; [reflexivity|].
  apply (bulk_create_expenses_appends CrudOpsExamples.new_expenses CrudExamples.db0
           _ _ eq_refl).
Defined.

Lemma map_if_absent {A} (key : A -> nat) (g : A -> A) (k : nat) l :
  ~ In k (List.map key l) ->
  List.map (fun x => if Nat.eqb (key x) k then g x else x) l = l.
Proof.
  induction l as [|x l IH]; intros H; [reflexivity|]. cbn [List.map] in *.
  destruct (Nat.eqb (key x) k) eqn:E.
  - apply Nat.eqb_eq in E. exfalso. apply H. now left.
  - rewrite IH; [reflexivity|]. intros Hin. apply H. now right.
Qed.

(** X11.  [update_variation] answers [None] and changes nothing when the
    variation does not exist.  Otherwise, the ids of the variations being
    distinct, it overwrites the fields the request sets on that variation
    and on nothing else: the variation keeps its id and its job, the job
    still has metrics with the same costs, and the variations and the
    metrics of every other job are as before. *)
Theorem update_variation_touches_one_job db variation_id u :
  (find (fun v => Nat.eqb (Variation.id v) variation_id) (variations db) = None ->
   update_variation db variation_id u = (None, db)) /\
  (forall old m,
     List.NoDup (List.map Variation.id (variations db)) ->
     find (fun v => Nat.eqb (Variation.id v) variation_id) (variations db) = Some old ->
     get_job_detail_metrics db (Variation.job_id old) = Some m ->
     exists new db' m',
       update_variation db variation_id u = (Some new, db') /\
       Variation.id new = variation_id /\ Variation.job_id new = Variation.job_id old /\
       (VariationUpdate.status u = None -> Variation.status new = Variation.status old) /\
       (forall s, VariationUpdate.status u = Some s -> Variation.status new = s) /\
       (VariationUpdate.amount u = None -> Variation.amount new = Variation.amount old) /\
       (forall a, VariationUpdate.amount u = Some a -> Variation.amount new = a) /\
       get_job_detail_metrics db' (Variation.job_id old) = Some m' /\
       JobDetail.total_costs m' = JobDetail.total_costs m /\
       (forall j, j <> Variation.job_id old ->
          get_variations_by_job db' j = get_variations_by_job db j /\
          get_job_detail_metrics db' j = get_job_detail_metrics db j)).
Proof.
  unfold update_variation. split; [now intros ->|].
  intros old m Hnd Hold Hm. rewrite Hold.
  pose proof (find_some _ _ Hold) as [Hin Hid]. apply Nat.eqb_eq in Hid.
  set (db' := {| jobs := jobs db |}).
  assert (Hother : forall j, j <> Variation.job_id old ->
            get_variations_by_job db' j = get_variations_by_job db j).
  { intros j Hj. unfold get_variations_by_job. cbn [variations db'].
    rewrite (filter_map_if Variation.id (set_variation u)) by reflexivity.
    apply map_if_absent. intros Hk. apply in_map_iff in Hk as (x & Hx & Hxin).
    apply filter_In in Hxin as [Hxin Hxj]. apply Nat.eqb_eq in Hxj.
    assert (x = old); [|congruence].
    clear -Hnd Hin Hxin Hx Hid. subst variation_id.
    induction (variations db) as [|y l IH]; [contradiction|].
    cbn [List.map] in Hnd. inversion Hnd as [|? ? Hy Hnd']; subst.
    destruct Hin as [->|Hin], Hxin as [->|Hxin]; try reflexivity.
    - exfalso. apply Hy. rewrite <- Hx. now apply in_map.
    - exfalso. apply Hy. rewrite Hx. now apply in_map.
    - now apply IH. }
  unfold get_job_detail_metrics in Hm.
  destruct (get_job_by_id db (Variation.job_id old)) as [job|] eqn:Hjob; [|discriminate].
  injection Hm as <-.
  eexists _, db', _. split; [reflexivity|].
  cbn [set_variation Variation.id Variation.job_id Variation.status Variation.amount].
  split; [exact Hid|]. split; [reflexivity|].
  split; [now intros ->|]. split; [now intros s ->|]. split; [now intros ->|].
  split; [now intros a ->|].
  split.
  { unfold get_job_detail_metrics. change (get_job_by_id db' (Variation.job_id old))
      with (get_job_by_id db (Variation.job_id old)). rewrite Hjob. reflexivity. }
  cbn [JobDetail.total_costs].
  split; [reflexivity|].
  intros j Hj. split; [now apply Hother|].
  now apply (job_queries_agree db db' j eq_refl eq_refl eq_refl (Hother j Hj) eq_refl).
Qed.

End CrudInsertFacts.
(** ** Invoice alerts and acknowledged alerts (crud.py) *)

Section AlertFacts.
Import Models Crud CrudSpec.

Lemma invoice_message_mentions coll utcnow invoice :
  Sql.contains coll (invoice_message utcnow invoice) (Invoice.invoice_number invoice) = true.
Proof. unfold invoice_message. apply (sql_contains_self coll "Invoice "). Qed.

(** After the loop every invoice it went through has a live alert that
    the query finds. *)
Lemma invoice_loop_covers coll utcnow overdue :
  forall db created created' db',
    invoice_alert_loop coll utcnow overdue db created = (created', db') ->
    forall invoice, In invoice overdue ->
      existing_alert coll db' (Invoice.job_id invoice) "overdue_invoice"
        (Invoice.invoice_number invoice) <> None.
Proof.
  induction overdue as [|i rest IH]; intros db created created' db' Hrun i' Hin;
    [contradiction|].
  cbn [invoice_alert_loop] in Hrun.
  destruct (existing_alert coll db (Invoice.job_id i) "overdue_invoice"
              (Invoice.invoice_number i)) as [a0|] eqn:Hex.
  - destruct Hin as [<-|Hin]; [|eapply IH; eauto].
    destruct (invoice_loop_run _ _ _ _ _ _ _ Hrun) as (_ & new & Hal & _).
    rewrite (existing_alert_mono _ _ _ _ _ _ _ _ Hal Hex). discriminate.
  - destruct (create_alert db (Invoice.job_id i) "overdue_invoice"
                (invoice_message utcnow i) (invoice_severity utcnow i))
      as [alert db1] eqn:Hcreate.
    destruct Hin as [<-|Hin]; [|eapply IH; eauto].
    destruct (create_alert_run _ _ _ _ _ _ _ Hcreate)
      as (_ & Hal1 & Hj & Ht & Hm & _ & Hack).
    destruct (invoice_loop_run _ _ _ _ _ _ _ Hrun) as (_ & new & Hal & _).
    assert (Hfound : exists a, existing_alert coll db1 (Invoice.job_id i)
                                 "overdue_invoice" (Invoice.invoice_number i) = Some a).
    { unfold existing_alert. rewrite Hal1. apply find_app_last.
      unfold alert_filter. rewrite Hj, Ht, Hm, Hack, Nat.eqb_refl.
      now rewrite invoice_message_mentions. }
    destruct Hfound as [a Ha].
    rewrite (existing_alert_mono _ _ _ _ _ _ _ _ Hal Ha). discriminate.
Qed.

Lemma invoice_loop_noop coll utcnow overdue db created :
  (forall invoice, In invoice overdue ->
     existing_alert coll db (Invoice.job_id invoice) "overdue_invoice"
       (Invoice.invoice_number invoice) <> None) ->
  invoice_alert_loop coll utcnow overdue db created = (created, db).
Proof.
  induction overdue as [|i rest IH]; intros H; [reflexivity|].
  cbn [invoice_alert_loop].
  destruct (existing_alert coll db (Invoice.job_id i) "overdue_invoice"
              (Invoice.invoice_number i)) eqn:Hex.
  - apply IH. intros i' Hin. apply H. now right.
  - exfalso. apply (H i); [now left|exact Hex].
Qed.

(** X12.  [check_and_create_invoice_alerts] raises alerts only for unpaid
    invoices that are past their due date, with a number of days overdue
    that is not negative; afterwards every overdue invoice has a live
    alert of its job whose message matches its number, so that a second
    check at the same time creates nothing and leaves the database as it
    is. *)
Theorem invoice_alerts_are_not_repeated coll utcnow db job_id created db1 :
  check_and_create_invoice_alerts coll utcnow db job_id = (created, db1) ->
  check_and_create_invoice_alerts coll utcnow db1 job_id = ([], db1) /\
  alerts db1 = app (alerts db) created /\
  (forall a, In a created ->
     exists invoice,
       In invoice (invoices db) /\ Invoice.is_paid invoice = false /\
       (Invoice.due_date invoice < utcnow)%Z /\
       (0 <= days_overdue utcnow invoice)%Z /\
       invoice_alert_of utcnow invoice a) /\
  (forall invoice, In invoice (get_overdue_invoices db job_id utcnow) ->
     exists a, In a (alerts db1) /\
       alert_filter coll (Invoice.job_id invoice) "overdue_invoice"
         (Invoice.invoice_number invoice) a = true).
Proof.
  unfold check_and_create_invoice_alerts. intros Hrun.
  pose proof (invoice_loop_run _ _ _ _ _ _ _ Hrun) as (Hsame & new & Hal & Hc & Hnew).
  cbn [app] in Hc. subst new.
  pose proof (invoice_loop_covers _ _ _ _ _ _ _ Hrun) as Hcov.
  assert (Hsame' : get_overdue_invoices db1 job_id utcnow
                   = get_overdue_invoices db job_id utcnow).
  { unfold get_overdue_invoices. destruct Hsame as (_ & _ & -> & _). reflexivity. }
  split; [|split; [exact Hal|split]].
  - rewrite Hsame'. now apply invoice_loop_noop.
  - intros a Ha. apply Hnew in Ha as (invoice & Hin & Halert).
    exists invoice. unfold get_overdue_invoices in Hin.
    apply filter_In in Hin as [Hin Hf].
    apply andb_true_iff in Hf as [Hf _]. apply andb_true_iff in Hf as [Hpaid Hdue].
    apply negb_true_iff in Hpaid. apply Z.ltb_lt in Hdue.
    repeat split; try assumption; try apply Halert.
    unfold days_overdue, days_between. apply Z.div_pos; lia.
  - intros invoice Hin. specialize (Hcov invoice Hin).
    unfold existing_alert in Hcov.
    destruct (find _ (alerts db1)) as [a|] eqn:Hfind; [|contradiction].
    apply find_some in Hfind. now exists a.
Qed.

Lemma invoice_alerts_are_not_repeated_witness :
  exists created db1,
    check_and_create_invoice_alerts Sql.NoCase CrudExamples.utcnow CrudExamples.db0
      (Some 1%nat) = (created, db1) /\
    length created = 2%nat /\
    check_and_create_invoice_alerts Sql.NoCase CrudExamples.utcnow db1 (Some 1%nat)
    = ([], db1).
Proof.
  eexists _, _. split; [reflexivity|]. split; [reflexivity|].
  apply (invoice_alerts_are_not_repeated Sql.NoCase CrudExamples.utcnow CrudExamples.db0
           (Some 1%nat) _ _ eq_refl).
Defined.

(** An invoice whose number is part of the message raised for another
    invoice of the job gets no alert of its own: here invoice "1" after
    invoice "10". *)
Example invoice_number_inside_another :
  List.map Alert.message
    (check_and_create_invoice_alerts Sql.NoCase CrudExamples.utcnow
       {| jobs := []; expenses := [];
          invoices :=
            [{| Invoice.id := 1; Invoice.job_id := 1; Invoice.invoice_number := "10";
                Invoice.amount := 250; Invoice.due_date := 0; Invoice.is_paid := false |};
             {| Invoice.id := 2; Invoice.job_id := 1; Invoice.invoice_number := "1";
                Invoice.amount := 90; Invoice.due_date := 0; Invoice.is_paid := false |}];
          variations := []; budgets := []; alerts := [] |} None).1
  = ["Invoice 10 is 20000 days overdue (£250.00)"].
Proof. vm_compute. reflexivity. Qed.

(** *** Acknowledged alerts *)

(** The alerts the budget loop creates carry ids that differ from one
    another and from every id in the table before. *)
Lemma budget_loop_ids coll job_id overruns :
  forall db created created' db',
    budget_alert_loop coll job_id overruns db created = (created', db') ->
    exists new,
      created' = app created new /\ alerts db' = app (alerts db) new /\
      List.NoDup (List.map Alert.id new) /\
      forall n x, In n new -> In x (alerts db) -> Alert.id x <> Alert.id n.
Proof.
  induction overruns as [|o rest IH]; intros db created created' db' Hrun.
  - injection Hrun as <- <-. exists []. rewrite !List.app_nil_r.
    repeat split; [constructor|contradiction].
  - cbn [budget_alert_loop] in Hrun.
    destruct (existing_alert coll db job_id "budget_overrun" (category o)); [eauto|].
    unfold create_alert in Hrun.
    apply IH in Hrun as (new & -> & Hal & Hnd & Hfresh). cbn [alerts] in Hal, Hfresh.
    eexists (_ :: new). rewrite <- !List.app_assoc in *. cbn [app] in *.
    split; [reflexivity|]. split; [exact Hal|]. split.
    + cbn [List.map]. constructor; [|exact Hnd].
      intros Hin. apply in_map_iff in Hin as (n & Hn & Hin).
      refine (Hfresh n _ Hin _ (eq_sym Hn)).
      apply in_or_app. right. now left.
    + intros n x [<-|Hn] Hx.
      * cbn [Alert.id].
        pose proof (fresh_id_above (List.map Alert.id (alerts db)) (Alert.id x)
                      (in_map Alert.id _ _ Hx)). lia.
      * apply (Hfresh n x Hn). apply in_or_app. now left.
Qed.

Lemma nodup_map_inj {A} (f : A -> nat) l x y :
  List.NoDup (List.map f l) -> In x l -> In y l -> f x = f y -> x = y.
Proof.
  induction l as [|z l IH]; [contradiction|]. cbn [List.map].
  intros Hnd Hx Hy Hf. inversion Hnd as [|? ? Hz Hnd']; subst.
  destruct Hx as [->|Hx], Hy as [->|Hy]; auto.
  - exfalso. apply Hz. rewrite Hf. now apply in_map.
  - exfalso. apply Hz. rewrite <- Hf. now apply in_map.
Qed.

(** Acknowledging the alert of id [k] takes the live alerts of that id
    out of the count and leaves the others in. *)
Lemma live_about_acknowledged db k job_id subject :
  live_about job_id subject (alerts (acknowledge_alert db k))
  = List.filter (fun x => negb (Nat.eqb (Alert.id x) k))
      (live_about job_id subject (alerts db)).
Proof.
  unfold acknowledge_alert, live_about. cbn [alerts].
  induction (alerts db) as [|x l IH]; [reflexivity|]. cbn [List.map List.filter].
  destruct (Nat.eqb (Alert.id x) k) eqn:E.
  - unfold live_budget_alert at 1. cbn [Alert.is_acknowledged negb].
    rewrite andb_false_r. cbn [andb].
    destruct (live_budget_alert job_id x && Str.contains (Alert.message x) subject);
      cbn [List.filter]; rewrite ?E; exact IH.
  - destruct (live_budget_alert job_id x && Str.contains (Alert.message x) subject);
      cbn [List.filter]; rewrite ?E; cbn [negb]; now rewrite IH.
Qed.

Lemma all_made_acknowledged db k job_id :
  all_made job_id (alerts db) -> all_made job_id (alerts (acknowledge_alert db k)).
Proof.
  intros Hmade a Ha Hlive. unfold acknowledge_alert in Ha. cbn [alerts] in Ha.
  apply in_map_iff in Ha as (x & Hx & Hin).
  destruct (Nat.eqb (Alert.id x) k).
  - subst a. unfold live_budget_alert in Hlive. cbn [Alert.is_acknowledged negb] in Hlive.
    rewrite andb_false_r in Hlive. discriminate.
  - subst a. now apply Hmade.
Qed.

Lemma acknowledge_same_tables db k : same_tables db (acknowledge_alert db k).
Proof. repeat split. Qed.

Lemma filter_all {A} (f : A -> bool) l :
  (forall x, In x l -> f x = true) -> List.filter f l = l.
Proof.
  induction l as [|x l IH]; intros H; [reflexivity|]. cbn [List.filter].
  rewrite (H x) by now left. rewrite IH; [reflexivity|].
  intros y Hy. apply H. now right.
Qed.

(** X13.  Acknowledging an alert that a budget check has just raised opens
    its category again: starting from a job without unacknowledged
    budget_overrun alerts, after the check and the acknowledgement of one
    of the alerts it created, the next check creates exactly one alert,
    with a new id, for an overrun of the same category. *)
Theorem acknowledged_overrun_is_raised_again coll db job_id created db1 a :
  (forall x, In x (alerts db) -> live_budget_alert job_id x = false) ->
  check_and_create_budget_alerts coll db job_id = Ok (created, db1) ->
  In a created ->
  exists overruns o o' a' db2,
    check_budget_overruns db job_id = Ok overruns /\
    In o overruns /\ budget_alert_of job_id o a /\
    check_and_create_budget_alerts coll (acknowledge_alert db1 (Alert.id a)) job_id
    = Ok ([a'], db2) /\
    In o' overruns /\ category o' = category o /\ budget_alert_of job_id o' a' /\
    Alert.id a' <> Alert.id a.
Proof.
  intros Hfresh Hrun Ha. unfold check_and_create_budget_alerts in *.
  destruct (check_budget_overruns db job_id) as [overruns|e] eqn:Hover;
    cbn in Hrun; [|discriminate].
  injection Hrun as Hrun.
  assert (Hcats : forall o, In o overruns ->
            exists X, category o = ExpenseCategory_value X).
  { intros o' Ho'.
    destruct (overruns_of_sound _ _ _ _ Hover o' Ho') as (b & _ & Hc & _).
    now exists (Budget.category b). }
  assert (Hmade : all_made job_id (alerts db)).
  { intros x Hx Hl. rewrite (Hfresh x Hx) in Hl. discriminate. }
  assert (Hnone : forall Y, live_about job_id (ExpenseCategory_value Y) (alerts db) = []).
  { intros Y. unfold live_about. rewrite (filter_ext_in _ (fun _ => false)).
    - clear. induction (alerts db); cbn; [reflexivity|assumption].
    - intros x Hx. now rewrite (Hfresh x Hx). }
  assert (Hle0 : forall Y,
            (length (live_about job_id (ExpenseCategory_value Y) (alerts db)) <= 1)%nat).
  { intros Y. rewrite Hnone. cbn. lia. }
  destruct (budget_loop_counts _ _ _ _ _ _ _ Hcats Hmade Hle0 Hrun)
    as (Hmade1 & Hle1 & _ & Hge1).
  destruct (budget_loop_run _ _ _ _ _ _ _ Hrun) as (Hsame & new & Hal & Hc & Hnew).
  cbn [app] in Hc. subst new.
  destruct (budget_loop_ids _ _ _ _ _ _ _ Hrun) as (new & Hc & Hal' & Hnd & _).
  cbn [app] in Hc. subst new.
  destruct (Hnew a Ha) as (o & Ho & Halert).
  destruct (Hcats o Ho) as [X HX].
  pose proof Halert as (Hj & Ht & Hm & _ & Hack).
  assert (Hlive : live_budget_alert job_id a = true).
  { unfold live_budget_alert. now rewrite Hj, Ht, Hack, Nat.eqb_refl. }
  (* the live alerts of the job are among the created ones *)
  assert (Hlive_created : forall Y x,
            In x (live_about job_id (ExpenseCategory_value Y) (alerts db1)) ->
            In x created).
  { intros Y x Hx. unfold live_about in Hx. rewrite Hal, List.filter_app in Hx.
    apply in_app_or in Hx as [Hx|Hx].
    - fold (live_about job_id (ExpenseCategory_value Y) (alerts db)) in Hx.
      rewrite Hnone in Hx. contradiction.
    - now apply filter_In in Hx. }
  set (db1' := acknowledge_alert db1 (Alert.id a)).
  (* counts after the acknowledgement *)
  assert (Hcount : forall Y,
            length (live_about job_id (ExpenseCategory_value Y) (alerts db1'))
            = if ExpenseCategory_eqb X Y then 0%nat
              else length (live_about job_id (ExpenseCategory_value Y) (alerts db1))).
  { intros Y. unfold db1'. rewrite live_about_acknowledged.
    destruct (ExpenseCategory_eqb X Y) eqn:E.
    - apply category_eqb_eq in E as <-.
      assert (Hin : In a (live_about job_id (ExpenseCategory_value X) (alerts db1))).
      { unfold live_about. apply filter_In. split.
        - rewrite Hal. apply in_or_app. now right.
        - rewrite Hlive, Hm, (budget_message_mentions o X X HX), category_eqb_refl.
          reflexivity. }
      specialize (Hle1 X).
      destruct (live_about job_id (ExpenseCategory_value X) (alerts db1)) as [|x [|y l]];
        [contradiction| |cbn in Hle1; lia].
      destruct Hin as [->|[]]. cbn. now rewrite Nat.eqb_refl.
    - f_equal. apply filter_all. intros x Hx. apply negb_true_iff, Nat.eqb_neq.
      intros Hid.
      assert (x = a) as ->.
      { apply (nodup_map_inj Alert.id created); auto. now apply (Hlive_created Y). }
      unfold live_about in Hx. apply filter_In in Hx as [_ Hx].
      rewrite Hlive, Hm, (budget_message_mentions o X Y HX), E in Hx. discriminate. }
  assert (Hmade1' : all_made job_id (alerts db1'))
    by now apply all_made_acknowledged.
  assert (Hle1' : forall Y,
            (length (live_about job_id (ExpenseCategory_value Y) (alerts db1')) <= 1)%nat).
  { intros Y. rewrite Hcount. destruct (ExpenseCategory_eqb X Y); [lia|apply Hle1]. }
  (* the second check *)
  assert (Hover' : check_budget_overruns db1' job_id = Ok overruns).
  { rewrite (check_budget_overruns_same_tables db1 db1' job_id
               (acknowledge_same_tables db1 (Alert.id a))).
    now rewrite (check_budget_overruns_same_tables _ _ _ Hsame). }
  rewrite Hover'. cbn.
  destruct (budget_alert_loop coll job_id overruns db1' []) as [created2 db2] eqn:Hrun2.
  destruct (budget_loop_counts _ _ _ _ _ _ _ Hcats Hmade1' Hle1' Hrun2)
    as (_ & Hle2 & _ & Hge2).
  destruct (budget_loop_run _ _ _ _ _ _ _ Hrun2) as (_ & new & Hal2 & Hc2 & Hnew2).
  cbn [app] in Hc2. subst new.
  destruct (budget_loop_ids _ _ _ _ _ _ _ Hrun2) as (new & Hc2 & _ & _ & Hfresh2).
  cbn [app] in Hc2. subst new.
  assert (Hsplit : forall Y,
            length (live_about job_id (ExpenseCategory_value Y) (alerts db2))
            = (length (live_about job_id (ExpenseCategory_value Y) (alerts db1'))
               + length (live_about job_id (ExpenseCategory_value Y) created2))%nat).
  { intros Y. unfold live_about. now rewrite Hal2, List.filter_app, List.length_app. }
  (* every alert of the second check is about the category of [a] *)
  assert (Hall : forall n, In n created2 ->
            live_budget_alert job_id n
            && Str.contains (Alert.message n) (ExpenseCategory_value X) = true).
  { intros n Hn. destruct (Hnew2 n Hn) as (on & Hon & Hj' & Ht' & Hm' & _ & Hack').
    destruct (Hcats on Hon) as [Xn HXn].
    assert (Hln : live_budget_alert job_id n = true).
    { unfold live_budget_alert. now rewrite Hj', Ht', Hack', Nat.eqb_refl. }
    rewrite Hln, Hm', (budget_message_mentions on Xn X HXn). cbn [andb].
    destruct (ExpenseCategory_eqb Xn X) eqn:E; [reflexivity|exfalso].
    assert (Hin : In n (live_about job_id (ExpenseCategory_value Xn) created2)).
    { unfold live_about. apply filter_In. split; [exact Hn|].
      now rewrite Hln, Hm', (budget_message_mentions on Xn Xn HXn), category_eqb_refl. }
    specialize (Hle2 Xn). rewrite Hsplit, Hcount in Hle2.
    replace (ExpenseCategory_eqb X Xn) with false in Hle2.
    2:{ symmetry. destruct (ExpenseCategory_eqb X Xn) eqn:E'; [|reflexivity].
        apply category_eqb_eq in E' as ->. now rewrite category_eqb_refl in E. }
    specialize (Hge1 on Hon). rewrite HXn in Hge1.
    destruct (live_about job_id (ExpenseCategory_value Xn) created2); [contradiction|].
    cbn [length] in Hle2. lia. }
  assert (Hone : length created2 = 1%nat).
  { specialize (Hle2 X). specialize (Hge2 o Ho). rewrite HX in Hge2.
    rewrite Hsplit, Hcount, category_eqb_refl in Hle2, Hge2.
    unfold live_about in Hle2, Hge2. rewrite (filter_all _ created2 Hall) in Hle2, Hge2.
    lia. }
  destruct created2 as [|a' [|? ?]]; try discriminate.
  destruct (Hnew2 a' (or_introl eq_refl)) as (o' & Ho' & Halert').
  exists overruns, o, o', a', db2.
  split; [reflexivity|]. split; [exact Ho|]. split; [exact Halert|].
  split; [reflexivity|]. split; [exact Ho'|]. split; [|split; [exact Halert'|]].
  - destruct (Hcats o' Ho') as [X' HX'].
    pose proof (Hall a' (or_introl eq_refl)) as H.
    apply andb_true_iff in H as [_ H].
    destruct Halert' as (_ & _ & Hm' & _). rewrite Hm' in H.
    rewrite (budget_message_mentions o' X' X HX') in H.
    apply category_eqb_eq in H. congruence.
  - intros Hid. apply (Hfresh2 a' (if Nat.eqb (Alert.id a) (Alert.id a)
                                   then {| Alert.id := Alert.id a; Alert.job_id := Alert.job_id a;
                                           Alert.alert_type := Alert.alert_type a;
                                           Alert.message := Alert.message a;
                                           Alert.severity := Alert.severity a;
                                           Alert.is_acknowledged := true |}
                                   else a)); [now left| |].
    + unfold db1', acknowledge_alert. cbn [alerts].
      apply in_map_iff. exists a. split; [reflexivity|].
      rewrite Hal. apply in_or_app. now right.
    + rewrite Nat.eqb_refl. cbn [Alert.id]. now symmetry.
Qed.

Lemma acknowledged_overrun_is_raised_again_witness :
  exists overruns o o' a' db2,
    check_budget_overruns CrudExamples.db0 1 = Ok overruns /\
    In o overruns /\ budget_alert_of 1 o AlertExamples.material_alert /\
    check_and_create_budget_alerts Sql.NoCase
      (acknowledge_alert CrudExamples.db1 (Alert.id AlertExamples.material_alert)) 1
    = Ok ([a'], db2) /\
    In o' overruns /\ category o' = category o /\ budget_alert_of 1 o' a' /\
    Alert.id a' <> Alert.id AlertExamples.material_alert.
Proof.
  apply (acknowledged_overrun_is_raised_again Sql.NoCase CrudExamples.db0 1
           CrudExamples.created0 CrudExamples.db1 AlertExamples.material_alert).
  - intros x [].
  - vm_compute. reflexivity.
  - left. vm_compute. reflexivity.
Defined.

End AlertFacts.
(** ** Template validation, the latest processed file and category costs
    (update_cvr.py) *)

Section CvrTemplateFacts.
Import Models UpdateCvr CvrBatch CvrDashboard.

Lemma col_index_from_none cells label idx :
  col_index_from cells label idx = None <-> in_headers cells label = false.
Proof.
  revert idx. induction cells as [|cell rest IH]; intros idx; [easy|].
  cbn [col_index_from in_headers existsb]. fold (in_headers rest label).
  specialize (IH (S idx)).
  destruct (col_index_from rest label (S idx)) as [i|].
  - split; [discriminate|]. intros H. apply orb_false_iff in H as [_ H].
    apply IH in H. discriminate.
  - replace (in_headers rest label) with false by (symmetry; now apply IH).
    rewrite orb_false_r.
    destruct cell as [|q|s]; try easy.
    now destruct (String.eqb s label).
Qed.

Lemma col_index_from_some cells label idx i :
  col_index_from cells label idx = Some i ->
  (idx < i)%nat /\ cells !! (i - 1 - idx)%nat = Some (PyStr label).
Proof.
  revert idx. induction cells as [|cell rest IH]; intros idx; [discriminate|].
  cbn [col_index_from].
  destruct (col_index_from rest label (S idx)) as [k|] eqn:E.
  - intros [= ->]. destruct (IH _ E) as [Hlt Hk]. split; [lia|].
    replace (i - 1 - idx)%nat with (S (i - 1 - S idx)) by lia. exact Hk.
  - destruct cell as [|q|s]; try discriminate.
    destruct (String.eqb s label) eqn:Es; [|discriminate].
    intros [= <-]. apply String.eqb_eq in Es as ->. split; [lia|].
    now replace (S idx - 1 - idx)%nat with 0%nat by lia.
Qed.

(** X14.  [validate_cvr_structure] and the batch pass agree on the
    headers: a required header is reported missing exactly when the pass
    fails to index its column with [KeyError], a header that is not
    reported is found in the first row at the index the pass uses, and the
    template is valid exactly when the pass can index all six columns. *)
Theorem validation_agrees_with_indexing sheet :
  (forall h, In h required_headers ->
     (In h (missing_headers (validate_cvr_structure sheet))
      <-> col_index sheet h = Raise (KeyError h)) /\
     (~ In h (missing_headers (validate_cvr_structure sheet)) ->
      exists i, col_index sheet h = Ok i /\ (1 <= i)%nat /\
                header sheet !! (i - 1)%nat = Some (PyStr h))) /\
  (valid (validate_cvr_structure sheet) = true
   <-> forall h, In h required_headers -> is_ok (col_index sheet h) = true) /\
  (forall h, In h (missing_headers (validate_cvr_structure sheet)) ->
     In h required_headers).
Proof.
  assert (Hmiss : forall h, In h required_headers ->
            (In h (missing_headers (validate_cvr_structure sheet))
             <-> col_index_from (header sheet) h 0 = None)).
  { intros h Hh. unfold validate_cvr_structure. cbn [missing_headers].
    rewrite filter_In, col_index_from_none, negb_true_iff. tauto. }
  split; [|split].
  - intros h Hh. specialize (Hmiss h Hh). unfold col_index. split.
    + rewrite Hmiss. destruct (col_index_from (header sheet) h 0); split;
        try discriminate; reflexivity.
    + intros Hnot. destruct (col_index_from (header sheet) h 0) as [i|] eqn:E.
      * exists i. split; [reflexivity|].
        destruct (col_index_from_some _ _ _ _ E) as [Hlt Hi]. split; [lia|].
        now rewrite Nat.sub_0_r in Hi.
      * exfalso. now apply Hnot, Hmiss.
  - unfold validate_cvr_structure in *. cbn [valid missing_headers] in *.
    remember (List.filter (fun h => negb (in_headers (header sheet) h)) required_headers)
      as miss eqn:Hdef.
    split.
    + intros Hv h Hh. unfold col_index.
      destruct (col_index_from (header sheet) h 0) eqn:E; [reflexivity|].
      apply (Hmiss h Hh) in E. destruct miss; [contradiction|discriminate].
    + intros Hall. destruct miss as [|h l]; [reflexivity|exfalso].
      assert (Hh : In h required_headers).
      { assert (Hin : In h (h :: l)) by now left.
        rewrite Hdef in Hin. now apply filter_In in Hin. }
      specialize (Hall h Hh). pose proof (proj1 (Hmiss h Hh) (or_introl eq_refl)) as Hin.
      unfold col_index in Hall. rewrite Hin in Hall. discriminate.
  - intros h Hin. unfold validate_cvr_structure in Hin. cbn [missing_headers] in Hin.
    now apply filter_In in Hin.
Qed.

(** *** The latest processed file *)

Lemma string_leb_antisym a b :
  String.leb a b = true -> String.leb b a = true -> a = b.
Proof.
  unfold String.leb. rewrite (String.compare_antisym b a).
  destruct (String.compare a b) eqn:E; cbn; try discriminate.
  intros _ _. now apply String.compare_eq_iff.
Qed.

Lemma last_of_nonempty l : l <> [] -> exists p, last_of l = Some p.
Proof.
  unfold last_of. induction l as [|x l IH]; [congruence|]. intros _.
  destruct l as [|y l]; [now exists x|]. cbn [List.map List.last] in *.
  apply IH. discriminate.
Qed.

Lemma sorted_nonempty l : l <> [] -> sorted l <> [].
Proof.
  intros H Hs. destruct l as [|x l]; [congruence|].
  assert (Hin : In x (sorted (x :: l))) by (apply sorted_in; now left).
  rewrite Hs in Hin. contradiction.
Qed.

Lemma substring_all s : String.substring 0 (String.length s) s = s.
Proof. induction s as [|c s IH]; [reflexivity|]. cbn. now rewrite IH. Qed.

Lemma contains_slash_app a b :
  Str.contains (a ++ b) "/" = Str.contains a "/" || Str.contains b "/".
Proof.
  unfold Str.contains. induction a as [|c a IH].
  - cbn [String.append]. destruct b; reflexivity.
  - rewrite append_cons. cbn [Str.contains_by Str.prefix_by]. rewrite IH.
    destruct (Ascii.eqb "/" c); cbn; [reflexivity|].
    destruct a; reflexivity.
Qed.

Lemma ends_with_app a b : ends_with b ".xlsx" = true -> ends_with (a ++ b) ".xlsx" = true.
Proof.
  intros H. induction a as [|c a IH]; [exact H|].
  rewrite append_cons. cbn [ends_with]. rewrite IH. apply orb_true_r.
Qed.

Lemma contains_slash_cons c s :
  Str.contains (String c s) "/" = Ascii.eqb "/" c || Str.contains s "/".
Proof.
  unfold Str.contains. cbn [Str.contains_by Str.prefix_by].
  destruct (Ascii.eqb "/" c); [reflexivity|]. now destruct s.
Qed.

Lemma processed_path_matches stamp :
  Str.contains stamp "/" = false ->
  in_dir_xlsx PROCESSED_CVR_DIR
    (PROCESSED_CVR_DIR ++ "/" ++ "cvr_processed_" ++ stamp ++ ".xlsx") = true.
Proof.
  intros Hs. unfold in_dir_xlsx, PROCESSED_CVR_DIR. simpl.
  rewrite !append_nil, substring_all, !contains_slash_cons, contains_slash_app, Hs.
  simpl. now apply (ends_with_app stamp ".xlsx").
Qed.

(** X15.  [download_latest_cvr] raises [FileNotFoundError] exactly when
    CVR_Processed holds no .xlsx file.  After a batch pass that succeeded
    it returns a file name, which is not before the one the pass wrote, and
    is that one whenever no processed file has a later name. *)
Theorem download_follows_processing db files template_path stamp out files' :
  process_all_jobs_cvr db files template_path stamp = Ok (out, files') ->
  Str.contains stamp "/" = false ->
  (forall fs, download_latest_cvr fs = Raise (FileNotFoundError "No processed CVR found")
              <-> glob_xlsx fs PROCESSED_CVR_DIR = []) /\
  exists latest,
    download_latest_cvr files' = Ok latest /\
    In latest (List.map fst files') /\
    String.leb (path out) latest = true /\
    ((forall p, In p (glob_xlsx files PROCESSED_CVR_DIR) -> String.leb p (path out) = true) ->
     latest = path out).
Proof.
  intros Hrun Hstamp. split.
  - intros fs. unfold download_latest_cvr. split.
    + intros H. destruct (glob_xlsx fs PROCESSED_CVR_DIR) as [|x l] eqn:E; [reflexivity|].
      destruct (last_of_nonempty (sorted (x :: l))) as [p Hp];
        [apply sorted_nonempty; discriminate|].
      rewrite Hp in H. discriminate.
    + now intros ->.
  - unfold process_all_jobs_cvr in Hrun.
    destruct (match template_path with Some (String c p) => _ | _ => _ end)
      as [tp|e]; cbn in Hrun; [|discriminate].
    destruct (read_file files tp) as [sheet|]; cbn in Hrun; [|discriminate].
    destruct (process_rows db sheet (data_rows sheet)) as [rows|e]; cbn in Hrun;
      [|discriminate].
    injection Hrun as <- <-. cbn [path].
    set (out_path := PROCESSED_CVR_DIR ++ "/" ++ "cvr_processed_" ++ stamp ++ ".xlsx").
    assert (Hglob : glob_xlsx (write_file files out_path
                                 {| header := header sheet; data_rows := rows |})
                      PROCESSED_CVR_DIR
                    = out_path :: List.filter (in_dir_xlsx PROCESSED_CVR_DIR)
                                    (List.map fst
                                       (List.filter (fun f => negb (String.eqb f.1 out_path))
                                          files))).
    { unfold glob_xlsx, write_file. cbn [List.map List.filter fst].
      unfold out_path at 1. now rewrite (processed_path_matches stamp Hstamp). }
    unfold download_latest_cvr. rewrite Hglob.
    destruct (last_of_nonempty (sorted (out_path :: List.filter (in_dir_xlsx PROCESSED_CVR_DIR)
                (List.map fst (List.filter (fun f => negb (String.eqb f.1 out_path)) files)))))
      as [latest Hlatest]; [apply sorted_nonempty; discriminate|].
    rewrite Hlatest. exists latest. split; [reflexivity|].
    destruct (last_of_ascending _ _ (sorted_ascending _) Hlatest) as [Hin Hmax].
    apply (proj1 (sorted_in _ _)) in Hin. apply in_inv in Hin.
    assert (Hsub : forall p,
              In p (List.filter (in_dir_xlsx PROCESSED_CVR_DIR)
                      (List.map fst
                         (List.filter (fun f => negb (String.eqb f.1 out_path)) files))) ->
              In p (glob_xlsx files PROCESSED_CVR_DIR) /\
              In p (List.map fst files)).
    { intros p Hp. apply filter_In in Hp as [Hp Hdir].
      apply in_map_iff in Hp as (f & <- & Hf). apply filter_In in Hf as [Hf _].
      split; [|now apply in_map].
      unfold glob_xlsx. apply filter_In. split; [now apply in_map|exact Hdir]. }
    split; [|split].
    + unfold write_file. cbn [List.map fst]. destruct Hin as [<-|Hin]; [now left|].
      right. apply filter_In in Hin as [Hin _].
      apply in_map_iff in Hin as (f & <- & Hf). now apply in_map.
    + apply Hmax, sorted_in. now left.
    + intros Hnone. destruct Hin as [<-|Hin]; [reflexivity|].
      apply string_leb_antisym.
      * apply Hnone. now apply Hsub.
      * apply Hmax, sorted_in. now left.
Qed.

Lemma download_follows_processing_witness :
  exists latest,
    download_latest_cvr
      (("CVR_Processed/cvr_processed_20240302_120000.xlsx", CvrBatchExamples.old_template)
       :: CvrBatchExamples.header_only_uploads) = Ok latest /\
    latest = "CVR_Processed/cvr_processed_20240302_120000.xlsx".
Proof.
  destruct (download_follows_processing CrudExamples.db0
              CvrBatchExamples.header_only_uploads None CvrBatchExamples.stamp
              _ _ eq_refl eq_refl) as (_ & latest & Hd & _ & _ & Hlast).
  exists latest. split; [exact Hd|]. apply Hlast. intros p [].
Defined.

End CvrTemplateFacts.
(** ** Category costs and the first update of a job sheet (update_cvr.py) *)

Section CvrCostFacts.
Import UpdateCvr UpdateCvrSpec CvrDashboard.

Lemma lower_upper_char c : Str.lower_char (Str.upper_char c) = Str.lower_char c.
Proof. destruct c as [[] [] [] [] [] [] [] []]; reflexivity. Qed.

Lemma lower_upper s : Str.lower (Str.upper s) = Str.lower s.
Proof.
  unfold Str.lower, Str.upper. induction s as [|c s IH]; [reflexivity|].
  cbn [Str.map]. now rewrite lower_upper_char, IH.
Qed.

Lemma keyword_hit_upper keywords expense_type :
  keyword_hit keywords (Str.upper expense_type) = keyword_hit keywords expense_type /\
  keyword_hit (List.map Str.upper keywords) expense_type = keyword_hit keywords expense_type.
Proof.
  unfold keyword_hit. split; [now rewrite lower_upper|].
  induction keywords as [|k ks IH]; [reflexivity|].
  cbn [List.map existsb]. now rewrite lower_upper, IH.
Qed.

Lemma sum_matching_total keywords items :
  forall t,
    (forall item, In item items -> keyword_hit keywords item.1 = true ->
       exists q, item.2 = PyNum q) ->
    exists total,
      sum_matching keywords items t = Ok total /\
      (total == t + Crud.Qsum (List.map (fun item => cell_number item.2)
                            (List.filter (fun item => keyword_hit keywords item.1) items)))%Q.
Proof.
  induction items as [|[e v] items IH]; intros t Hnum.
  - exists t. split; [reflexivity|]. cbn. ring.
  - cbn [sum_matching List.filter fst].
    assert (Hrest : forall item, In item items -> keyword_hit keywords item.1 = true ->
              exists q, item.2 = PyNum q)
      by (intros item Hin; apply Hnum; now right).
    destruct (keyword_hit keywords e) eqn:Hhit.
    + destruct (Hnum (e, v) (or_introl eq_refl) Hhit) as [q Hq]. cbn in Hq. subst v.
      cbn [py_add_num]. cbn [mbind res_bind].
      destruct (IH (t + q)%Q Hrest) as (total & -> & Htotal).
      exists total. split; [reflexivity|]. rewrite Htotal.
      cbn [List.map snd cell_number]. unfold Crud.Qsum. cbn [fold_right]. ring.
    + exact (IH t Hrest).
Qed.

Lemma sum_matching_raises keywords items :
  forall t,
    (exists item, In item items /\ keyword_hit keywords item.1 = true /\
                  forall q, item.2 <> PyNum q) ->
    exists what, sum_matching keywords items t = Raise (TypeError what).
Proof.
  induction items as [|[e v] items IH]; intros t (item & Hin & Hhit & Hbad);
    [contradiction|].
  cbn [sum_matching].
  destruct Hin as [<-|Hin].
  - cbn [fst snd] in *. rewrite Hhit.
    destruct v as [|q|s]; [cbn; eauto|now destruct (Hbad q)|cbn; eauto].
  - destruct (keyword_hit keywords e); [|apply IH; eauto].
    destruct v as [|q|s]; [cbn; eauto|cbn; apply IH; eauto|cbn; eauto].
Qed.

Lemma sum_matching_filter keywords items :
  forall t,
    sum_matching keywords items t
    = sum_matching keywords
        (List.filter (fun item => keyword_hit keywords item.1) items) t.
Proof.
  induction items as [|[e v] items IH]; intros t; [reflexivity|].
  cbn [sum_matching List.filter fst].
  destruct (keyword_hit keywords e) eqn:Hhit; [|apply IH].
  cbn [sum_matching]. rewrite Hhit.
  destruct (py_add_num t v) as [total|err]; cbn [mbind res_bind]; [apply IH|reflexivity].
Qed.

(** X16.  [_calculate_category_cost] reads only the breakdown entries
    whose expense type contains a keyword of the category, letter case
    disregarded on both sides: the other entries, whatever they hold, do
    not change the result, and a category without keywords costs 0.  When
    every matching entry is a number the call returns a cost; when some
    matching entry is not a number it raises [TypeError]. *)
Theorem category_cost_reads_matching_entries rules breakdown category :
  let keywords := default [] (cost_categories rules !! category) in
  let hit := fun item : string * pyval => keyword_hit keywords item.1 in
  _calculate_category_cost rules breakdown category
  = _calculate_category_cost rules (List.filter hit breakdown) category /\
  (cost_categories rules !! category = None ->
   _calculate_category_cost rules breakdown category = Ok 0%Q) /\
  ((forall item, In item breakdown -> hit item = true -> exists q, item.2 = PyNum q) ->
   exists total, _calculate_category_cost rules breakdown category = Ok total) /\
  ((exists item, In item breakdown /\ hit item = true /\ forall q, item.2 <> PyNum q) ->
   exists what, _calculate_category_cost rules breakdown category = Raise (TypeError what)) /\
  (forall expense_type,
     keyword_hit keywords (Str.upper expense_type) = keyword_hit keywords expense_type /\
     keyword_hit (List.map Str.upper keywords) expense_type
     = keyword_hit keywords expense_type).
Proof.
  cbv zeta. unfold _calculate_category_cost. split; [|split; [|split; [|split]]].
  - apply sum_matching_filter.
  - intros ->. cbn [default]. induction breakdown as [|[e v] l IH]; [reflexivity|exact IH].
  - intros Hnum. destruct (sum_matching_total _ breakdown 0%Q Hnum) as (total & Hrun & _).
    exists total. exact Hrun.
  - apply sum_matching_raises.
  - intros expense_type. apply keyword_hit_upper.
Qed.





End CvrCostFacts.

(** ** Reading the ledger back (update_cvr.py) *)

Section StrOpsFacts.








Lemma contains_char_false c s :
  Str.forallb (fun d => negb (Ascii.eqb c d)) s = true ->
  Str.contains s (String c "") = false.
Proof.
  unfold Str.contains. induction s as [|d s IH]; [reflexivity|].
  cbn [Str.forallb Str.contains_by Str.prefix_by]. intros H.
  apply andb_true_iff in H as [Hd Hs]. apply negb_true_iff in Hd.
  rewrite Hd, (IH Hs). reflexivity.
Qed.



End StrOpsFacts.

Section CvrDashboardFacts.
Import UpdateCvr UpdateCvrSpec CvrDashboard.

Variable float_of_text : string -> option Q.




End CvrDashboardFacts.

(** ** Batch updates of the ledger (update_cvr.py) *)

Section CvrBatchUpdateFacts.
Import UpdateCvr CvrDashboard CvrDashboardSpec.






End CvrBatchUpdateFacts.

(** ** Budget evaluation over all jobs (budget_check.py) *)

Section BudgetCheckAllFacts.
Import Models BudgetCheck BudgetCheckAll.

(** X20.  Whatever the database and the thresholds, [check_all_jobs_budgets]
    reports no job as checked and no alert: the check of every single job
    fails (no such job budgets, or the attribute the loop reads does not
    exist), and a failed check is left out of the report. *)
Theorem check_all_jobs_budgets_reports_nothing config db :
  check_all_jobs_budgets config db
  = {| total_jobs_checked := 0; total_alerts := 0; job_results := ∅ |}.
Proof.
  unfold check_all_jobs_budgets.
  assert (Hloop : forall rows acc, fold_left (check_one config db) rows acc = acc).
  { induction rows as [|job rest IH]; intros acc; [reflexivity|].
    cbn [fold_left]. rewrite <- (IH acc) at 2. f_equal.
    unfold check_one.
    destruct (check_job_budgets config db (Job.job_code job)) as [code status alerts|e]
      eqn:Hcheck; [|reflexivity].
    now apply check_job_budgets_never_succeeds in Hcheck. }
  rewrite Hloop. reflexivity.
Qed.

End BudgetCheckAllFacts.
(** ** The job mappings of the P&L normalizer (parse_pnl.py) *)

Section PnlMappingsFacts.
Import Models ParsePnl PnlMappings PnlMappingsSpec.

Variable float_of_text : string -> option Q.
Variable text_of_float : Q -> string.

Lemma load_loop_lookup (rows : list Job.t) (mappings : gmap string nat) code :
  fold_left (fun (mappings : gmap string nat) job =>
               <[Job.job_code job := Job.id job]> mappings) rows mappings
  !! code
  = match find (fun j => String.eqb (Job.job_code j) code) (rev rows) with
    | Some job => Some (Job.id job)
    | None => mappings !! code
    end.
Proof.
  revert mappings. induction rows as [|job rest IH]; intros mappings; [reflexivity|].
  cbn [fold_left rev]. rewrite IH.
  destruct (find _ (rev rest)) as [found|] eqn:Hfind.
  - now rewrite (find_app_some _ _ _ _ Hfind).
  - rewrite find_app_none by exact Hfind. cbn [find].
    destruct (String.eqb (Job.job_code job) code) eqn:E.
    + apply String.eqb_eq in E as <-. apply lookup_insert_eq.
    + apply String.eqb_neq in E. now apply lookup_insert_ne.
Qed.

Lemma find_rev_unique code (rows : list Job.t) :
  List.NoDup (List.map Job.job_code rows) ->
  find (fun j => String.eqb (Job.job_code j) code) (rev rows)
  = find (fun j => String.eqb (Job.job_code j) code) rows.
Proof.
  induction rows as [|job rest IH]; [reflexivity|]. cbn [List.map rev find].
  intros H. inversion H as [|? ? Hnotin Hrest]; subst.
  destruct (String.eqb (Job.job_code job) code) eqn:E.
  - apply String.eqb_eq in E. rewrite find_app_none.
    + cbn [find]. apply String.eqb_eq in E. now rewrite E.
    + rewrite IH by assumption. apply find_none_all. intros j Hj.
      apply String.eqb_neq. intros Hc. apply Hnotin. rewrite E, <- Hc. now apply in_map.
  - rewrite <- (IH Hrest).
    destruct (find _ (rev rest)) as [found|] eqn:Hfind.
    + now rewrite (find_app_some _ _ _ _ Hfind).
    + rewrite find_app_none by exact Hfind. cbn [find]. now rewrite E.
Qed.

(** X21.  A fresh parser after [load_job_mappings] maps a job code to the
    id of the job with that code among the jobs [get_all_jobs] returns
    (the first 100), to the last one if several share the code, and has no
    entry for any other code.  When the job codes are distinct and there
    are at most 100 jobs, the mappings answer as [get_job_by_code] does. *)
Theorem load_job_mappings_follows_the_jobs db code :
  job_mappings (load_job_mappings (new_parser db)) !! code
  = Job.id <$> find (fun j => String.eqb (Job.job_code j) code) (rev (Crud.get_all_jobs db)) /\
  (List.NoDup (List.map Job.job_code (jobs db)) -> (length (jobs db) <= 100)%nat ->
   job_mappings (load_job_mappings (new_parser db)) !! code
   = Job.id <$> Crud.get_job_by_code db code).
Proof.
  assert (Hlast :
    job_mappings (load_job_mappings (new_parser db)) !! code
    = Job.id <$> find (fun j => String.eqb (Job.job_code j) code)
                   (rev (Crud.get_all_jobs db))).
  { unfold load_job_mappings, new_parser. cbn [job_mappings ParsePnl.db].
    rewrite load_loop_lookup. destruct (find _ _); [reflexivity|apply lookup_empty]. }
  split; [exact Hlast|]. intros Hnd Hlen. rewrite Hlast.
  unfold Crud.get_all_jobs, Crud.get_job_by_code.
  rewrite firstn_all2 by exact Hlen. now rewrite find_rev_unique.
Qed.

Lemma recorded_refl known p : recorded known p p [].
Proof.
  unfold recorded. rewrite app_nil_r. cbn [length]. rewrite Nat.add_0_r.
  repeat split. intros e [].
Qed.

Lemma recorded_trans known p0 p1 p2 new1 new2 :
  recorded known p0 p1 new1 -> recorded known p1 p2 new2 ->
  recorded known p0 p2 (app new1 new2).
Proof.
  intros (Hdb1 & Hmap1 & Hexp1 & Hcount1 & Hjobs1) (Hdb2 & Hmap2 & Hexp2 & Hcount2 & Hjobs2).
  unfold recorded. rewrite Hdb2, Hmap2, Hexp2, Hexp1, Hcount2, Hcount1, length_app.
  split; [exact Hdb1|]. split; [exact Hmap1|]. split; [now rewrite app_assoc|].
  split; [lia|]. intros e He. apply in_app_or in He as [He|He]; [now apply Hjobs1|].
  destruct (Hjobs2 e He) as (job_code & Hin & Hlookup & Hpos).
  exists job_code. now rewrite <- Hmap1.
Qed.

Lemma process_cell_recorded known account_name amount job_code p :
  In job_code known ->
  exists new,
    recorded known p (process_cell float_of_text account_name amount job_code p) new.
Proof.
  intros Hknown. unfold process_cell.
  destruct (cell_amount float_of_text amount) as [[q|e]|];
    [|exists []; unfold recorded; cbn; rewrite app_nil_r, Nat.add_0_r;
        repeat split; intros ? []
     |exists []; apply recorded_refl].
  destruct (job_mappings (parser p) !! job_code) as [[|n]|] eqn:Hlookup.
  - rewrite create_job_if_not_exists_fails. exists []. unfold recorded. cbn.
    rewrite app_nil_r, Nat.add_0_r. repeat split. intros ? [].
  - destruct (categorize_expense account_name) as [c|e].
    + eexists [_]. unfold recorded. cbn [parser db job_mappings processed_expenses
                                          processed_count length].
      repeat split; [lia|]. intros e [<-|[]]. exists job_code. cbn [job_id].
      repeat split; [exact Hknown|exact Hlookup|discriminate].
    + exists []. unfold recorded. cbn. rewrite app_nil_r, Nat.add_0_r.
      repeat split. intros ? [].
  - rewrite create_job_if_not_exists_fails. exists []. unfold recorded. cbn.
    rewrite app_nil_r, Nat.add_0_r. repeat split. intros ? [].
Qed.

Lemma process_cells_recorded known cols row account_name job_cols p :
  (forall entry, In entry job_cols -> In entry.2 known) ->
  exists new,
    recorded known p (process_cells float_of_text cols row account_name job_cols p) new.
Proof.
  revert p. induction job_cols as [|[col_name job_code] rest IH]; intros p Hknown.
  - exists []. apply recorded_refl.
  - cbn [process_cells].
    destruct (process_cell_recorded known account_name
                (default (CNum 0) (row_get cols row col_name)) job_code p) as [new1 H1].
    { apply (Hknown (col_name, job_code)). now left. }
    destruct (IH (process_cell float_of_text account_name
                    (default (CNum 0) (row_get cols row col_name)) job_code p)) as [new2 H2].
    { intros entry Hin. apply Hknown. now right. }
    exists (app new1 new2). eapply recorded_trans; eassumption.
Qed.

(** X22.  The row loop of [process_pnl_data] only records: it leaves the
    database and the job mappings as they were (it never manages to create
    a job), the expenses it appends are as many as 'processed_count' says,
    and each of them belongs to a job that the mappings held, under the
    code of one of the job columns of the sheet, before the call. *)
Theorem process_pnl_data_records_known_jobs self df :
  exists new,
    recorded (List.map snd (job_columns (columns df)))
      {| parser := self; processed_count := 0; skipped_count := 0 |}
      (process_pnl_data float_of_text text_of_float self df) new.
Proof.
  unfold process_pnl_data.
  generalize {| parser := self; processed_count := 0; skipped_count := 0 |}.
  induction (rows df) as [|row rest IH]; intros p.
  - exists []. apply recorded_refl.
  - cbn [fold_left].
    assert (Hrow : exists new1,
      recorded (List.map snd (job_columns (columns df))) p
        (process_row float_of_text text_of_float (columns df) (job_columns (columns df))
           row p) new1).
    { unfold process_row. destruct (account_of _ _ _) as [account_name|];
        [|exists []; apply recorded_refl].
      destruct (Str.any_in _ _); [exists []; apply recorded_refl|].
      apply process_cells_recorded. intros entry Hin. now apply in_map. }
    destruct Hrow as [new1 H1].
    destruct (IH (process_row float_of_text text_of_float (columns df)
                    (job_columns (columns df)) row p)) as [new2 H2].
    exists (app new1 new2). eapply recorded_trans; eassumption.
Qed.

End PnlMappingsFacts.
(** ** Queries on a parsed invoice report (parse_invoice.py) *)

Section InvoiceQueriesFacts.
Import ParseInvoice InvoiceQueries.

Variable float_of_text : string -> option Q.
Variable datetime_of : Cell -> option Z.
Variable text_of : Cell -> string.

Lemma job_entry_fields now df code job_df job :
  job_entry text_of now df code job_df = Ok job ->
  job_code job = code /\
  invoices job = List.map (invoice_info text_of now df) job_df /\
  paid_invoices_count job
  = length (List.filter (fun inv => String.eqb (status inv) "PAID") (invoices job)) /\
  unpaid_invoices_count job
  = length (List.filter (fun inv => String.eqb (status inv) "UNPAID") (invoices job)).
Proof.
  unfold job_entry, column.
  destruct (has_column df "Amount"); cbn [mbind res_bind]; [|discriminate].
  destruct (has_column df "Balance"); cbn [mbind res_bind]; [|discriminate].
  intros [= <-]. cbn [job_code invoices paid_invoices_count unpaid_invoices_count].
  split; [reflexivity|]. split; [reflexivity|].
  split; induction job_df as [|row rest IH]; try reflexivity;
    cbn [List.map List.filter]; cbn [status invoice_info]; unfold get_num, Qltb;
    destruct (row_get (columns df) row "Balance") as [cell|]; cbn [default];
    (destruct (Qle_bool _ 0); cbn [negb String.eqb length]; cbn; now rewrite <- IH).
Qed.

Lemma job_entries_sound now df codes data :
  job_entries text_of now df codes = Ok data ->
  forall code job, In (code, job) data ->
    In code codes /\ code <> "UNASSIGNED" /\
    job_entry text_of now df code
      (List.filter (fun row => String.eqb (class_of text_of df row) code) (rows df))
    = Ok job.
Proof.
  revert data. induction codes as [|c rest IH]; intros data.
  - intros [= <-] code job [].
  - cbn [job_entries]. destruct (String.eqb c "UNASSIGNED") eqn:E.
    + intros H code job Hin. destruct (IH data H code job Hin) as (H1 & H2 & H3).
      split; [now right|]. now split.
    + destruct (job_entry text_of now df c _) as [entry|] eqn:Hentry;
        cbn [mbind res_bind]; [|discriminate].
      destruct (job_entries text_of now df rest) as [more|]; cbn [mbind res_bind];
        [|discriminate].
      intros [= <-] code job [[= <- <-]|Hin].
      * split; [now left|]. split; [now apply String.eqb_neq|exact Hentry].
      * destruct (IH more eq_refl code job Hin) as (H1 & H2 & H3).
        split; [now right|]. now split.
Qed.

Lemma job_entries_complete now df codes data code :
  job_entries text_of now df codes = Ok data ->
  In code codes -> code <> "UNASSIGNED" ->
  exists job, In (code, job) data.
Proof.
  revert data. induction codes as [|c rest IH]; intros data; [intros _ []|].
  cbn [job_entries]. destruct (String.eqb c "UNASSIGNED") eqn:E.
  - apply String.eqb_eq in E. intros H [->|Hin] Hne; [contradiction|]. now apply IH.
  - destruct (job_entry text_of now df c _) as [entry|]; cbn [mbind res_bind];
      [|discriminate].
    destruct (job_entries text_of now df rest) as [more|]; cbn [mbind res_bind];
      [|discriminate].
    intros [= <-] [->|Hin] Hne.
    + exists entry. now left.
    + destruct (IH more eq_refl Hin Hne) as [job Hjob]. exists job. now right.
Qed.

Lemma counts_split (l : list InvoiceInfo) :
  (forall inv, In inv l -> status inv = "PAID" \/ status inv = "UNPAID") ->
  (length (List.filter (fun inv => String.eqb (status inv) "PAID") l)
   + length (List.filter (fun inv => String.eqb (status inv) "UNPAID") l)
   = length l)%nat.
Proof.
  induction l as [|inv rest IH]; intros H; [reflexivity|]. cbn [List.filter].
  specialize (IH (fun i Hi => H i (or_intror Hi))).
  destruct (H inv (or_introl eq_refl)) as [-> | ->]; cbn [String.eqb Ascii.eqb]; cbn; lia.
Qed.

Lemma parsed_data now df data summary :
  parse_invoice_file float_of_text datetime_of text_of now df = Parsed data summary ->
  let cleaned := _clean_dataframe float_of_text datetime_of text_of df in
  job_entries text_of now cleaned
    (fold_right insert_key [] (List.map (class_of text_of cleaned) (rows cleaned)))
  = Ok data /\
  summary = _generate_summary data.
Proof.
  cbv zeta. unfold parse_invoice_file, _process_invoice_data.
  destruct (has_column _ "Class"); [|discriminate].
  destruct (job_entries _ _ _ _) as [d|]; [|discriminate].
  now intros [= <- <-].
Qed.

(** X23.  In a parsed report every invoice of a job is counted exactly
    once: the entry stored under a job code carries that code, its
    'paid_invoices_count' and 'unpaid_invoices_count' are the numbers of
    its invoices listed with status PAID and UNPAID, and they add up to
    the number of invoices listed; the two counts of the summary add up to
    the number of invoices of all jobs. *)
Theorem every_invoice_is_counted_once now df data summary :
  parse_invoice_file float_of_text datetime_of text_of now df = Parsed data summary ->
  (forall code job, In (code, job) data ->
     job_code job = code /\
     paid_invoices_count job
     = length (List.filter (fun inv => String.eqb (status inv) "PAID") (invoices job)) /\
     unpaid_invoices_count job
     = length (List.filter (fun inv => String.eqb (status inv) "UNPAID") (invoices job)) /\
     (paid_invoices_count job + unpaid_invoices_count job = length (invoices job))%nat) /\
  (summary_paid_count summary + summary_unpaid_count summary
   = length (List.concat (List.map (fun entry => invoices entry.2) data)))%nat.
Proof.
  intros Hparse. destruct (parsed_data _ _ _ _ Hparse) as [Hdata ->].
  assert (Hjob : forall code job, In (code, job) data ->
     job_code job = code /\
     paid_invoices_count job
     = length (List.filter (fun inv => String.eqb (status inv) "PAID") (invoices job)) /\
     unpaid_invoices_count job
     = length (List.filter (fun inv => String.eqb (status inv) "UNPAID") (invoices job)) /\
     (paid_invoices_count job + unpaid_invoices_count job = length (invoices job))%nat).
  { intros code job Hin.
    destruct (job_entries_sound _ _ _ _ Hdata code job Hin) as (_ & _ & Hentry).
    destruct (job_entry_fields _ _ _ _ _ Hentry) as (Hcode & Hinv & Hpaid & Hunpaid).
    split; [exact Hcode|]. split; [exact Hpaid|]. split; [exact Hunpaid|].
    rewrite Hpaid, Hunpaid. apply counts_split. rewrite Hinv. intros inv Hi.
    apply in_map_iff in Hi as (row & <- & _). cbn [status invoice_info].
    destruct (Qle_bool _ 0); [now left|now right]. }
  split; [exact Hjob|]. cbn [summary_paid_count summary_unpaid_count _generate_summary].
  clear Hdata Hparse. induction data as [|[code job] rest IH]; [reflexivity|].
  cbn [List.map List.concat snd]. unfold list_sum in *. cbn [fold_right].
  rewrite length_app.
  destruct (Hjob code job (or_introl eq_refl)) as (_ & _ & _ & Hsum).
  specialize (IH (fun c j Hin => Hjob c j (or_intror Hin))). lia.
Qed.

(** X24.  [get_job_invoice_summary] on a file that parses: for a job code
    it returns an entry exactly when the code is not UNASSIGNED and is the
    class (trimmed, in upper case) of some row of the cleaned sheet; the
    entry then carries the code and lists the invoices of exactly the rows
    of that class, in the order of the sheet. *)
Theorem job_invoice_summary_finds_the_classes now df data summary job_code :
  parse_invoice_file float_of_text datetime_of text_of now df = Parsed data summary ->
  let cleaned := _clean_dataframe float_of_text datetime_of text_of df in
  match get_job_invoice_summary float_of_text datetime_of text_of now df job_code with
  | Some job =>
      job_code <> "UNASSIGNED" /\
      (exists row, In row (rows cleaned) /\ class_of text_of cleaned row = job_code) /\
      ParseInvoice.job_code job = job_code /\
      invoices job
      = List.map (invoice_info text_of now cleaned)
          (List.filter (fun row => String.eqb (class_of text_of cleaned row) job_code)
             (rows cleaned))
  | None =>
      job_code = "UNASSIGNED" \/
      forall row, In row (rows cleaned) -> class_of text_of cleaned row <> job_code
  end.
Proof.
  intros Hparse. cbv zeta. destruct (parsed_data _ _ _ _ Hparse) as [Hdata _].
  unfold get_job_invoice_summary. rewrite Hparse. clear Hparse.
  generalize dependent (_clean_dataframe float_of_text datetime_of text_of df).
  intros cleaned Hdata.
  destruct (find _ data) as [[code job]|] eqn:Hfind; cbn [fmap option_fmap option_map snd].
  - apply find_some in Hfind as [Hin Heq]. cbn [fst] in Heq.
    apply String.eqb_eq in Heq. subst code.
    destruct (job_entries_sound _ _ _ _ Hdata _ _ Hin) as (Hcodes & Hne & Hentry).
    destruct (job_entry_fields _ _ _ _ _ Hentry) as (Hcode & Hinv & _).
    split; [exact Hne|]. split; [|split; [exact Hcode|exact Hinv]].
    apply (proj1 (group_keys_in float_of_text _ _)) in Hcodes.
    apply in_map_iff in Hcodes as (row & Hclass & Hrow).
    exists row. split; [exact Hrow|exact Hclass].
  - destruct (String.eqb job_code "UNASSIGNED") eqn:E.
    { left. apply String.eqb_eq. exact E. }
    right. apply String.eqb_neq in E. intros row Hrow Hclass.
    destruct (job_entries_complete _ _ _ _ job_code Hdata) as [job Hjob]; [|exact E|].
    + apply (proj2 (group_keys_in float_of_text _ _)). rewrite <- Hclass.
      apply in_map. exact Hrow.
    + apply (find_none _ _ Hfind) in Hjob. cbn [fst] in Hjob.
      rewrite String.eqb_refl in Hjob. discriminate Hjob.
Qed.

(** X25.  On a file that parses, the summary carries an OVERDUE_INVOICES
    advisory for a job exactly when [get_overdue_invoices], with its
    default threshold of 30 days and at the same date, returns an invoice
    of that job; and a larger threshold returns no invoice that a smaller
    one leaves out. *)
Theorem overdue_advisory_matches_overdue_invoices now df data summary :
  parse_invoice_file float_of_text datetime_of text_of now df = Parsed data summary ->
  (forall code,
     In {| advisory_type := "OVERDUE_INVOICES"; advisory_job := code;
           advisory_severity := "HIGH" |} (summary_alerts summary) <->
     exists invoice,
       In (code, invoice)
          (get_overdue_invoices float_of_text datetime_of text_of now df 30)) /\
  (forall d1 d2 entry, (d1 <= d2)%Z ->
     In entry (get_overdue_invoices float_of_text datetime_of text_of now df d2) ->
     In entry (get_overdue_invoices float_of_text datetime_of text_of now df d1)).
Proof.
  intros Hparse. destruct (parsed_data _ _ _ _ Hparse) as [_ ->].
  unfold get_overdue_invoices. rewrite Hparse.
  cbn [summary_alerts _generate_summary]. unfold _generate_alerts. split.
  - intros code. rewrite in_concat. split.
    + intros (alerts & Halerts & Hin). apply in_map_iff in Halerts as ([c job] & <- & Hentry).
      unfold job_alerts in Hin. apply in_app_or in Hin as [Hin|Hin].
      { destruct (Qltb _ 50); [destruct Hin as [[=]|[]]|destruct Hin]. }
      apply in_app_or in Hin as [Hin|Hin].
      { destruct (Qltb 10000 _); [destruct Hin as [[=]|[]]|destruct Hin]. }
      destruct (existsb _ (invoices job)) eqn:Hex; [|destruct Hin].
      destruct Hin as [[= ->]|[]].
      apply existsb_exists in Hex as (invoice & Hinv & Hover).
      exists invoice. apply in_concat. eexists. split.
      * apply in_map_iff. exists (code, job). split; [reflexivity|exact Hentry].
      * cbn [fst snd]. apply in_map. apply filter_In. now split.
    + intros (invoice & Hin). apply in_concat in Hin as (l & Hl & Hin).
      apply in_map_iff in Hl as ([c job] & <- & Hentry). cbn [fst snd] in Hin.
      apply in_map_iff in Hin as (inv & [= -> ->] & Hinv).
      apply filter_In in Hinv as [Hinv Hover].
      exists (job_alerts (code, job)). split; [now apply (in_map job_alerts) in Hentry|].
      unfold job_alerts. apply in_or_app. right. apply in_or_app. right.
      replace (existsb _ (invoices job)) with true; [now left|].
      symmetry. apply existsb_exists. now exists invoice.
  - intros d1 d2 entry Hle Hin. apply in_concat in Hin as (l & Hl & Hin).
    apply in_map_iff in Hl as ([c job] & <- & Hentry). cbn [fst snd] in Hin.
    apply in_map_iff in Hin as (inv & <- & Hinv). apply filter_In in Hinv as [Hinv Hover].
    apply in_concat. eexists. split.
    + apply in_map_iff. exists (c, job). split; [reflexivity|exact Hentry].
    + cbn [fst snd]. apply in_map. apply filter_In. split; [exact Hinv|].
      unfold is_overdue in *. apply andb_true_iff in Hover as [Hs Hd].
      rewrite Hs. apply Z.ltb_lt in Hd. cbn [andb]. apply Z.ltb_lt. lia.
Qed.

End InvoiceQueriesFacts.

Lemma every_invoice_is_counted_once_witness :
  exists data summary,
    ParseInvoice.parse_invoice_file InvoiceQueriesExamples.no_float
      InvoiceQueriesExamples.no_datetime InvoiceQueriesExamples.no_text
      ParseInvoiceExamples.now InvoiceQueriesExamples.overdue_sheet
    = ParseInvoice.Parsed data summary /\
    (ParseInvoice.summary_paid_count summary + ParseInvoice.summary_unpaid_count summary
     = length (List.concat (List.map (fun entry => ParseInvoice.invoices entry.2) data)))%nat.
Proof.
  destruct (ParseInvoice.parse_invoice_file InvoiceQueriesExamples.no_float
              InvoiceQueriesExamples.no_datetime InvoiceQueriesExamples.no_text
              ParseInvoiceExamples.now InvoiceQueriesExamples.overdue_sheet)
    as [data summary|e] eqn:Hparse.
  - exists data, summary. split; [reflexivity|].
    exact (proj2 (every_invoice_is_counted_once _ _ _ _ _ _ _ Hparse)).
  - vm_compute in Hparse. discriminate Hparse.
Defined.

Lemma job_invoice_summary_finds_the_classes_witness :
  exists job,
    InvoiceQueries.get_job_invoice_summary InvoiceQueriesExamples.no_float
      InvoiceQueriesExamples.no_datetime InvoiceQueriesExamples.no_text
      ParseInvoiceExamples.now InvoiceQueriesExamples.overdue_sheet "NDA-001"
    = Some job /\
    ParseInvoice.job_code job = "NDA-001".
Proof.
  destruct (ParseInvoice.parse_invoice_file InvoiceQueriesExamples.no_float
              InvoiceQueriesExamples.no_datetime InvoiceQueriesExamples.no_text
              ParseInvoiceExamples.now InvoiceQueriesExamples.overdue_sheet)
    as [data summary|e] eqn:Hparse.
  - pose proof (job_invoice_summary_finds_the_classes _ _ _ _ _ _ _ "NDA-001" Hparse) as H.
    cbv zeta in H.
    destruct (InvoiceQueries.get_job_invoice_summary _ _ _ _ _ "NDA-001") as [job|] eqn:Hjob.
    + exists job. split; [reflexivity|]. exact (proj1 (proj2 (proj2 H))).
    + vm_compute in Hjob. discriminate Hjob.
  - vm_compute in Hparse. discriminate Hparse.
Defined.

Lemma overdue_advisory_matches_overdue_invoices_witness :
  exists invoice,
    In ("NDA-001", invoice)
       (InvoiceQueries.get_overdue_invoices InvoiceQueriesExamples.no_float
          InvoiceQueriesExamples.no_datetime InvoiceQueriesExamples.no_text
          ParseInvoiceExamples.now InvoiceQueriesExamples.overdue_sheet 30).
Proof.
  destruct (ParseInvoice.parse_invoice_file InvoiceQueriesExamples.no_float
              InvoiceQueriesExamples.no_datetime InvoiceQueriesExamples.no_text
              ParseInvoiceExamples.now InvoiceQueriesExamples.overdue_sheet)
    as [data summary|e] eqn:Hparse.
  - apply (proj1 (overdue_advisory_matches_overdue_invoices _ _ _ _ _ _ _ Hparse)).
    vm_compute in Hparse. injection Hparse as _ <-. right. left. reflexivity.
  - vm_compute in Hparse. discriminate Hparse.
Defined.
